(** * Request-scoped structured logging: a model of
      utils/logger_with_elastic.py and middleware/logging_middleware.py

    The Python code is embedded shallowly.  Python values that travel through
    the logging calls are a small inductive type, dictionaries are insertion
    ordered association lists, exceptions are results of an error monad over
    an explicit world (logger registry, ambient context, trace of effects).
    Clock readings and generated identifiers are arguments of the functions
    that read them.  The library calls follow CPython 3.11 and later with
    its default settings. *)

From Stdlib Require Import String Ascii ZArith List Bool Lia.
From Stdlib Require Import DecimalString DecimalZ DecimalPos.
From stdpp Require Import base option gmap strings.
Import ListNotations.
Set Warnings "-register-all".
Open Scope string_scope.
Open Scope Z_scope.

(** ** Python values *)

(** The values that reach the logging facade: what a call site puts in
    [extra], what a RequestContext field holds.

    [VObj] is an opaque object, given by the name of its type and its
    [str()] text: the json module has no encoding for it, it is no container
    (it cannot be iterated, it has no [update] and no [keys]) and it can be
    hashed.  [copyable] tells what [copy.deepcopy] does with it: an equal
    object (a datetime, a Decimal), or a TypeError (a lock, a generator).

    [VData] is an instance of a dataclass declared with the default
    parameters, given by its fields in declaration order: json cannot encode
    it and it cannot be hashed.

    Strings are sequences of code points below 256.  Floats, tuples, sets
    and dicts with a key that is no string are left out; no dict holds a key
    twice. *)
Inductive pyval : Type :=
| VNone
| VBool (b : bool)
| VInt (z : Z)
| VStr (s : string)
| VList (l : list pyval)
| VDict (d : list (string * pyval))
| VObj (type_name repr : string) (copyable : bool)
| VData (type_name : string) (fields : list (string * pyval)).

(** A Python [dict] with string keys: association list in insertion order. *)
Definition dict (V : Type) : Type := list (string * V).

Section Dict.
Context {V : Type}.

Fixpoint dict_get (k : string) (d : dict V) : option V :=
  match d with
  | [] => None
  | (k', v) :: d' => if String.eqb k k' then Some v else dict_get k d'
  end.

(** [d[k] = v]: an existing key keeps its position, a new key goes last. *)
Fixpoint dict_set (k : string) (v : V) (d : dict V) : dict V :=
  match d with
  | [] => [(k, v)]
  | (k', v') :: d' =>
      if String.eqb k k' then (k', v) :: d' else (k', v') :: dict_set k v d'
  end.

(** [d.update(other)] *)
Definition dict_update (d other : dict V) : dict V :=
  fold_left (fun acc kv => dict_set (fst kv) (snd kv) acc) other d.

Definition dict_keys (d : dict V) : list string := map fst d.

Definition dict_has (k : string) (d : dict V) : bool :=
  match dict_get k d with Some _ => true | None => false end.
End Dict.

Definition is_None (v : pyval) : bool :=
  match v with VNone => true | _ => false end.

(** [type(v).__name__] *)
Definition type_name_of (v : pyval) : string :=
  match v with
  | VNone => "NoneType"
  | VBool _ => "bool"
  | VInt _ => "int"
  | VStr _ => "str"
  | VList _ => "list"
  | VDict _ => "dict"
  | VObj t _ _ => t
  | VData t _ => t
  end.

(** ** Dictionaries with keys of any hashable type

    The dictionary that the structured formatter builds may get keys that
    are no strings.  Such a dictionary is a list of items in insertion
    order; two keys are the same key when Python finds them equal
    ([True == 1], [False == 0]). *)

Definition hashable (v : pyval) : bool :=
  match v with
  | VList _ | VDict _ | VData _ _ => false
  | _ => true
  end.

Definition key_num (v : pyval) : option Z :=
  match v with
  | VInt z => Some z
  | VBool true => Some 1
  | VBool false => Some 0
  | _ => None
  end.

Definition key_eqb (a b : pyval) : bool :=
  match a, b with
  | VStr s, VStr s' => String.eqb s s'
  | VNone, VNone => true
  | VObj t r _, VObj t' r' _ => String.eqb t t' && String.eqb r r'
  | _, _ =>
      match key_num a, key_num b with
      | Some x, Some y => x =? y
      | _, _ => false
      end
  end.

Definition kdict : Type := list (pyval * pyval).

(** [d[k] = v]: the key that is there stays, with the new value. *)
Fixpoint kdict_set (k v : pyval) (d : kdict) : kdict :=
  match d with
  | [] => [(k, v)]
  | (k', v') :: d' =>
      if key_eqb k k' then (k', v) :: d' else (k', v') :: kdict_set k v d'
  end.

Definition kdict_update (d other : kdict) : kdict :=
  fold_left (fun acc kv => kdict_set (fst kv) (snd kv) acc) other d.

(** A dict with string keys as a list of items. *)
Definition kdict_of_dict (d : dict pyval) : kdict :=
  map (fun kv => (VStr (fst kv), snd kv)) d.

Definition nat_text (n : nat) : string :=
  NilZero.string_of_uint (Nat.to_uint n).

(** ** Exceptions *)

Inductive exn_class : Type :=
| TypeError | ValueError | KeyError | AttributeError | LookupError
| ConnectionError | AuthenticationException | SerializationError
| RuntimeError
| CancelledError | KeyboardInterrupt | SystemExit.

Record exn : Type := mkExn { exn_cls : exn_class; exn_msg : string }.

(** [isinstance(e, Exception)]: the three last classes derive from
    BaseException only. *)
Definition is_Exception (e : exn) : bool :=
  match exn_cls e with
  | CancelledError | KeyboardInterrupt | SystemExit => false
  | _ => true
  end.

Definition class_name (c : exn_class) : string :=
  match c with
  | TypeError => "TypeError" | ValueError => "ValueError"
  | KeyError => "KeyError" | AttributeError => "AttributeError"
  | LookupError => "LookupError" | ConnectionError => "ConnectionError"
  | AuthenticationException => "AuthenticationException"
  | SerializationError => "SerializationError"
  | RuntimeError => "RuntimeError" | CancelledError => "CancelledError"
  | KeyboardInterrupt => "KeyboardInterrupt" | SystemExit => "SystemExit"
  end.

Inductive result (A : Type) : Type :=
| Ok (a : A)
| Raise (e : exn).
Arguments Ok {A} a.
Arguments Raise {A} e.

Definition is_Ok {A} (r : result A) : bool :=
  match r with Ok _ => true | Raise _ => false end.

(** ** [dict.update(other)]

    What [update] reads from its argument.  A dict gives its items.  Any
    other argument is iterated, and each element must be a sequence of two
    elements, a key and a value: a list of two, a string of two characters,
    a dict of two keys.  The first element that is none ends the call:
    TypeError when it is no sequence or its key cannot be hashed, ValueError
    when its length is not two.  An argument that cannot be iterated is a
    TypeError; a string that is not empty is a ValueError (its elements have
    length one). *)

Definition update_pair (i : nat) (x : pyval) : result (pyval * pyval) :=
  let wrong_length (n : nat) :=
    Raise (mkExn ValueError
      ("dictionary update sequence element #" ++ nat_text i ++ " has length "
         ++ nat_text n ++ "; 2 is required")) in
  let item (k v : pyval) :=
    if hashable k then Ok (k, v)
    else Raise (mkExn TypeError ("unhashable type: '" ++ type_name_of k ++ "'")) in
  match x with
  | VList [k; v] => item k v
  | VList l => wrong_length (List.length l)
  | VStr (String a (String b "")) => Ok (VStr (String a ""), VStr (String b ""))
  | VStr s => wrong_length (String.length s)
  | VDict [(k1, _); (k2, _)] => Ok (VStr k1, VStr k2)
  | VDict d => wrong_length (List.length d)
  | _ =>
      Raise (mkExn TypeError
        ("cannot convert dictionary update sequence element #" ++ nat_text i
           ++ " to a sequence"))
  end.

Fixpoint update_pairs (i : nat) (l : list pyval) : result kdict :=
  match l with
  | [] => Ok []
  | x :: l' =>
      match update_pair i x with
      | Raise e => Raise e
      | Ok kv =>
          match update_pairs (S i) l' with
          | Raise e => Raise e
          | Ok kvs => Ok (kv :: kvs)
          end
      end
  end.

Definition update_items (other : pyval) : result kdict :=
  match other with
  | VDict d => Ok (kdict_of_dict d)
  | VList l => update_pairs 0 l
  | VStr "" => Ok []
  | VStr (String _ _) =>
      Raise (mkExn ValueError
        "dictionary update sequence element #0 has length 1; 2 is required")
  | _ =>
      Raise (mkExn TypeError ("'" ++ type_name_of other ++ "' object is not iterable"))
  end.

(** ** The json module *)

Module json.

Definition dquote : ascii := "034"%char.
Definition backslash : ascii := "092"%char.

Definition hex_digit (n : N) : ascii :=
  match n with
  | 0 => "0" | 1 => "1" | 2 => "2" | 3 => "3" | 4 => "4" | 5 => "5"
  | 6 => "6" | 7 => "7" | 8 => "8" | 9 => "9" | 10 => "a" | 11 => "b"
  | 12 => "c" | 13 => "d" | 14 => "e" | _ => "f"
  end%N%char.

(** One character under [ensure_ascii=True]: the quote, the backslash
    and the five short escapes, printable ASCII as it is, everything else
    as a four digit \u escape. *)
Definition escape_char (c : ascii) : string :=
  let n := N_of_ascii c in
  if (n =? 34)%N then String backslash (String dquote "")
  else if (n =? 92)%N then String backslash (String backslash "")
  else if (n =? 10)%N then "\n"
  else if (n =? 13)%N then "\r"
  else if (n =? 9)%N then "\t"
  else if (n =? 12)%N then "\f"
  else if (n =? 8)%N then "\b"
  else if ((32 <=? n) && (n <=? 126))%N then String c ""
  else "\u00" ++ String (hex_digit (n / 16)) (String (hex_digit (n mod 16)) "").

Fixpoint escape (s : string) : string :=
  match s with
  | "" => ""
  | String c s' => escape_char c ++ escape s'
  end.

Definition quote (s : string) : string :=
  String dquote (escape s ++ String dquote "").

Definition string_of_Z (z : Z) : string :=
  NilZero.string_of_int (Z.to_int z).

(** [int.__repr__] refuses an integer of more than 4300 digits
    ([sys.int_max_str_digits]), and so does [int(str)]. *)
Definition max_str_digits : nat := 4300.

Definition exceeds_limit (z : Z) : bool :=
  (max_str_digits <? String.length (string_of_Z (Z.abs z)))%nat.

Definition int_limit_error : exn :=
  mkExn ValueError "Exceeds the limit (4300 digits) for integer string conversion".

(** The text of a value, with the default separators [", "] and [": "].
    ([VObj] and [VData] have none: [dumps] raises before it is asked
    for.) *)
Fixpoint render (v : pyval) : string :=
  match v with
  | VNone => "null"
  | VBool true => "true"
  | VBool false => "false"
  | VInt z => string_of_Z z
  | VStr s => quote s
  | VList l =>
      "[" ++ (fix items (l : list pyval) : string :=
                match l with
                | [] => "]"
                | [x] => render x ++ "]"
                | x :: l' => render x ++ ", " ++ items l'
                end) l
  | VDict d =>
      "{" ++ (fix members (d : list (string * pyval)) : string :=
                match d with
                | [] => "}"
                | [(k, x)] => quote k ++ ": " ++ render x ++ "}"
                | (k, x) :: d' => quote k ++ ": " ++ render x ++ ", " ++ members d'
                end) d
  | VObj _ _ _ => ""
  | VData _ _ => ""
  end.

(** The items of a list and the members of a dict as [render] writes
    them, closing bracket included. *)
Fixpoint render_items (l : list pyval) : string :=
  match l with
  | [] => "]"
  | [x] => render x ++ "]"
  | x :: l' => render x ++ ", " ++ render_items l'
  end.

Fixpoint render_members (d : list (string * pyval)) : string :=
  match d with
  | [] => "}"
  | [(k, x)] => quote k ++ ": " ++ render x ++ "}"
  | (k, x) :: d' => quote k ++ ": " ++ render x ++ ", " ++ render_members d'
  end.

(** The type name of the first object, in encoding order, that the
    encoder cannot handle. *)
Fixpoint unserializable (v : pyval) : option string :=
  match v with
  | VList l =>
      (fix items (l : list pyval) : option string :=
         match l with
         | [] => None
         | x :: l' =>
             match unserializable x with Some t => Some t | None => items l' end
         end) l
  | VDict d =>
      (fix members (d : list (string * pyval)) : option string :=
         match d with
         | [] => None
         | (_, x) :: d' =>
             match unserializable x with Some t => Some t | None => members d' end
         end) d
  | VObj t _ _ => Some t
  | VData t _ => Some t
  | _ => None
  end.

Definition not_serializable (t : string) : exn :=
  mkExn TypeError ("Object of type " ++ t ++ " is not JSON serializable").

(** The error that ends the encoding of a value: the first, in encoding
    order, of an object without encoding (TypeError) and an integer above
    the limit (ValueError). *)
Fixpoint encode_error (v : pyval) : option exn :=
  match v with
  | VInt z => if exceeds_limit z then Some int_limit_error else None
  | VList l =>
      (fix items (l : list pyval) : option exn :=
         match l with
         | [] => None
         | x :: l' =>
             match encode_error x with Some e => Some e | None => items l' end
         end) l
  | VDict d =>
      (fix members (d : list (string * pyval)) : option exn :=
         match d with
         | [] => None
         | (_, x) :: d' =>
             match encode_error x with Some e => Some e | None => members d' end
         end) d
  | VObj t _ _ => Some (not_serializable t)
  | VData t _ => Some (not_serializable t)
  | _ => None
  end.

(** [json.dumps(obj)] with no [default=] hook. *)
Definition dumps (v : pyval) : result string :=
  match encode_error v with
  | Some e => Raise e
  | None => Ok (render v)
  end.

(** [json.dumps] of a dict whose keys need not be strings.  A key that is
    an integer, a boolean or None is written as its text; any other key
    that is no string is a TypeError.  The items are encoded in order, the
    key of an item before its value. *)
Definition key_error (k : pyval) : option exn :=
  match k with
  | VStr _ | VBool _ | VNone => None
  | VInt z => if exceeds_limit z then Some int_limit_error else None
  | _ =>
      Some (mkExn TypeError
        ("keys must be str, int, float, bool or None, not " ++ type_name_of k))
  end.

Definition key_text (k : pyval) : string :=
  match k with
  | VStr s => s
  | VInt z => string_of_Z z
  | VBool true => "true"
  | VBool false => "false"
  | VNone => "null"
  | _ => ""
  end.

Fixpoint dict_error (d : kdict) : option exn :=
  match d with
  | [] => None
  | (k, x) :: d' =>
      match key_error k with
      | Some e => Some e
      | None =>
          match encode_error x with
          | Some e => Some e
          | None => dict_error d'
          end
      end
  end.

Definition dumps_dict (d : kdict) : result string :=
  match dict_error d with
  | Some e => Raise e
  | None => Ok (render (VDict (map (fun kv => (key_text (fst kv), snd kv)) d)))
  end.

(** *** Decoding: [json.loads] *)

Definition is_ws (c : ascii) : bool :=
  let n := N_of_ascii c in
  ((n =? 32) || (n =? 9) || (n =? 10) || (n =? 13))%N.

Fixpoint skip_ws (s : string) : string :=
  match s with
  | "" => ""
  | String c s' => if is_ws c then skip_ws s' else s
  end.

Definition hex_value (c : ascii) : option N :=
  let n := N_of_ascii c in
  if ((48 <=? n) && (n <=? 57))%N then Some (n - 48)%N
  else if ((97 <=? n) && (n <=? 102))%N then Some (n - 87)%N
  else if ((65 <=? n) && (n <=? 70))%N then Some (n - 55)%N
  else None.

Definition hex4 (a b c d : ascii) : option N :=
  match hex_value a, hex_value b, hex_value c, hex_value d with
  | Some x, Some y, Some z, Some w => Some (((x * 16 + y) * 16 + z) * 16 + w)%N
  | _, _, _, _ => None
  end.

Definition cons_char (c : ascii) (r : option (string * string))
  : option (string * string) :=
  match r with
  | Some (str, rest) => Some (String c str, rest)
  | None => None
  end.

(** The body of a string literal, after the opening quote, up to and
    including the closing quote.  A raw control character is refused
    (strict mode); a \u escape of a code point above 255 has no
    counterpart in the strings of this model and is refused too. *)
Fixpoint scan_string (s : string) : option (string * string) :=
  match s with
  | "" => None
  | String c s' =>
      let n := N_of_ascii c in
      if (n =? 34)%N then Some ("", s')
      else if (n =? 92)%N then
        match s' with
        | "" => None
        | String e s'' =>
            let m := N_of_ascii e in
            if (m =? 34)%N then cons_char dquote (scan_string s'')
            else if (m =? 92)%N then cons_char backslash (scan_string s'')
            else if (m =? 47)%N then cons_char "/"%char (scan_string s'')
            else if (m =? 110)%N then cons_char "010"%char (scan_string s'')
            else if (m =? 114)%N then cons_char "013"%char (scan_string s'')
            else if (m =? 116)%N then cons_char "009"%char (scan_string s'')
            else if (m =? 102)%N then cons_char "012"%char (scan_string s'')
            else if (m =? 98)%N then cons_char "008"%char (scan_string s'')
            else if (m =? 117)%N then
              match s'' with
              | String h1 (String h2 (String h3 (String h4 s3))) =>
                  match hex4 h1 h2 h3 h4 with
                  | Some code =>
                      if (code <? 256)%N
                      then cons_char (ascii_of_N code) (scan_string s3)
                      else None
                  | None => None
                  end
              | _ => None
              end
            else None
        end
      else if (n <? 32)%N then None
      else cons_char c (scan_string s')
  end.

Definition is_num_char (c : ascii) : bool :=
  let n := N_of_ascii c in
  (((48 <=? n) && (n <=? 57)) || (n =? 45))%N.

Fixpoint span_num (s : string) : string * string :=
  match s with
  | "" => ("", "")
  | String c s' =>
      if is_num_char c
      then let (tok, rest) := span_num s' in (String c tok, rest)
      else ("", s)
  end.

(** An integer literal: a sign and digits with no leading zero, of no
    more digits than [int(str)] accepts.  A fraction or an exponent is left
    in the rest of the input, where no caller accepts it. *)
Definition scan_number (s : string) : option (Z * string) :=
  let (tok, rest) := span_num s in
  match NilZero.int_of_string tok with
  | Some d =>
      let z := Z.of_int d in
      if (String.eqb (string_of_Z z) tok || String.eqb tok "-0")
         && negb (exceeds_limit z)
      then Some (z, rest)
      else None
  | None => None
  end.

(** A [dict] built from the pairs of an object in the order read: a
    repeated key keeps its first position and its last value. *)
Definition dict_of_pairs (pairs : list (string * pyval)) : dict pyval :=
  dict_update [] pairs.

Fixpoint parse_value (fuel : nat) (s : string) : option (pyval * string) :=
  match fuel with
  | O => None
  | S fuel' =>
      match skip_ws s with
      | "" => None
      | String c s' =>
          if is_num_char c then
            match scan_number (String c s') with
            | Some (z, rest) => Some (VInt z, rest)
            | None => None
            end
          else
            match N_of_ascii c with
            | 34%N =>
                match scan_string s' with
                | Some (str, rest) => Some (VStr str, rest)
                | None => None
                end
            | 91%N =>
                match parse_items fuel' s' with
                | Some (vs, rest) => Some (VList vs, rest)
                | None =>
                    match skip_ws s' with
                    | String "]" rest => Some (VList [], rest)
                    | _ => None
                    end
                end
            | 123%N =>
                match parse_members fuel' s' with
                | Some (kvs, rest) => Some (VDict (dict_of_pairs kvs), rest)
                | None =>
                    match skip_ws s' with
                    | String "}" rest => Some (VDict [], rest)
                    | _ => None
                    end
                end
            | 110%N =>
                match s' with
                | String "u" (String "l" (String "l" rest)) => Some (VNone, rest)
                | _ => None
                end
            | 116%N =>
                match s' with
                | String "r" (String "u" (String "e" rest)) => Some (VBool true, rest)
                | _ => None
                end
            | 102%N =>
                match s' with
                | String "a" (String "l" (String "s" (String "e" rest))) =>
                    Some (VBool false, rest)
                | _ => None
                end
            | _ => None
            end
      end
  end
with parse_items (fuel : nat) (s : string) : option (list pyval * string) :=
  match fuel with
  | O => None
  | S fuel' =>
      match parse_value fuel' s with
      | Some (v, rest) =>
          match skip_ws rest with
          | String "," rest' =>
              match parse_items fuel' rest' with
              | Some (vs, rest'') => Some (v :: vs, rest'')
              | None => None
              end
          | String "]" rest' => Some ([v], rest')
          | _ => None
          end
      | None => None
      end
  end
with parse_members (fuel : nat) (s : string)
  : option (list (string * pyval) * string) :=
  match fuel with
  | O => None
  | S fuel' =>
      match skip_ws s with
      | String c s1 =>
          if (N_of_ascii c =? 34)%N then
            match scan_string s1 with
            | Some (k, s2) =>
                match skip_ws s2 with
                | String ":" s3 =>
                    match parse_value fuel' s3 with
                    | Some (v, rest) =>
                        match skip_ws rest with
                        | String "," rest' =>
                            match parse_members fuel' rest' with
                            | Some (kvs, rest'') => Some ((k, v) :: kvs, rest'')
                            | None => None
                            end
                        | String "}" rest' => Some ([(k, v)], rest')
                        | _ => None
                        end
                    | None => None
                    end
                | _ => None
                end
            | None => None
            end
          else None
      | "" => None
      end
  end.

(** The value that the text of [v] reads back as: [v] itself when no dict
    in it repeats a key. *)
Fixpoint canon (v : pyval) : pyval :=
  match v with
  | VList l => VList (map canon l)
  | VDict d => VDict (dict_of_pairs (map (fun kv => (fst kv, canon (snd kv))) d))
  | _ => v
  end.

(** What may follow the text of a number: nothing, or a character that
    is no part of a number. *)
Definition ends_number (rest : string) : Prop :=
  match rest with
  | "" => True
  | String c _ => is_num_char c = false
  end.

(** The text of [v], whatever follows it, reads back as [canon v]. *)
Definition reads_back (v : pyval) : Prop :=
  encode_error v = None ->
  forall fuel rest,
    (String.length (render v) <= fuel)%nat ->
    ends_number rest ->
    parse_value fuel (render v ++ rest) = Some (canon v, rest).

(** [json.loads(s)]: one value, then nothing but white space.
    JSONDecodeError is a ValueError, and so is the error of an integer above
    the limit. *)
Definition loads (s : string) : result pyval :=
  match parse_value (S (String.length s)) s with
  | Some (v, rest) =>
      match skip_ws rest with
      | "" => Ok v
      | _ => Raise (mkExn ValueError "Extra data")
      end
  | None => Raise (mkExn ValueError "Expecting value")
  end.

End json.

(** ** RequestContext *)

Module RequestContext.

(** The dataclass: six fields, no type is enforced at run time. *)
Record t : Type := mk {
  timestamp : pyval;
  request_id : pyval;
  user_id : pyval;
  service : pyval;
  environment : pyval;
  extra : pyval
}.

Definition fields : list string :=
  ["timestamp"; "request_id"; "user_id"; "service"; "environment"; "extra"].

(** [__post_init__]: a missing timestamp becomes the time of creation. *)
Definition __post_init__ (now : string) (self : t) : t :=
  if is_None (timestamp self)
  then mk (VStr now) (request_id self) (user_id self)
          (service self) (environment self) (extra self)
  else self.

Definition kwarg (kwargs : dict pyval) (k : string) (dflt : pyval) : pyval :=
  match dict_get k kwargs with Some v => v | None => dflt end.

(** The call of the class with keyword arguments: the generated [__init__]
    with the defaults of the class body, then [__post_init__].  A keyword that is no field is
    a TypeError.  [now] is [datetime.utcnow().isoformat()]. *)
Definition __init__ (now : string) (kwargs : dict pyval) : result t :=
  match find (fun k => negb (existsb (String.eqb k) fields)) (dict_keys kwargs) with
  | Some k =>
      Raise (mkExn TypeError
        ("RequestContext.__init__() got an unexpected keyword argument '" ++ k ++ "'"))
  | None =>
      Ok (__post_init__ now
            (mk (kwarg kwargs "timestamp" VNone)
                (kwarg kwargs "request_id" (VStr "-"))
                (kwarg kwargs "user_id" (VStr "-"))
                (kwarg kwargs "service" (VStr "-"))
                (kwarg kwargs "environment" (VStr "development"))
                (kwarg kwargs "extra" VNone)))
  end.

(** The copy that [dataclasses.asdict] makes of a field value
    ([_asdict_inner]): lists and dicts are rebuilt from the copies of their
    elements, an instance of a dataclass becomes the dict of its fields, any
    other object goes through [copy.deepcopy], which raises TypeError for an
    object that cannot be copied. *)
Fixpoint _asdict_inner (v : pyval) : result pyval :=
  match v with
  | VList l =>
      match
        (fix items (l : list pyval) : result (list pyval) :=
           match l with
           | [] => Ok []
           | x :: l' =>
               match _asdict_inner x with
               | Raise e => Raise e
               | Ok x' =>
                   match items l' with
                   | Raise e => Raise e
                   | Ok l'' => Ok (x' :: l'')
                   end
               end
           end) l
      with
      | Ok l' => Ok (VList l')
      | Raise e => Raise e
      end
  | VDict d =>
      match
        (fix members (d : list (string * pyval)) : result (list (string * pyval)) :=
           match d with
           | [] => Ok []
           | (k, x) :: d' =>
               match _asdict_inner x with
               | Raise e => Raise e
               | Ok x' =>
                   match members d' with
                   | Raise e => Raise e
                   | Ok d'' => Ok ((k, x') :: d'')
                   end
               end
           end) d
      with
      | Ok d' => Ok (VDict d')
      | Raise e => Raise e
      end
  | VData _ fields =>
      match
        (fix members (d : list (string * pyval)) : result (list (string * pyval)) :=
           match d with
           | [] => Ok []
           | (k, x) :: d' =>
               match _asdict_inner x with
               | Raise e => Raise e
               | Ok x' =>
                   match members d' with
                   | Raise e => Raise e
                   | Ok d'' => Ok ((k, x') :: d'')
                   end
               end
           end) fields
      with
      | Ok d' => Ok (VDict d')
      | Raise e => Raise e
      end
  | VObj t _ false => Raise (mkExn TypeError ("cannot pickle '" ++ t ++ "' object"))
  | _ => Ok v
  end.

(** The copies of the items of a dict, in order. *)
Fixpoint copy_members (d : dict pyval) : result (dict pyval) :=
  match d with
  | [] => Ok []
  | (k, x) :: d' =>
      match _asdict_inner x with
      | Raise e => Raise e
      | Ok x' =>
          match copy_members d' with
          | Raise e => Raise e
          | Ok d'' => Ok ((k, x') :: d'')
          end
      end
  end.

(** [dataclasses.asdict(self)]: the fields in declaration order, each with
    the copy of its value. *)
Definition asdict (self : t) : result (dict pyval) :=
  copy_members
    [("timestamp", timestamp self); ("request_id", request_id self);
     ("user_id", user_id self); ("service", service self);
     ("environment", environment self); ("extra", extra self)].

(** [{k: v for k, v in asdict(self).items() if v is not None}] *)
Definition as_dict (self : t) : result (dict pyval) :=
  match asdict self with
  | Ok d => Ok (List.filter (fun kv => negb (is_None (snd kv))) d)
  | Raise e => Raise e
  end.

(** The same instance after its [extra] field, a dict, was changed in
    place. *)
Definition with_extra (self : t) (v : pyval) : t :=
  mk (timestamp self) (request_id self) (user_id self)
     (service self) (environment self) v.

End RequestContext.

(** ** ContextVar *)

(** A context variable is its optional default; the value bound in the
    running context is part of the world ([None]: never set there). *)
Module ContextVar.

Record t (A : Type) : Type := mk { default : option A }.
Arguments mk {A} _.
Arguments default {A} _.

Definition get {A} (var : t A) (bound : option A) : result A :=
  match bound with
  | Some v => Ok v
  | None =>
      match default var with
      | Some d => Ok d
      | None => Raise (mkExn LookupError "<ContextVar name='request_context'>")
      end
  end.

End ContextVar.

(** ** The logging module *)

Inductive Level : Type := DEBUG | INFO | WARNING | ERROR | CRITICAL.

Definition levelno (l : Level) : Z :=
  match l with
  | DEBUG => 10 | INFO => 20 | WARNING => 30 | ERROR => 40 | CRITICAL => 50
  end.

Definition levelname (l : Level) : string :=
  match l with
  | DEBUG => "DEBUG" | INFO => "INFO" | WARNING => "WARNING"
  | ERROR => "ERROR" | CRITICAL => "CRITICAL"
  end.

Definition NOTSET : Z := 0.

(** A LogRecord.  [exc_info] is [None] when the call did not ask for it,
    [Some None] when it did with no exception being handled (the triple of
    three [None], a true value), [Some (Some e)] otherwise.  [attrs] holds
    the attributes that [makeRecord] copies from [extra]; the message is the
    text after %-formatting (no call site of the repository passes
    positional arguments). *)
Module LogRecord.
Record t : Type := mk {
  name : string;
  level : Level;
  message : string;
  exc_info : option (option exn);
  asctime : string;
  attrs : dict pyval
}.
End LogRecord.

Inductive formatter : Type :=
| line_formatter    (* FastAPILogger.get_formatter() *)
| json_formatter.   (* JsonFormatter() *)

(** The three kinds of handler of the repository.  A timed rotating file
    handler is its file name and the number of generations it keeps; the
    rollover at midnight renames files and is not part of the world. *)
Inductive handler_kind : Type :=
| TimedRotatingFile (filename : string) (backupCount : nat)
| StreamStdout
| Elasticsearch (index_prefix : string).

Record Handler : Type := mkHandler {
  h_kind : handler_kind;
  h_level : Z;
  h_formatter : formatter
}.

Record Logger : Type := mkLogger {
  lg_level : Z;
  handlers : list Handler
}.

(** The line of [get_formatter()]: its eight fields in the order of the
    format string, each put through [%s], and the traceback text that
    [Formatter.format] appends when the record carries one.  The fields are
    kept as values. *)
Record Line : Type := mkLine {
  l_asctime : string;
  l_levelname : string;
  l_service : pyval;
  l_environment : pyval;
  l_request_id : pyval;
  l_user_id : pyval;
  l_name : string;
  l_message : string;
  l_exc_text : option string
}.

Inductive output : Type :=
| OText (s : string)
| OLine (l : Line)
| OPrint (prefix : string) (v : pyval).   (* f"{prefix}{v}" *)

Inductive stream : Type :=
| SFile (path : string)
| SStdout
| SStderr.

(** What a run leaves behind, in order. *)
Inductive effect : Type :=
| EHandle (r : LogRecord.t)                   (* Logger.handle(record) *)
| EWrite (s : stream) (o : output)            (* one write, terminator included *)
| ECoroutine (h : Handler) (r : LogRecord.t)    (* a coroutine object, created and dropped *)
| EIndex (index : string) (document : dict pyval).  (* accepted by the remote store *)

(** The process: whether the interpreter is CPython 3.12 or later (a
    LogRecord has the attribute [taskName] from that version on), the logger
    registry of the logging module, the value bound to the context variable
    in the running context, the exception being handled ([sys.exc_info()])
    and the trace of effects. *)
Record World : Type := mkWorld {
  py312 : bool;
  loggers : gmap string Logger;
  context : option RequestContext.t;
  handling : option exn;
  trace : list effect
}.

Definition emits (es : list effect) (w : World) : World :=
  mkWorld (py312 w) (loggers w) (context w) (handling w) (trace w ++ es).

Definition set_loggers (m : gmap string Logger) (w : World) : World :=
  mkWorld (py312 w) m (context w) (handling w) (trace w).

Definition set_bound (c : option RequestContext.t) (w : World) : World :=
  mkWorld (py312 w) (loggers w) c (handling w) (trace w).

Definition set_handling (e : option exn) (w : World) : World :=
  mkWorld (py312 w) (loggers w) (context w) e (trace w).

(** Computations that read and change the world and may raise. *)
Definition M (A : Type) : Type := World -> World * result A.

Definition ret {A} (a : A) : M A := fun w => (w, Ok a).

Definition raise {A} (e : exn) : M A := fun w => (w, Raise e).

Definition bind {A B} (m : M A) (k : A -> M B) : M B :=
  fun w =>
    match m w with
    | (w', Ok a) => k a w'
    | (w', Raise e) => (w', Raise e)
    end.

Notation "x <- m ;; k" := (bind m (fun x => k))
  (at level 100, m at next level, right associativity).
Notation "m ;;; k" := (bind m (fun _ => k))
  (at level 100, right associativity).

Definition lift {A} (r : result A) : M A := fun w => (w, r).

Definition emit_effects (es : list effect) : M unit :=
  fun w => (emits es w, Ok tt).

(** [try: body  except Exception as e: handler(e)].  While the handler
    runs, [e] is the exception being handled; a BaseException that is no
    Exception passes through. *)
Definition try_except_Exception {A} (body : M A) (handler : exn -> M A) : M A :=
  fun w =>
    match body w with
    | (w', Ok a) => (w', Ok a)
    | (w', Raise e) =>
        if is_Exception e then
          let saved := handling w' in
          let (w'', r) := handler e (set_handling (Some e) w') in
          (set_handling saved w'', r)
        else (w', Raise e)
    end.

(** The readings of the clock during one call: [datetime.utcnow()] in ISO
    format and as [%Y.%m.%d], and the creation time of a record as
    [%(asctime)s] prints it. *)
Record Clock : Type := mkClock {
  clk_iso : string;
  clk_ymd : string;
  clk_asctime : string
}.

Definition newline : string := String "010"%char "".

(** [Formatter.formatException]: the header, the exception line; the
    frames in between are left out.  With no exception being handled the
    triple renders as the text for [None]. *)
Definition formatException (ei : option exn) : string :=
  match ei with
  | Some e =>
      "Traceback (most recent call last):" ++ newline
        ++ class_name (exn_cls e) ++ ": " ++ exn_msg e
  | None => "NoneType: None"
  end.

(** The formatter of [get_formatter()] on a record: every [%(key)s] of the
    format string must be an attribute of the record. *)
Definition line_format (record : LogRecord.t) : result Line :=
  let a := LogRecord.attrs record in
  let missing k :=
    Raise (mkExn ValueError ("Formatting field not found in record: '" ++ k ++ "'")) in
  match dict_get "service" a with
  | None => missing "service"
  | Some sv =>
  match dict_get "environment" a with
  | None => missing "environment"
  | Some ev =>
  match dict_get "request_id" a with
  | None => missing "request_id"
  | Some rv =>
  match dict_get "user_id" a with
  | None => missing "user_id"
  | Some uv =>
      Ok (mkLine (LogRecord.asctime record) (levelname (LogRecord.level record))
                 sv ev rv uv (LogRecord.name record) (LogRecord.message record)
                 (option_map formatException (LogRecord.exc_info record)))
  end end end end.

Module JsonFormatter.

(** The dictionary that [format] builds before it serializes it; [now]
    is [datetime.utcnow().isoformat()].  [record.extra] exists when [extra]
    is one of the copied attributes; [log_data.update(record.extra)] takes
    whatever [dict.update] takes, so the keys need not be strings. *)
Definition log_data (record : LogRecord.t) (now : string) : result kdict :=
  let log_data : kdict :=
    [(VStr "timestamp", VStr now);
     (VStr "level", VStr (levelname (LogRecord.level record)));
     (VStr "message", VStr (LogRecord.message record));
     (VStr "logger", VStr (LogRecord.name record))] in
  let with_exception (log_data : kdict) : kdict :=
    match LogRecord.exc_info record with
    | Some ei => kdict_set (VStr "exception") (VStr (formatException ei)) log_data
    | None => log_data
    end in
  match dict_get "extra" (LogRecord.attrs record) with
  | None => Ok (with_exception log_data)
  | Some extra =>
      match update_items extra with
      | Ok kvs => Ok (with_exception (kdict_update log_data kvs))
      | Raise e => Raise e
      end
  end.

(** [format(self, record)]: [json.dumps(log_data)]. *)
Definition format (record : LogRecord.t) (now : string) : result string :=
  match log_data record now with
  | Ok d => json.dumps_dict d
  | Raise e => Raise e
  end.

End JsonFormatter.

Definition format_with (f : formatter) (record : LogRecord.t) (now : string)
  : result output :=
  match f with
  | line_formatter =>
      match line_format record with Ok l => Ok (OLine l) | Raise e => Raise e end
  | json_formatter =>
      match JsonFormatter.format record now with
      | Ok s => Ok (OText s)
      | Raise e => Raise e
      end
  end.

(** [StreamHandler.emit]: format and write; an error of the formatter goes
    to [handleError], which reports on the error stream and returns. *)
Definition StreamHandler_emit (s : stream) (h : Handler) (record : LogRecord.t)
    (now : string) : list effect :=
  match format_with (h_formatter h) record now with
  | Ok o => [EWrite s o]
  | Raise _ => [EWrite SStderr (OText "--- Logging error ---")]
  end.

(** [Handler.handle(record)].  [ElasticsearchHandler.emit] is declared
    [async def]: the call in [handle] builds a coroutine object that nothing
    awaits, so its body does not run. *)
Definition Handler_handle (h : Handler) (record : LogRecord.t) (now : string)
  : list effect :=
  match h_kind h with
  | TimedRotatingFile filename _ => StreamHandler_emit (SFile filename) h record now
  | StreamStdout => StreamHandler_emit SStdout h record now
  | Elasticsearch _ => [ECoroutine h record]
  end.

(** The handlers that [callHandlers] hands the record to:
    [if record.levelno >= hdlr.level]. *)
Definition receivers (lg : Logger) (record : LogRecord.t) : list Handler :=
  List.filter (fun h => h_level h <=? levelno (LogRecord.level record)) (handlers lg).

(** [Logger.callHandlers]; the ancestors of the logger have no handler.
    With no handler at all the record goes to [lastResort], a stream
    handler on the error stream at level WARNING. *)
Definition callHandlers (lg : Logger) (record : LogRecord.t) (now : string)
  : list effect :=
  match handlers lg with
  | [] =>
      if 30 <=? levelno (LogRecord.level record)
      then [EWrite SStderr (OText (LogRecord.message record))]
      else []
  | _ :: _ => flat_map (fun h => Handler_handle h record now) (receivers lg record)
  end.

(** The attribute names that [extra] may not overwrite: [message],
    [asctime] and the attributes a new LogRecord has, of which [taskName]
    is one from CPython 3.12 on. *)
Definition reserved_attrs (taskName : bool) : list string :=
  ["message"; "asctime"; "name"; "msg"; "args"; "levelname"; "levelno";
   "pathname"; "filename"; "module"; "exc_info"; "exc_text"; "stack_info";
   "lineno"; "funcName"; "created"; "msecs"; "relativeCreated"; "thread";
   "threadName"; "processName"; "process"]
  ++ (if taskName then ["taskName"] else []).

(** [Logger.makeRecord]: the keys of [extra] become attributes of the
    record, in order; the first that is reserved is a KeyError. *)
Definition makeRecord (taskName : bool) (nm : string) (lvl : Level) (msg : string)
    (ei : option (option exn)) (extra : dict pyval) (created : string)
  : result LogRecord.t :=
  match find (fun k => existsb (String.eqb k) (reserved_attrs taskName))
             (dict_keys extra) with
  | Some k => Raise (mkExn KeyError ("Attempt to overwrite '" ++ k ++ "' in LogRecord"))
  | None => Ok (LogRecord.mk nm lvl msg ei created extra)
  end.

(** [logging.getLogger(name)]: the logger of that name, created on first
    use. *)
Definition getLogger (nm : string) : M Logger :=
  fun w =>
    match loggers w !! nm with
    | Some lg => (w, Ok lg)
    | None =>
        let lg := mkLogger NOTSET [] in
        (set_loggers (<[nm := lg]> (loggers w)) w, Ok lg)
    end.

(** The logger object of that name as a facade holds it. *)
Definition the_logger (nm : string) (w : World) : Logger :=
  match loggers w !! nm with
  | Some lg => lg
  | None => mkLogger NOTSET []
  end.

(** A logger at NOTSET takes the level of the root logger, WARNING. *)
Definition getEffectiveLevel (lg : Logger) : Z :=
  if lg_level lg =? NOTSET then 30 else lg_level lg.

(** [Logger.debug/info/warning/error/critical(msg, extra=..., exc_info=...)]:
    [isEnabledFor], [makeRecord], [handle]. *)
Definition Logger_log (nm : string) (lvl : Level) (msg : string)
    (extra : dict pyval) (exc_info : bool) (clk : Clock) : M unit :=
  fun w =>
    let lg := the_logger nm w in
    if getEffectiveLevel lg <=? levelno lvl then
      let ei := if exc_info then Some (handling w) else None in
      match makeRecord (py312 w) nm lvl msg ei extra (clk_asctime clk) with
      | Raise e => (w, Raise e)
      | Ok record =>
          (emits (EHandle record :: callHandlers lg record (clk_iso clk)) w, Ok tt)
      end
    else (w, Ok tt).

(** ** ElasticsearchHandler *)

Module ElasticsearchHandler.

(** The document of a record: three fixed keys, then the items of
    [record.__dict__.get('extra', {})], which must be a mapping. *)
Definition log_entry (record : LogRecord.t) (clk : Clock) : result (dict pyval) :=
  let base : dict pyval :=
    [("timestamp", VStr (clk_iso clk));
     ("level", VStr (levelname (LogRecord.level record)));
     ("message", VStr (LogRecord.message record))] in
  match dict_get "extra" (LogRecord.attrs record) with
  | None => Ok base
  | Some (VDict extra) => Ok (dict_update base extra)
  | Some _ => Raise (mkExn TypeError "object is not a mapping")
  end.

Definition index_name (index_prefix : string) (clk : Clock) : string :=
  index_prefix ++ "-" ++ clk_ymd clk.

(** The body of the coroutine [emit(self, record)].  [es_index] is what
    [await self.es_client.index(index=..., document=...)] comes to: the
    answer of the remote store, or the error of the client. *)
Definition emit (index_prefix : string)
    (es_index : string -> dict pyval -> result unit)
    (record : LogRecord.t) (clk : Clock) : M unit :=
  try_except_Exception
    (entry <- lift (log_entry record clk) ;;
     emit_effects
       [EWrite SStdout
          (OText ("Attempting to send log to Elasticsearch: "
                    ++ index_name index_prefix clk));
        EWrite SStdout (OPrint "Log entry: " (VDict entry))] ;;;
     lift (es_index (index_name index_prefix clk) entry) ;;;
     emit_effects
       [EIndex (index_name index_prefix clk) entry;
        EWrite SStdout (OText "Log successfully sent to Elasticsearch")])
    (fun e =>
       emit_effects
         [EWrite SStdout
            (OText ("Detailed error in sending log to Elasticsearch: " ++ exn_msg e));
          EWrite SStderr
            (OText ("Error sending log to Elasticsearch: " ++ exn_msg e))]).

End ElasticsearchHandler.

(** ** FastAPILogger *)

(** The [extra] keyword of a call of the facade: absent; an object of the
    call site's own, which nothing in the world refers to; or the very
    object that the ambient context holds in its [extra] field (the call
    site read it from [_context_var.get().extra]). *)
Inductive ExtraArg : Type :=
| ExtraAbsent
| ExtraOwn (v : pyval)
| ExtraShared.

Module FastAPILogger.

(** An instance.  [class_created] is the reading of the clock when the
    class body ran: the default of [_context_var] is built there, once. *)
Record t : Type := mk {
  name : string;
  log_dir : string;
  service_name : string;
  environment : string;
  elastic_config : option (dict pyval);
  class_created : string
}.

Definition __name__ : string := "utils.logger_with_elastic".

(** [ContextVar('request_context', default=RequestContext())] *)
Definition _context_var (self : t) : ContextVar.t RequestContext.t :=
  ContextVar.mk
    match RequestContext.__init__ (class_created self) [] with
    | Ok c => Some c
    | Raise _ => None
    end.

Definition get_formatter : formatter := line_formatter.

Definition file_handler (self : t) : Handler :=
  mkHandler (TimedRotatingFile (log_dir self ++ "/app.log") 30)
            (levelno INFO) get_formatter.

Definition json_handler (self : t) : Handler :=
  mkHandler (TimedRotatingFile (log_dir self ++ "/app.json.log") 30)
            (levelno INFO) json_formatter.

Definition console_handler : Handler :=
  mkHandler StreamStdout (levelno DEBUG) get_formatter.

(** [if not logger.handlers:] the three handlers are added when the
    logger has none. *)
Definition handlers_after (self : t) (lg : Logger) : list Handler :=
  match handlers lg with
  | [] => [file_handler self; json_handler self; console_handler]
  | _ :: _ => handlers lg
  end.

(** [_configure_logger]: the level is set on every call.  (The directory
    and the files behind the handlers are not part of the world.) *)
Definition _configure_logger (self : t) : M unit :=
  lg <- getLogger (name self) ;;
  fun w =>
    (set_loggers
       (<[name self := mkLogger (levelno DEBUG) (handlers_after self lg)]> (loggers w))
       w,
     Ok tt).

(** [FastAPILogger(name, log_dir, elastic_config, service_name,
    environment)]; [name or __name__]. *)
Definition __init__ (nm : option string) (dir : string)
    (config : option (dict pyval)) (svc env : string) (created : string) : M t :=
  let self :=
    mk (match nm with
        | Some n => if String.eqb n "" then __name__ else n
        | None => __name__
        end) dir svc env config created in
  _configure_logger self ;;; ret self.

Definition elastic_handler : Handler :=
  mkHandler (Elasticsearch "fastapi-logs") NOTSET get_formatter.

(** [_setup_elasticsearch]: with a non-empty configuration, one more
    handler on the logger, at the level a new handler has; the constructor
    of the handler prints a line.  (The client it builds is the [es_index]
    argument of [ElasticsearchHandler.emit].) *)
Definition _setup_elasticsearch (self : t) : M unit :=
  match elastic_config self with
  | Some (_ :: _) =>
      emit_effects [EWrite SStdout (OText "ElasticsearchHandler initialized!")] ;;;
      fun w =>
        let lg := the_logger (name self) w in
        (set_loggers
           (<[name self := mkLogger (lg_level lg) (handlers lg ++ [elastic_handler])]>
              (loggers w)) w, Ok tt)
  | _ => ret tt
  end.

(** [set_context(self, **kwargs)].  Passing [service] or [environment]
    again is the TypeError of a keyword given twice. *)
Definition set_context (self : t) (kwargs : dict pyval) (now : string) : M unit :=
  if dict_has "service" kwargs then
    raise (mkExn TypeError
      "RequestContext() got multiple values for keyword argument 'service'")
  else if dict_has "environment" kwargs then
    raise (mkExn TypeError
      "RequestContext() got multiple values for keyword argument 'environment'")
  else
    ctx <- lift (RequestContext.__init__ now
                   (("service", VStr (service_name self))
                      :: ("environment", VStr (environment self)) :: kwargs)) ;;
    fun w => (set_bound (Some ctx) w, Ok tt).

(** The object that [kwargs.pop('extra', {})] gives: a new empty dict
    when the call has no [extra]. *)
Definition passed (extra : ExtraArg) (ctx : RequestContext.t) : pyval :=
  match extra with
  | ExtraAbsent => VDict []
  | ExtraOwn v => v
  | ExtraShared => RequestContext.extra ctx
  end.

(** The world after [extra.update(...)] left [merged] in the dict it was
    called on: when that dict is the one the bound context holds, the
    context holds the merged dict. *)
Definition updated_in_place (extra : ExtraArg) (merged : dict pyval) (w : World)
  : World :=
  match extra, context w with
  | ExtraShared, Some ctx =>
      set_bound (Some (RequestContext.with_extra ctx (VDict merged))) w
  | _, _ => w
  end.

(** [_get_log_args]: [extra] is the object of the call site, or a new
    empty dict; [extra.update(context.as_dict())] looks up [update] on it
    (AttributeError when it is no dict), builds the dictionary form of the
    context (TypeError when a value cannot be copied) and writes it over the
    dict, in place. *)
Definition _get_log_args (self : t) (message : string)
    (extra : ExtraArg) : M (string * dict pyval) :=
  fun w =>
    match ContextVar.get (_context_var self) (context w) with
    | Raise e => (w, Raise e)
    | Ok ctx =>
        match passed extra ctx with
        | VDict d =>
            match RequestContext.as_dict ctx with
            | Raise e => (w, Raise e)
            | Ok fields =>
                let merged := dict_update d fields in
                (updated_in_place extra merged w, Ok (message, merged))
            end
        | other =>
            (w, Raise (mkExn AttributeError
                         ("'" ++ type_name_of other
                            ++ "' object has no attribute 'update'")))
        end
    end.

(** [log(self, level, message, extra=..., exc_info=...)] *)
Definition log (self : t) (lvl : Level) (message : string)
    (extra : ExtraArg) (exc_info : bool) (clk : Clock) : M unit :=
  args <- _get_log_args self message extra ;;
  Logger_log (name self) lvl (fst args) (snd args) exc_info clk.

Definition info (self : t) := log self INFO.
Definition error (self : t) := log self ERROR.
Definition debug (self : t) := log self DEBUG.

End FastAPILogger.

(** ** The request boundary hook *)

(** What the hook reads of the request. *)
Record Request : Type := mkRequest { method : string; url_path : string }.

(** What the hook reads of the response: [status_code], the HTTP status,
    an int of three digits, so that its text in the message is
    [json.string_of_Z] of it. *)
Record Response : Type := mkResponse { status_code : Z }.

(** [logging_middleware(request, call_next)] for the imported [logger];
    [uuid4] is [str(uuid.uuid4())], the two clocks are read before and after
    the wrapped call. *)
Definition logging_middleware (logger : FastAPILogger.t) (request : Request)
    (call_next : Request -> M Response) (uuid4 : string)
    (clk_in clk_out : Clock) : M Response :=
  let request_id := String.substring 0 8 uuid4 in
  FastAPILogger.set_context logger
    [("request_id", VStr request_id);
     ("extra", VDict [("path", VStr (url_path request));
                      ("method", VStr (method request))])]
    (clk_iso clk_in) ;;;
  try_except_Exception
    (FastAPILogger.info logger
       ("Request started - " ++ method request ++ " " ++ url_path request)
       ExtraAbsent false clk_in ;;;
     response <- call_next request ;;
     FastAPILogger.set_context logger
       [("request_id", VStr request_id);
        ("extra", VDict [("path", VStr (url_path request));
                         ("method", VStr (method request));
                         ("status_code", VInt (status_code response))])]
       (clk_iso clk_out) ;;;
     FastAPILogger.info logger
       ("Request completed - " ++ method request ++ " " ++ url_path request
          ++ "- Status: " ++ json.string_of_Z (status_code response))
       ExtraAbsent false clk_out ;;;
     ret response)
    (fun e =>
       FastAPILogger.error logger
         ("Request failed - " ++ method request ++ " " ++ url_path request)
         ExtraAbsent true clk_out ;;;
       raise e).

(** ** The application: main.py *)

Module main.

(** The body of a POST to /test-log, as pydantic hands it over. *)
Record TestRequest : Type := mkTestRequest { user_id : string; message : string }.

(** The part of [lifespan] before [yield].  [setup] is the call
    [logger._setup_elasticsearch()]; it is an argument so that a client
    that cannot be built can be expressed. *)
Definition lifespan (setup : M unit) : M unit :=
  emit_effects [EWrite SStdout (OText "Starting Elasticsearch setup...")] ;;;
  try_except_Exception
    (setup ;;;
     emit_effects
       [EWrite SStdout (OText "Elasticsearch setup completed successfully")])
    (fun e =>
       emit_effects
         [EWrite SStdout (OText ("Error setting up Elasticsearch: " ++ exn_msg e))]).


(** POST /test-log. *)
Definition test_logging (logger : FastAPILogger.t) (request : TestRequest)
    (clk : Clock) : M (dict pyval) :=
  FastAPILogger.set_context logger [("user_id", VStr (user_id request))]
    (clk_iso clk) ;;;
  try_except_Exception
    (FastAPILogger.info logger ("테스트 메시지 수신: " ++ message request)
       ExtraAbsent false clk ;;;
     FastAPILogger.debug logger "디버그 레벨 로그 테스트" ExtraAbsent false clk ;;;
     if String.eqb (message request) "error"
     then raise (mkExn ValueError "테스트 에러 발생")
     else ret [("status", VStr "success");
               ("message", VStr "로그 테스트 완료");
               ("your_message", VStr (message request))])
    (fun e =>
       FastAPILogger.error logger ("에러 발생: " ++ exn_msg e) ExtraAbsent true clk ;;;
       raise e).

End main.

(** ** Reading a trace *)

(** The records that were handed to a logger, in order. *)
Definition records_of (es : list effect) : list LogRecord.t :=
  flat_map (fun e => match e with EHandle r => [r] | _ => [] end) es.

(** ** A sample process *)

Definition sample_clock : Clock :=
  mkClock "2024-05-01T10:00:00.000000" "2024.05.01" "2024-05-01 10:00:00,000".

(** A new process, on CPython 3.11. *)
Definition empty_world : World := mkWorld false ∅ None None [].

(** Import of the module, then the startup hook: an instance with the
    default name and a remote configuration. *)
Definition boot : M FastAPILogger.t :=
  self <- FastAPILogger.__init__ None "var/logs"
            (Some [("hosts", VList [VStr "http://localhost:9200"])])
            "your-service-name" "development" "2024-05-01T09:59:00.000000" ;;
  FastAPILogger._setup_elasticsearch self ;;;
  ret self.

Definition booted_world : World := fst (boot empty_world).

Definition sample_logger : FastAPILogger.t :=
  FastAPILogger.mk FastAPILogger.__name__ "var/logs" "your-service-name"
    "development" (Some [("hosts", VList [VStr "http://localhost:9200"])])
    "2024-05-01T09:59:00.000000".

(** The world right after the import, before the startup hook. *)
Definition configured_world : World :=
  fst (FastAPILogger.__init__ None "var/logs"
         (Some [("hosts", VList [VStr "http://localhost:9200"])])
         "your-service-name" "development" "2024-05-01T09:59:00.000000"
         empty_world).

(** A remote store that refuses every connection. *)
Definition unreachable (index : string) (document : dict pyval) : result unit :=
  Raise (mkExn ConnectionError "Connection refused").

Definition sample_record : LogRecord.t :=
  LogRecord.mk FastAPILogger.__name__ INFO "ping" None "2024-05-01 10:00:00,000"
    [("timestamp", VStr "2024-05-01T09:59:00.000000"); ("request_id", VStr "-");
     ("user_id", VStr "-"); ("service", VStr "-");
     ("environment", VStr "development")].

(** A request whose handler is cancelled while the hook awaits it. *)
Definition cancelled_request : World * result Response :=
  logging_middleware sample_logger (mkRequest "GET" "/ping")
    (fun _ => raise (mkExn CancelledError ""))
    "3f2b8c1e-9d4a-4c6e-8f1a-2b3c4d5e6f70" sample_clock sample_clock booted_world.

(** A request whose handler raises [ValueError("x")]. *)
Definition failing_request : World * result Response :=
  logging_middleware sample_logger (mkRequest "GET" "/ping")
    (fun _ => raise (mkExn ValueError "x"))
    "3f2b8c1e-9d4a-4c6e-8f1a-2b3c4d5e6f70" sample_clock sample_clock booted_world.


(** A record that the hook logs: the context carries the path and the
    method of the request under [extra]. *)
Definition request_record : LogRecord.t :=
  LogRecord.mk FastAPILogger.__name__ INFO "Request started - GET /ping" None
    "2024-05-01 10:00:00,000"
    [("timestamp", VStr "2024-05-01T10:00:00.000000"); ("request_id", VStr "3f2b8c1e");
     ("user_id", VStr "-"); ("service", VStr "your-service-name");
     ("environment", VStr "development");
     ("extra", VDict [("path", VStr "/ping"); ("method", VStr "GET")])].

(** The text of [request_record] under the structured formatter. *)
Definition request_json : string :=
  match JsonFormatter.format request_record "2024-05-01T10:00:00.000000" with
  | Ok s => s
  | Raise _ => ""
  end.

(** A record whose [extra] attribute is a sequence of pairs. *)
Definition pairs_record : LogRecord.t :=
  LogRecord.mk FastAPILogger.__name__ INFO "ping" None "2024-05-01 10:00:00,000"
    [("extra", VList [VList [VStr "a"; VInt 1]])].

(** The text of [sample_record] under the structured formatter. *)
Definition sample_json : string :=
  match JsonFormatter.format sample_record "2024-05-01T10:00:00.000000" with
  | Ok s => s
  | Raise _ => ""
  end.

(** A world whose bound context carries a value that json cannot encode,
    on the logger as the constructor leaves it. *)
Definition unencodable_world : World :=
  fst (FastAPILogger.set_context sample_logger
         [("extra", VDict [("started", VObj "datetime" "2024-05-01 09:59:30" true)])]
         "2024-05-01T09:59:30.000000" configured_world).

(** A record whose context gives [message] in its [extra]. *)
Definition overriding_record : LogRecord.t :=
  LogRecord.mk FastAPILogger.__name__ INFO "ping" None "2024-05-01 10:00:00,000"
    [("timestamp", VStr "2024-05-01T09:59:30.000000"); ("request_id", VStr "-");
     ("user_id", VStr "-"); ("service", VStr "your-service-name");
     ("environment", VStr "development");
     ("extra", VDict [("message", VStr "from-context")])].

(** The world inside a request: the hook has bound its context. *)
Definition request_world : World :=
  fst (FastAPILogger.set_context sample_logger
         [("request_id", VStr "3f2b8c1e");
          ("extra", VDict [("path", VStr "/ping"); ("method", VStr "GET")])]
         "2024-05-01T10:00:00.000000" booted_world).

(** A call inside a request that passes the [extra] dict of the bound
    context as its own [extra]. *)
Definition shared_call : World * result unit :=
  FastAPILogger.info sample_logger "again" ExtraShared false sample_clock
    request_world.


(** A call whose [extra] names a key of the context. *)
Definition colliding_call : World * result unit :=
  FastAPILogger.info sample_logger "hello"
    (ExtraOwn (VDict [("request_id", VStr "from-call-site")])) false sample_clock
    booted_world.

(** * Properties *)

(** ** Dictionaries *)

Section DictFacts.
Context {V : Type}.
Implicit Types (d o : dict V) (k : string) (v : V).

Lemma dict_get_set_eq k v d : dict_get k (dict_set k v d) = Some v.
Proof.
  induction d as [|[k' v'] d IH]; simpl.
  - now rewrite String.eqb_refl.
  - destruct (String.eqb k k') eqn:E; simpl; rewrite E; auto.
Qed.

Lemma dict_get_set_ne k k' v d :
  k <> k' -> dict_get k (dict_set k' v d) = dict_get k d.
Proof.
  intros Hne. induction d as [|[k0 v0] d IH]; simpl.
  - apply String.eqb_neq in Hne. now rewrite Hne.
  - destruct (String.eqb k' k0) eqn:E; simpl.
    + apply String.eqb_eq in E. subst k0.
      apply String.eqb_neq in Hne. now rewrite Hne.
    + now rewrite IH.
Qed.

Lemma dict_get_set k k' v d :
  dict_get k (dict_set k' v d) =
  if String.eqb k k' then Some v else dict_get k d.
Proof.
  destruct (String.eqb k k') eqn:E.
  - apply String.eqb_eq in E. subst. apply dict_get_set_eq.
  - apply String.eqb_neq in E. now apply dict_get_set_ne.
Qed.

Lemma dict_get_app k d o :
  dict_get k (d ++ o)%list =
  match dict_get k d with Some v => Some v | None => dict_get k o end.
Proof.
  induction d as [|[k' v'] d IH]; simpl; auto.
  destruct (String.eqb k k'); auto.
Qed.

Lemma dict_get_None k d : dict_get k d = None <-> ~ In k (dict_keys d).
Proof.
  induction d as [|[k' v'] d IH]; simpl.
  - tauto.
  - destruct (String.eqb k k') eqn:E.
    + apply String.eqb_eq in E. subst. split; [discriminate | tauto].
    + apply String.eqb_neq in E. rewrite IH. split.
      * intros H [H1 | H1]; [congruence | tauto].
      * tauto.
Qed.

Lemma dict_get_Some_In k v d : dict_get k d = Some v -> In (k, v) d.
Proof.
  induction d as [|[k' v'] d IH]; simpl; [discriminate|].
  destruct (String.eqb k k') eqn:E.
  - apply String.eqb_eq in E. intros [= ->]. subst. now left.
  - intros H. right. auto.
Qed.

Lemma dict_get_In_keys k d :
  In k (dict_keys d) <-> exists v, dict_get k d = Some v.
Proof.
  destruct (dict_get k d) as [v|] eqn:E.
  - split; [eauto|]. intros _. apply dict_get_Some_In in E.
    change k with (fst (k, v)). now apply in_map.
  - split.
    + intros H. now apply dict_get_None in E.
    + intros [v [=]].
Qed.

(** The value that [update] leaves under a key: the last one [o] gives
    it, else the one [d] had. *)
Lemma dict_get_update k d o :
  dict_get k (dict_update d o) =
  match dict_get k (rev o) with Some v => Some v | None => dict_get k d end.
Proof.
  unfold dict_update. revert d.
  induction o as [|[k' v'] o IH]; intros d; simpl; auto.
  rewrite IH, dict_get_app, dict_get_set. simpl.
  destruct (dict_get k (rev o)); auto.
  destruct (String.eqb k k'); auto.
Qed.

Lemma dict_get_rev_NoDup k d :
  List.NoDup (dict_keys d) -> dict_get k (rev d) = dict_get k d.
Proof.
  induction d as [|[k' v'] d IH]; simpl; auto.
  intros Hnd. inversion Hnd as [|? ? Hnotin Hnd']; subst.
  rewrite dict_get_app, IH by assumption. simpl.
  destruct (String.eqb k k') eqn:E.
  - apply String.eqb_eq in E. subst.
    apply dict_get_None in Hnotin. now rewrite Hnotin.
  - now destruct (dict_get k d).
Qed.

Lemma dict_keys_rev k d : In k (dict_keys (rev d)) <-> In k (dict_keys d).
Proof. unfold dict_keys. rewrite map_rev, <- in_rev. tauto. Qed.

Lemma dict_keys_update k d o :
  In k (dict_keys (dict_update d o)) <->
  In k (dict_keys d) \/ In k (dict_keys o).
Proof.
  rewrite <- (dict_keys_rev k o), !dict_get_In_keys, dict_get_update.
  destruct (dict_get k (rev o)) as [v|]; split.
  - eauto.
  - eauto.
  - intros H. now left.
  - intros [H | [v [=]]]. exact H.
Qed.

Lemma dict_keys_set k k' v d :
  In k (dict_keys (dict_set k' v d)) <-> k = k' \/ In k (dict_keys d).
Proof.
  rewrite !dict_get_In_keys, dict_get_set.
  destruct (String.eqb k k') eqn:E.
  - apply String.eqb_eq in E. split; eauto.
  - apply String.eqb_neq in E. split; [eauto|]. intros [H | H]; [congruence | exact H].
Qed.
End DictFacts.

(** ** Values *)

Lemma pyval_nested_ind (P : pyval -> Prop) :
  P VNone -> (forall b, P (VBool b)) -> (forall z, P (VInt z)) ->
  (forall s, P (VStr s)) ->
  (forall l, Forall P l -> P (VList l)) ->
  (forall d, Forall (fun kv => P (snd kv)) d -> P (VDict d)) ->
  (forall t r c, P (VObj t r c)) ->
  (forall t d, Forall (fun kv => P (snd kv)) d -> P (VData t d)) ->
  forall v, P v.
Proof.
  intros HNone HBool HInt HStr HList HDict HObj HData.
  fix IH 1. intros [| b | z | s | l | d | t r c | t d].
  - exact HNone.
  - apply HBool.
  - apply HInt.
  - apply HStr.
  - apply HList. induction l as [|x l IHl]; constructor; [apply IH | exact IHl].
  - apply HDict. induction d as [|[k x] d IHd]; constructor; [apply IH | exact IHd].
  - apply HObj.
  - apply HData. induction d as [|[k x] d IHd]; constructor; [apply IH | exact IHd].
Qed.

(** ** The ambient context *)

Lemma NoDup_keys_filter {V} (f : string * V -> bool) (d : dict V) :
  List.NoDup (dict_keys d) -> List.NoDup (dict_keys (List.filter f d)).
Proof.
  unfold dict_keys. induction d as [|kv d IH]; simpl; intros Hnd; [constructor|].
  inversion Hnd as [|? ? Hnotin Hnd']; subst.
  destruct (f kv); simpl; auto.
  constructor; auto.
  intros Hin. apply Hnotin.
  apply in_map_iff in Hin as [x [Hx Hin]].
  apply filter_In in Hin as [Hin _].
  apply in_map_iff. eauto.
Qed.

(** The copy of a list of fields has the keys of the list. *)
Lemma copy_members_keys (d d' : dict pyval) :
  RequestContext.copy_members d = Ok d' -> dict_keys d' = dict_keys d.
Proof.
  revert d'. induction d as [|[k x] d IH]; intros d' H; simpl in H.
  - now injection H as <-.
  - destruct (RequestContext._asdict_inner x) as [x'|e]; [|discriminate].
    destruct (RequestContext.copy_members d) as [d''|e]; [|discriminate].
    injection H as <-. simpl. f_equal. now apply IH.
Qed.

Lemma asdict_keys (ctx : RequestContext.t) (d : dict pyval) :
  RequestContext.asdict ctx = Ok d -> dict_keys d = RequestContext.fields.
Proof. intros H. now apply copy_members_keys in H. Qed.

Lemma as_dict_filter (ctx : RequestContext.t) (fields : dict pyval) :
  RequestContext.as_dict ctx = Ok fields ->
  exists d,
    RequestContext.asdict ctx = Ok d /\
    fields = List.filter (fun kv => negb (is_None (snd kv))) d.
Proof.
  unfold RequestContext.as_dict.
  destruct (RequestContext.asdict ctx) as [d|e]; [|discriminate].
  intros [= <-]. eauto.
Qed.

Lemma as_dict_NoDup (ctx : RequestContext.t) (fields : dict pyval) :
  RequestContext.as_dict ctx = Ok fields -> List.NoDup (dict_keys fields).
Proof.
  intros H. apply as_dict_filter in H as (d & Hd & ->).
  apply NoDup_keys_filter. rewrite (asdict_keys _ _ Hd). simpl.
  repeat (constructor; [simpl; intuition discriminate|]). constructor.
Qed.

Lemma as_dict_keys_fields (ctx : RequestContext.t) (fields : dict pyval) (k : string) :
  RequestContext.as_dict ctx = Ok fields ->
  In k (dict_keys fields) -> In k RequestContext.fields.
Proof.
  intros H Hin. apply as_dict_filter in H as (d & Hd & ->).
  rewrite <- (asdict_keys _ _ Hd).
  unfold dict_keys in *. apply in_map_iff in Hin as [[k' v] [Hk Hin]].
  simpl in Hk. subst k'. apply filter_In in Hin as [Hin _].
  change k with (fst (k, v)). now apply in_map.
Qed.

Lemma fields_not_reserved (taskName : bool) (k : string) :
  In k RequestContext.fields ->
  existsb (String.eqb k) (reserved_attrs taskName) = false.
Proof.
  simpl. intros H.
  repeat (destruct H as [<- | H]; [now destruct taskName|]). contradiction.
Qed.

(** An error of the copy is the TypeError of [copy.deepcopy]. *)
Lemma asdict_inner_TypeError (v : pyval) (e : exn) :
  RequestContext._asdict_inner v = Raise e -> exn_cls e = TypeError.
Proof.
  revert e.
  assert (Hmembers : forall d,
            Forall (fun kv => forall e,
                      RequestContext._asdict_inner (snd kv) = Raise e ->
                      exn_cls e = TypeError) d ->
            forall e, RequestContext.copy_members d = Raise e -> exn_cls e = TypeError).
  { induction d as [|[k x] d IHd]; intros Hall e H; simpl in H; [discriminate|].
    inversion Hall as [|? ? Hx Hd]; subst. simpl in Hx.
    destruct (RequestContext._asdict_inner x) as [x'|e'] eqn:Ex.
    - destruct (RequestContext.copy_members d) as [d'|e'] eqn:Ed; [discriminate|].
      injection H as <-. now apply IHd.
    - injection H as <-. now apply Hx. }
  induction v as [| b | z | s | l IHl | d IHd | t r c | t d IHd] using pyval_nested_ind;
    intros e H; try discriminate H.
  - simpl in H.
    match type of H with
    | match ?items with _ => _ end = _ => destruct items as [l'|e'] eqn:El
    end; [discriminate|].
    injection H as <-. clear - IHl El. revert e' El.
    induction l as [|x l IH]; intros e' El; [discriminate|].
    inversion IHl as [|? ? Hx Hl]; subst.
    destruct (RequestContext._asdict_inner x) as [x'|e0] eqn:Ex.
    + match type of El with
      | match ?items with _ => _ end = _ => destruct items as [l'|e1] eqn:El'
      end; [discriminate|].
      injection El as <-. now apply IH.
    + injection El as <-. now apply Hx.
  - change (RequestContext._asdict_inner (VDict d))
      with (match RequestContext.copy_members d with
            | Ok d' => Ok (VDict d') | Raise e => Raise e end) in H.
    destruct (RequestContext.copy_members d) as [d'|e'] eqn:Ed; [discriminate|].
    injection H as <-. now apply (Hmembers d).
  - destruct c; [discriminate|]. simpl in H. now injection H as <-.
  - change (RequestContext._asdict_inner (VData t d))
      with (match RequestContext.copy_members d with
            | Ok d' => Ok (VDict d') | Raise e => Raise e end) in H.
    destruct (RequestContext.copy_members d) as [d'|e'] eqn:Ed; [discriminate|].
    injection H as <-. now apply (Hmembers d).
Qed.

Lemma copy_members_TypeError (d : dict pyval) (e : exn) :
  RequestContext.copy_members d = Raise e -> exn_cls e = TypeError.
Proof.
  induction d as [|[k x] d IH]; simpl; [discriminate|].
  destruct (RequestContext._asdict_inner x) as [x'|e'] eqn:Ex.
  - destruct (RequestContext.copy_members d) as [d'|e']; [discriminate|].
    intros [= <-]. now apply IH.
  - intros [= <-]. now apply asdict_inner_TypeError in Ex.
Qed.

Lemma as_dict_TypeError (ctx : RequestContext.t) (e : exn) :
  RequestContext.as_dict ctx = Raise e -> exn_cls e = TypeError.
Proof.
  unfold RequestContext.as_dict, RequestContext.asdict.
  destruct (RequestContext.copy_members _) as [d|e'] eqn:E; [discriminate|].
  intros [= <-]. now apply copy_members_TypeError in E.
Qed.

(** Plain data is copied to itself. *)
Lemma asdict_inner_plain (v : pyval) :
  json.unserializable v = None -> RequestContext._asdict_inner v = Ok v.
Proof.
  induction v as [| b | z | s | l IHl | d IHd | t r c | t d IHd] using pyval_nested_ind;
    intros H; try reflexivity; try discriminate H.
  - simpl in *.
    match goal with
    | |- match ?items with _ => _ end = _ => assert (E : items = Ok l)
    end; [|now rewrite E].
    induction l as [|x l IH]; [reflexivity|].
    inversion IHl as [|? ? Hx Hl]; subst.
    destruct (json.unserializable x) eqn:Ex; [discriminate|].
    rewrite (Hx eq_refl), (IH Hl H). reflexivity.
  - simpl in *.
    match goal with
    | |- match ?members with _ => _ end = _ => assert (E : members = Ok d)
    end; [|now rewrite E].
    induction d as [|[k x] d IH]; [reflexivity|].
    inversion IHd as [|? ? Hx Hd]; subst. simpl in Hx.
    destruct (json.unserializable x) eqn:Ex; [discriminate|].
    rewrite (Hx eq_refl), (IH Hd H). reflexivity.
Qed.

(** The copy of a value is None exactly when the value is. *)
Lemma asdict_inner_is_None (v v' : pyval) :
  RequestContext._asdict_inner v = Ok v' -> is_None v' = is_None v.
Proof.
  destruct v as [| b | z | s | l | d | t r c | t d]; simpl;
    try (intros [= <-]; reflexivity).
  - match goal with
    | |- match ?x with _ => _ end = _ -> _ => destruct x
    end; [intros [= <-]; reflexivity | discriminate].
  - match goal with
    | |- match ?x with _ => _ end = _ -> _ => destruct x
    end; [intros [= <-]; reflexivity | discriminate].
  - destruct c; [intros [= <-]; reflexivity | discriminate].
  - match goal with
    | |- match ?x with _ => _ end = _ -> _ => destruct x
    end; [intros [= <-]; reflexivity | discriminate].
Qed.

(** The dictionary form of a context, field by field: the copies of the
    values that are not None. *)
Lemma as_dict_copies (ctx : RequestContext.t) (fields : dict pyval) :
  RequestContext.as_dict ctx = Ok fields ->
  exists ts rid uid svc env ext,
    RequestContext._asdict_inner (RequestContext.timestamp ctx) = Ok ts /\
    RequestContext._asdict_inner (RequestContext.request_id ctx) = Ok rid /\
    RequestContext._asdict_inner (RequestContext.user_id ctx) = Ok uid /\
    RequestContext._asdict_inner (RequestContext.service ctx) = Ok svc /\
    RequestContext._asdict_inner (RequestContext.environment ctx) = Ok env /\
    RequestContext._asdict_inner (RequestContext.extra ctx) = Ok ext /\
    fields =
    List.filter (fun kv => negb (is_None (snd kv)))
      [("timestamp", ts); ("request_id", rid); ("user_id", uid);
       ("service", svc); ("environment", env); ("extra", ext)].
Proof.
  unfold RequestContext.as_dict, RequestContext.asdict. simpl.
  destruct (RequestContext._asdict_inner (RequestContext.timestamp ctx)) as [ts|];
    [|discriminate].
  destruct (RequestContext._asdict_inner (RequestContext.request_id ctx)) as [rid|];
    [|discriminate].
  destruct (RequestContext._asdict_inner (RequestContext.user_id ctx)) as [uid|];
    [|discriminate].
  destruct (RequestContext._asdict_inner (RequestContext.service ctx)) as [svc|];
    [|discriminate].
  destruct (RequestContext._asdict_inner (RequestContext.environment ctx)) as [env|];
    [|discriminate].
  destruct (RequestContext._asdict_inner (RequestContext.extra ctx)) as [ext|];
    [|discriminate].
  intros [= <-]. exists ts, rid, uid, svc, env, ext. repeat split.
Qed.

(** The context variable of the class has a default: [get] always answers. *)
Lemma context_var_get (self : FastAPILogger.t) (bound : option RequestContext.t) :
  exists ctx, ContextVar.get (FastAPILogger._context_var self) bound = Ok ctx.
Proof. destruct bound; simpl; eauto. Qed.

(** ** The facade *)

Lemma updated_in_place_frame extra merged w :
  py312 (FastAPILogger.updated_in_place extra merged w) = py312 w /\
  loggers (FastAPILogger.updated_in_place extra merged w) = loggers w /\
  handling (FastAPILogger.updated_in_place extra merged w) = handling w /\
  trace (FastAPILogger.updated_in_place extra merged w) = trace w.
Proof.
  unfold FastAPILogger.updated_in_place.
  destruct extra, (context w); repeat split.
Qed.

Lemma updated_in_place_own extra merged w :
  extra <> ExtraShared -> FastAPILogger.updated_in_place extra merged w = w.
Proof. destruct extra; [reflexivity | reflexivity | contradiction]. Qed.

Lemma the_logger_updated nm extra merged w :
  the_logger nm (FastAPILogger.updated_in_place extra merged w) = the_logger nm w.
Proof.
  unfold the_logger. now rewrite (proj1 (proj2 (updated_in_place_frame extra merged w))).
Qed.

Lemma log_unfold self lvl msg extra exc clk w :
  FastAPILogger.log self lvl msg extra exc clk w =
  match ContextVar.get (FastAPILogger._context_var self) (context w) with
  | Raise e => (w, Raise e)
  | Ok ctx =>
      match FastAPILogger.passed extra ctx with
      | VDict d =>
          match RequestContext.as_dict ctx with
          | Raise e => (w, Raise e)
          | Ok fields =>
              Logger_log (FastAPILogger.name self) lvl msg (dict_update d fields)
                exc clk
                (FastAPILogger.updated_in_place extra (dict_update d fields) w)
          end
      | other =>
          (w, Raise (mkExn AttributeError
                       ("'" ++ type_name_of other
                          ++ "' object has no attribute 'update'")))
      end
  end.
Proof.
  unfold FastAPILogger.log, bind, FastAPILogger._get_log_args.
  destruct (ContextVar.get _ _) as [ctx|e]; [|reflexivity].
  destruct (FastAPILogger.passed extra ctx); try reflexivity.
  destruct (RequestContext.as_dict ctx); reflexivity.
Qed.

(** What a call of a logger method leaves: nothing when the level is not
    enabled, a KeyError when [extra] names a reserved attribute, else one
    record, handed to the handlers. *)
Lemma Logger_log_cases nm lvl msg extra exc clk w :
  let lg := the_logger nm w in
  ((getEffectiveLevel lg <=? levelno lvl) = false /\
   Logger_log nm lvl msg extra exc clk w = (w, Ok tt))
  \/ ((getEffectiveLevel lg <=? levelno lvl) = true /\
      exists k,
        find (fun k => existsb (String.eqb k) (reserved_attrs (py312 w)))
             (dict_keys extra) = Some k /\
        Logger_log nm lvl msg extra exc clk w =
        (w, Raise (mkExn KeyError ("Attempt to overwrite '" ++ k ++ "' in LogRecord"))))
  \/ ((getEffectiveLevel lg <=? levelno lvl) = true /\
      find (fun k => existsb (String.eqb k) (reserved_attrs (py312 w)))
           (dict_keys extra) = None /\
      let record :=
        LogRecord.mk nm lvl msg (if exc then Some (handling w) else None)
                     (clk_asctime clk) extra in
      Logger_log nm lvl msg extra exc clk w =
      (emits (EHandle record :: callHandlers lg record (clk_iso clk)) w, Ok tt)).
Proof.
  intros lg. unfold Logger_log. fold lg.
  destruct (getEffectiveLevel lg <=? levelno lvl) eqn:E; [|left; auto].
  unfold makeRecord.
  destruct (find _ (dict_keys extra)) as [k|] eqn:Ef.
  - right; left. split; [reflexivity|]. exists k. split; reflexivity.
  - right; right. auto.
Qed.

Lemma trace_emits es w : trace (emits es w) = (trace w ++ es)%list.
Proof. reflexivity. Qed.

Lemma app_eq_self {A} (l l' : list A) : l = (l ++ l')%list -> l' = [].
Proof.
  intros H. rewrite <- (app_nil_r l) in H at 1.
  apply app_inv_head in H. congruence.
Qed.

Lemma find_all_false {A} (f : A -> bool) (l : list A) :
  (forall x, In x l -> f x = false) -> find f l = None.
Proof.
  induction l as [|x l IH]; simpl; intros H; [reflexivity|].
  rewrite (H x) by now left. apply IH. intros y Hy. apply H. now right.
Qed.

(** The reserved name that [makeRecord] finds in the merged mapping, if
    any, is a key of the call site: the fields of the context are not
    reserved. *)
Lemma merged_reserved (taskName : bool) (d : dict pyval) (ctx : RequestContext.t)
    (fields : dict pyval) :
  RequestContext.as_dict ctx = Ok fields ->
  match find (fun k => existsb (String.eqb k) (reserved_attrs taskName))
             (dict_keys (dict_update d fields)) with
  | Some k => In k (dict_keys d) /\ In k (reserved_attrs taskName)
  | None =>
      forall k, In k (dict_keys d) ->
                existsb (String.eqb k) (reserved_attrs taskName) = false
  end.
Proof.
  intros Hfields.
  destruct (find _ _) as [k|] eqn:Ef.
  - apply find_some in Ef as [Hin Hres]. split.
    + apply dict_keys_update in Hin as [Hin | Hin]; [exact Hin|].
      apply (as_dict_keys_fields ctx fields k Hfields) in Hin.
      apply (fields_not_reserved taskName) in Hin. congruence.
    + apply existsb_exists in Hres as [k' [Hk' Heq]].
      apply String.eqb_eq in Heq. now subst.
  - intros k Hin. apply (find_none _ _ Ef k). apply dict_keys_update. now left.
Qed.

(** The courses of a call of the facade. *)
Lemma log_cases self lvl msg extra (exc : bool) clk w :
  exists ctx,
    ContextVar.get (FastAPILogger._context_var self) (context w) = Ok ctx /\
    (((forall d, FastAPILogger.passed extra ctx <> VDict d) /\
      exists e,
        exn_cls e = AttributeError /\
        FastAPILogger.log self lvl msg extra exc clk w = (w, Raise e))
     \/ exists d,
          FastAPILogger.passed extra ctx = VDict d /\
          ((exists e,
              RequestContext.as_dict ctx = Raise e /\ exn_cls e = TypeError /\
              FastAPILogger.log self lvl msg extra exc clk w = (w, Raise e))
           \/ exists fields,
                RequestContext.as_dict ctx = Ok fields /\
                let merged := dict_update d fields in
                let w0 := FastAPILogger.updated_in_place extra merged w in
                let lg := the_logger (FastAPILogger.name self) w in
                (((getEffectiveLevel lg <=? levelno lvl) = false /\
                  FastAPILogger.log self lvl msg extra exc clk w = (w0, Ok tt))
                 \/ ((getEffectiveLevel lg <=? levelno lvl) = true /\
                     exists k,
                       In k (dict_keys d) /\ In k (reserved_attrs (py312 w)) /\
                       FastAPILogger.log self lvl msg extra exc clk w =
                       (w0, Raise (mkExn KeyError
                                     ("Attempt to overwrite '" ++ k
                                        ++ "' in LogRecord"))))
                 \/ ((getEffectiveLevel lg <=? levelno lvl) = true /\
                     (forall k, In k (dict_keys d) ->
                                existsb (String.eqb k) (reserved_attrs (py312 w))
                                = false) /\
                     let record :=
                       LogRecord.mk (FastAPILogger.name self) lvl msg
                         (if exc then Some (handling w) else None)
                         (clk_asctime clk) merged in
                     FastAPILogger.log self lvl msg extra exc clk w =
                     (emits (EHandle record
                               :: callHandlers lg record (clk_iso clk)) w0,
                      Ok tt))))).
Proof.
  destruct (context_var_get self (context w)) as [ctx Hctx].
  exists ctx. split; [exact Hctx|].
  rewrite log_unfold, Hctx.
  destruct (FastAPILogger.passed extra ctx) as [| b | z | s | l | d | t r c | t d] eqn:Ep;
    try (left; split; [discriminate|]; eexists; split; [|reflexivity]; reflexivity).
  right. exists d. split; [reflexivity|].
  destruct (RequestContext.as_dict ctx) as [fields|e] eqn:Ea.
  - right. exists fields. split; [reflexivity|]. cbv zeta.
    set (merged := dict_update d fields).
    set (w0 := FastAPILogger.updated_in_place extra merged w).
    pose proof (updated_in_place_frame extra merged w) as (Hpy & Hlg & Hh & _).
    fold w0 in Hpy, Hlg, Hh.
    pose proof (Logger_log_cases (FastAPILogger.name self) lvl msg merged exc clk w0)
      as Hcases.
    cbv zeta in Hcases.
    assert (Hthe : the_logger (FastAPILogger.name self) w0
                   = the_logger (FastAPILogger.name self) w)
      by apply the_logger_updated.
    rewrite Hthe, Hpy, Hh in Hcases.
    pose proof (merged_reserved (py312 w) d ctx fields Ea) as Hres. fold merged in Hres.
    destruct Hcases as [[El H] | [[El [k [Hk H]]] | (El & Hk & H)]].
    + left. auto.
    + right; left. split; [exact El|]. rewrite Hk in Hres. destruct Hres as [H1 H2].
      exists k. auto.
    + right; right. split; [exact El|]. rewrite Hk in Hres. split; [exact Hres|].
      exact H.
  - left. exists e. split; [reflexivity|]. split; [|reflexivity].
    now apply as_dict_TypeError in Ea.
Qed.

(** C1 (as the code has it).  For every log call through the facade, when
    the dictionary form of the ambient context defines key [k] (a field that
    is not None), the record handed to the sinks carries the value of that
    dictionary under [k], whatever the [extra] of the call site holds there:
    the context is written over the call-site mapping. *)
Theorem context_value_wins_on_collision :
  forall self lvl msg extra exc clk w ctx fields k cv w' r rest,
    ContextVar.get (FastAPILogger._context_var self) (context w) = Ok ctx ->
    RequestContext.as_dict ctx = Ok fields ->
    dict_get k fields = Some cv ->
    FastAPILogger.log self lvl msg extra exc clk w = (w', Ok tt) ->
    trace w' = (trace w ++ EHandle r :: rest)%list ->
    dict_get k (LogRecord.attrs r) = Some cv.
Proof.
  intros self lvl msg extra exc clk w ctx fields k cv w' r rest Hget Hfields Hk Hlog Htr.
  destruct (log_cases self lvl msg extra exc clk w) as (ctx' & Hget' & Hcases).
  rewrite Hget in Hget'. injection Hget' as <-.
  destruct Hcases as [(_ & e & _ & H) | (d & _ & [(e & _ & _ & H) | (f & Hf & H)])];
    try (rewrite H in Hlog; discriminate Hlog).
  rewrite Hfields in Hf. injection Hf as <-. cbv zeta in H.
  pose proof (updated_in_place_frame extra (dict_update d fields) w) as (_ & _ & _ & Ht).
  destruct H as [[_ H] | [(_ & k' & _ & _ & H) | (_ & _ & H)]]; rewrite H in Hlog.
  - injection Hlog as <-. rewrite Ht in Htr. apply app_eq_self in Htr. discriminate.
  - discriminate.
  - injection Hlog as <-. rewrite trace_emits, Ht in Htr.
    apply app_inv_head in Htr. injection Htr as <- _. simpl.
    rewrite dict_get_update, dict_get_rev_NoDup by apply (as_dict_NoDup ctx), Hfields.
    now rewrite Hk.
Qed.

Lemma context_value_wins_on_collision_witness :
  exists r rest,
    trace (fst colliding_call) = (trace booted_world ++ EHandle r :: rest)%list /\
    dict_get "request_id" (LogRecord.attrs r) = Some (VStr "-").
Proof.
  do 2 eexists. split; [reflexivity|].
  eapply (context_value_wins_on_collision sample_logger INFO "hello"
            (ExtraOwn (VDict [("request_id", VStr "from-call-site")])) false
            sample_clock booted_world _ _ "request_id" (VStr "-")
            (fst colliding_call)).
  - reflexivity.
  - reflexivity.
  - reflexivity.
  - reflexivity.
  - reflexivity.
Defined.

(** C1, as stated, fails: the call site gives [request_id], the default
    context defines it too, and the record carries the value of the
    context. *)
Lemma call_site_value_is_overwritten :
  dict_get "request_id" [("request_id", VStr "from-call-site")]
    = Some (VStr "from-call-site") /\
  exists ctx fields r rest,
    ContextVar.get (FastAPILogger._context_var sample_logger) (context booted_world)
      = Ok ctx /\
    RequestContext.as_dict ctx = Ok fields /\
    dict_get "request_id" fields = Some (VStr "-") /\
    snd colliding_call = Ok tt /\
    trace (fst colliding_call) = (trace booted_world ++ EHandle r :: rest)%list /\
    dict_get "request_id" (LogRecord.attrs r) = Some (VStr "-") /\
    dict_get "request_id" (LogRecord.attrs r) <> Some (VStr "from-call-site").
Proof.
  split; [reflexivity|].
  do 4 eexists.
  split; [reflexivity|]. split; [reflexivity|]. split; [reflexivity|].
  split; [reflexivity|]. split; [reflexivity|]. split; [reflexivity|]. discriminate.
Qed.

(** ** Building and setting the context *)

Lemma is_None_false v : is_None v = false -> v <> VNone.
Proof. destruct v; simpl; congruence. Qed.

Lemma post_init_timestamp now c :
  RequestContext.timestamp (RequestContext.__post_init__ now c) <> VNone.
Proof.
  unfold RequestContext.__post_init__.
  destruct (is_None (RequestContext.timestamp c)) eqn:E; simpl.
  - discriminate.
  - now apply is_None_false.
Qed.

Lemma init_timestamp now kwargs ctx :
  RequestContext.__init__ now kwargs = Ok ctx ->
  RequestContext.timestamp ctx <> VNone /\
  RequestContext.timestamp ctx =
    (if is_None (RequestContext.kwarg kwargs "timestamp" VNone)
     then VStr now else RequestContext.kwarg kwargs "timestamp" VNone).
Proof.
  unfold RequestContext.__init__.
  destruct (find _ _); [discriminate|]. intros [= <-].
  split; [apply post_init_timestamp|].
  unfold RequestContext.__post_init__. simpl.
  now destruct (is_None (RequestContext.kwarg kwargs "timestamp" VNone)).
Qed.

Lemma set_context_cases self kwargs now w :
  (exists e, exn_cls e = TypeError /\
     FastAPILogger.set_context self kwargs now w = (w, Raise e))
  \/ (exists ctx,
        RequestContext.__init__ now
          (("service", VStr (FastAPILogger.service_name self))
             :: ("environment", VStr (FastAPILogger.environment self)) :: kwargs)
          = Ok ctx /\
        FastAPILogger.set_context self kwargs now w = (set_bound (Some ctx) w, Ok tt)).
Proof.
  unfold FastAPILogger.set_context.
  destruct (dict_has "service" kwargs);
    [left; eexists; split; [|reflexivity]; reflexivity|].
  destruct (dict_has "environment" kwargs);
    [left; eexists; split; [|reflexivity]; reflexivity|].
  unfold bind, lift.
  destruct (RequestContext.__init__ _ _) as [ctx|e] eqn:E.
  - right. eauto.
  - left. exists e. split; [|reflexivity].
    unfold RequestContext.__init__ in E.
    destruct (find _ _); [|discriminate]. now injection E as <-.
Qed.

(** C7.  The context variable of the class is created with a default, so
    [get] answers in every context, bound or not, and [_get_log_args] never
    fails for want of a context (it never raises LookupError; what it can
    raise is the AttributeError of an [extra] that is no dict and the
    TypeError of a context value that cannot be copied); the default is the
    RequestContext built when the class body ran.  Every RequestContext that
    [__init__] returns has a timestamp that is not None: the one supplied,
    else the time of creation.  [set_context] binds such a context. *)
Theorem ambient_context_always_present :
  (forall self bound,
     exists ctx, ContextVar.get (FastAPILogger._context_var self) bound = Ok ctx) /\
  (forall self,
     exists ctx,
       ContextVar.default (FastAPILogger._context_var self) = Some ctx /\
       RequestContext.timestamp ctx = VStr (FastAPILogger.class_created self)) /\
  (forall self msg extra w w' e,
     FastAPILogger._get_log_args self msg extra w = (w', Raise e) ->
     exn_cls e <> LookupError /\
     (exn_cls e = AttributeError \/ exn_cls e = TypeError)) /\
  (forall now kwargs ctx,
     RequestContext.__init__ now kwargs = Ok ctx ->
     RequestContext.timestamp ctx <> VNone /\
     RequestContext.timestamp ctx =
       (if is_None (RequestContext.kwarg kwargs "timestamp" VNone)
        then VStr now else RequestContext.kwarg kwargs "timestamp" VNone)) /\
  (forall self kwargs now w w',
     FastAPILogger.set_context self kwargs now w = (w', Ok tt) ->
     exists ctx,
       context w' = Some ctx /\
       ContextVar.get (FastAPILogger._context_var self) (context w') = Ok ctx /\
       RequestContext.timestamp ctx <> VNone).
Proof.
  split; [exact context_var_get|].
  split; [intros self; eexists; split; reflexivity|].
  split.
  { intros self msg extra w w' e. unfold FastAPILogger._get_log_args.
    destruct (context_var_get self (context w)) as [ctx ->].
    destruct (FastAPILogger.passed extra ctx) as [| b | z | s | l | d | t r c | t d];
      try (intros [= _ <-]; split; [discriminate | now left]).
    destruct (RequestContext.as_dict ctx) as [fields|e'] eqn:Ea; [discriminate|].
    intros [= _ <-]. apply as_dict_TypeError in Ea. rewrite Ea.
    split; [discriminate | now right]. }
  split; [exact init_timestamp|].
  intros self kwargs now w w' Hset.
  destruct (set_context_cases self kwargs now w) as [[e [_ H]] | [ctx [Hinit H]]];
    rewrite H in Hset; [discriminate|].
  injection Hset as <-. exists ctx. simpl.
  repeat split. now apply init_timestamp in Hinit.
Qed.

Lemma ambient_context_always_present_witness :
  exists ctx,
    RequestContext.__init__ "2024-05-01T10:00:00" [("user_id", VStr "u1")] = Ok ctx /\
    RequestContext.timestamp ctx = VStr "2024-05-01T10:00:00".
Proof.
  eexists. split; [reflexivity|].
  destruct ambient_context_always_present as (_ & _ & _ & H & _).
  destruct (H "2024-05-01T10:00:00" [("user_id", VStr "u1")] _ eq_refl) as [_ ->].
  reflexivity.
Defined.

Lemma dict_has_false {V} (k : string) (d : dict V) :
  ~ In k (dict_keys d) -> dict_has k d = false.
Proof.
  intros H. apply dict_get_None in H. unfold dict_has. now rewrite H.
Qed.

Lemma dict_has_true {V} (k : string) (d : dict V) :
  In k (dict_keys d) -> dict_has k d = true.
Proof.
  intros H. apply dict_get_In_keys in H as [v H]. unfold dict_has. now rewrite H.
Qed.

(** C8 (as the code has it).  A call of [set_context] whose keyword
    arguments are among timestamp, request_id, user_id and extra binds a
    new RequestContext: service and environment are those of the facility,
    each supplied field has its supplied value, each other field its default
    (the time of the call for the timestamp); nothing else of the world
    changes.  A call that supplies service or environment raises TypeError
    and leaves the bound context as it was. *)
Theorem set_context_replaces_context :
  (forall self kwargs now w,
     (forall k, In k (dict_keys kwargs) ->
                In k ["timestamp"; "request_id"; "user_id"; "extra"]) ->
     FastAPILogger.set_context self kwargs now w =
     (set_bound
        (Some (RequestContext.mk
                 (if is_None (RequestContext.kwarg kwargs "timestamp" VNone)
                  then VStr now
                  else RequestContext.kwarg kwargs "timestamp" VNone)
                 (RequestContext.kwarg kwargs "request_id" (VStr "-"))
                 (RequestContext.kwarg kwargs "user_id" (VStr "-"))
                 (VStr (FastAPILogger.service_name self))
                 (VStr (FastAPILogger.environment self))
                 (RequestContext.kwarg kwargs "extra" VNone))) w,
      Ok tt)) /\
  (forall self kwargs now w,
     In "service" (dict_keys kwargs) \/ In "environment" (dict_keys kwargs) ->
     exists e,
       exn_cls e = TypeError /\
       FastAPILogger.set_context self kwargs now w = (w, Raise e)).
Proof.
  split.
  - intros self kwargs now w Hkeys.
    unfold FastAPILogger.set_context.
    rewrite (dict_has_false "service"), (dict_has_false "environment");
      try (intros Hin; apply Hkeys in Hin; simpl in Hin; intuition discriminate).
    unfold bind, lift, RequestContext.__init__.
    rewrite find_all_false.
    + unfold RequestContext.__post_init__, RequestContext.kwarg. simpl.
      now destruct (is_None _).
    + intros k [<- | [<- | Hin]]; try reflexivity.
      apply Hkeys in Hin. simpl in Hin.
      repeat (destruct Hin as [<- | Hin]; [reflexivity|]). contradiction.
  - intros self kwargs now w Hin.
    unfold FastAPILogger.set_context.
    destruct (dict_has "service" kwargs) eqn:Es.
    + eexists. split; [|reflexivity]. reflexivity.
    + destruct Hin as [Hin | Hin].
      * apply dict_has_true in Hin. congruence.
      * apply dict_has_true in Hin. rewrite Hin.
        eexists. split; [|reflexivity]. reflexivity.
Qed.

Lemma set_context_replaces_context_witness :
  context
    (fst (FastAPILogger.set_context sample_logger
            [("request_id", VStr "ab12cd34")] "2024-05-01T10:00:00" booted_world))
  = Some (RequestContext.mk (VStr "2024-05-01T10:00:00") (VStr "ab12cd34") (VStr "-")
            (VStr "your-service-name") (VStr "development") VNone).
Proof.
  rewrite (proj1 set_context_replaces_context sample_logger
             [("request_id", VStr "ab12cd34")] "2024-05-01T10:00:00" booted_world).
  - reflexivity.
  - simpl. intros k [<- | []]. simpl. tauto.
Defined.

(** C8, as stated, fails: [service] is a field of the context, and
    supplying it does not overlay the facility's value but ends the call
    with a TypeError, the bound context unchanged. *)
Lemma set_context_rejects_service :
  In "service" RequestContext.fields /\
  snd (FastAPILogger.set_context sample_logger [("service", VStr "billing")]
         "2024-05-01T10:00:00" booted_world)
  = Raise (mkExn TypeError
             "RequestContext() got multiple values for keyword argument 'service'") /\
  context (fst (FastAPILogger.set_context sample_logger [("service", VStr "billing")]
                  "2024-05-01T10:00:00" booted_world))
  = context booted_world.
Proof.
  split; [simpl; tauto|]. split; reflexivity.
Qed.

(** ** Delivery *)

Lemma dict_set_fresh {V} (k : string) (v : V) (d : dict V) :
  ~ In k (dict_keys d) -> dict_set k v d = (d ++ [(k, v)])%list.
Proof.
  induction d as [|[k' v'] d IH]; simpl; intros Hk; [reflexivity|].
  destruct (String.eqb k k') eqn:E.
  - apply String.eqb_eq in E. subst. exfalso. apply Hk. now left.
  - rewrite IH; [reflexivity|]. intros Hin. apply Hk. now right.
Qed.

Lemma dict_update_fresh {V} (d o : dict V) :
  List.NoDup (dict_keys o) ->
  (forall k, In k (dict_keys o) -> ~ In k (dict_keys d)) ->
  dict_update d o = (d ++ o)%list.
Proof.
  unfold dict_update. revert d.
  induction o as [|[k v] o IH]; intros d Hnd Hfresh; simpl.
  - now rewrite app_nil_r.
  - inversion Hnd as [|? ? Hk Hnd']; subst.
    rewrite dict_set_fresh by (apply Hfresh; now left).
    rewrite IH; [now rewrite <- app_assoc|exact Hnd'|].
    intros k' Hin Hin'. unfold dict_keys in Hin'. rewrite map_app in Hin'.
    apply in_app_or in Hin' as [Hin' | [<- | []]].
    + apply (Hfresh k'); [now right | exact Hin'].
    + now apply Hk.
Qed.

Lemma dict_update_nil {V} (o : dict V) :
  List.NoDup (dict_keys o) -> dict_update [] o = o.
Proof. intros H. now rewrite dict_update_fresh. Qed.

(** A call of the facade without [extra]: the TypeError of the copy
    when the context cannot be copied; else, at an enabled level, one
    record, whose attributes are the dictionary form of the context, handed
    to the handlers; else nothing. *)
Lemma log_absent_eq self lvl msg (exc : bool) clk w ctx :
  ContextVar.get (FastAPILogger._context_var self) (context w) = Ok ctx ->
  FastAPILogger.log self lvl msg ExtraAbsent exc clk w =
  match RequestContext.as_dict ctx with
  | Raise e => (w, Raise e)
  | Ok fields =>
      if getEffectiveLevel (the_logger (FastAPILogger.name self) w) <=? levelno lvl
      then
        (emits
           (EHandle (LogRecord.mk (FastAPILogger.name self) lvl msg
                       (if exc then Some (handling w) else None)
                       (clk_asctime clk) fields)
              :: callHandlers (the_logger (FastAPILogger.name self) w)
                   (LogRecord.mk (FastAPILogger.name self) lvl msg
                      (if exc then Some (handling w) else None)
                      (clk_asctime clk) fields)
                   (clk_iso clk)) w,
         Ok tt)
      else (w, Ok tt)
  end.
Proof.
  intros Hget. rewrite log_unfold, Hget. cbn [FastAPILogger.passed].
  destruct (RequestContext.as_dict ctx) as [fields|e] eqn:Hfields; [|reflexivity].
  rewrite (dict_update_nil fields) by apply (as_dict_NoDup ctx), Hfields.
  cbn [FastAPILogger.updated_in_place]. unfold Logger_log.
  destruct (_ <=? _); [|reflexivity].
  unfold makeRecord. rewrite find_all_false; [reflexivity|].
  intros k Hin. apply fields_not_reserved.
  now apply (as_dict_keys_fields ctx fields).
Qed.

Lemma log_absent self lvl msg (exc : bool) clk w ctx fields :
  ContextVar.get (FastAPILogger._context_var self) (context w) = Ok ctx ->
  RequestContext.as_dict ctx = Ok fields ->
  getEffectiveLevel (the_logger (FastAPILogger.name self) w) <= levelno lvl ->
  FastAPILogger.log self lvl msg ExtraAbsent exc clk w =
  (emits
     (EHandle (LogRecord.mk (FastAPILogger.name self) lvl msg
                 (if exc then Some (handling w) else None) (clk_asctime clk) fields)
        :: callHandlers (the_logger (FastAPILogger.name self) w)
             (LogRecord.mk (FastAPILogger.name self) lvl msg
                (if exc then Some (handling w) else None) (clk_asctime clk) fields)
             (clk_iso clk)) w,
   Ok tt).
Proof.
  intros Hget Hfields Hlvl. rewrite (log_absent_eq _ _ _ _ _ _ ctx Hget), Hfields.
  apply Z.leb_le in Hlvl. now rewrite Hlvl.
Qed.

(** The line of the text formatter for a record that has the four
    attributes of the format string. *)
Lemma line_format_fields nm lvl msg ei created attrs sv ev rv uv :
  dict_get "service" attrs = Some sv ->
  dict_get "environment" attrs = Some ev ->
  dict_get "request_id" attrs = Some rv ->
  dict_get "user_id" attrs = Some uv ->
  line_format (LogRecord.mk nm lvl msg ei created attrs) =
  Ok (mkLine created (levelname lvl) sv ev rv uv nm msg (option_map formatException ei)).
Proof.
  intros Hs He Hr Hu. unfold line_format. simpl. now rewrite Hs, He, Hr, Hu.
Qed.

Lemma receivers_In lg record h :
  In h (receivers lg record) <->
  In h (handlers lg) /\ h_level h <= levelno (LogRecord.level record).
Proof.
  unfold receivers. rewrite filter_In, Z.leb_le. tauto.
Qed.






(** ** The remote sink *)

Lemma emits_emits es es' w : emits es' (emits es w) = emits (es ++ es') w.
Proof. unfold emits. simpl. now rewrite <- app_assoc. Qed.

Lemma handling_restored es e w :
  set_handling (handling w) (emits es (set_handling (Some e) w)) = emits es w.
Proof. destruct w. reflexivity. Qed.

(** The coroutine body in its three courses: the document cannot be
    built, the client fails, the store accepts. *)
Lemma emit_cases index_prefix es_index record clk w :
  let attempt entry :=
    [EWrite SStdout
       (OText ("Attempting to send log to Elasticsearch: "
                 ++ ElasticsearchHandler.index_name index_prefix clk));
     EWrite SStdout (OPrint "Log entry: " (VDict entry))] in
  let report e :=
    [EWrite SStdout
       (OText ("Detailed error in sending log to Elasticsearch: " ++ exn_msg e));
     EWrite SStderr (OText ("Error sending log to Elasticsearch: " ++ exn_msg e))] in
  match ElasticsearchHandler.log_entry record clk with
  | Raise e =>
      ElasticsearchHandler.emit index_prefix es_index record clk w
      = (emits (report e) w, Ok tt)
  | Ok entry =>
      match es_index (ElasticsearchHandler.index_name index_prefix clk) entry with
      | Ok _ =>
          ElasticsearchHandler.emit index_prefix es_index record clk w
          = (emits (attempt entry
                      ++ [EIndex (ElasticsearchHandler.index_name index_prefix clk) entry;
                          EWrite SStdout
                            (OText "Log successfully sent to Elasticsearch")]) w,
             Ok tt)
      | Raise e =>
          if is_Exception e then
            ElasticsearchHandler.emit index_prefix es_index record clk w
            = (emits (attempt entry ++ report e) w, Ok tt)
          else
            ElasticsearchHandler.emit index_prefix es_index record clk w
            = (emits (attempt entry) w, Raise e)
      end
  end.
Proof.
  intros attempt report.
  unfold ElasticsearchHandler.emit, try_except_Exception, bind, lift, emit_effects.
  destruct (ElasticsearchHandler.log_entry record clk) as [entry|e] eqn:E.
  - destruct (es_index _ entry) as [[]|e] eqn:Ei.
    + now rewrite emits_emits.
    + destruct (is_Exception e) eqn:Ex; [|reflexivity].
      simpl handling. change (handling (emits (attempt entry) w)) with (handling w).
      f_equal. destruct w. unfold emits, set_handling. simpl.
      now rewrite <- app_assoc.
  - assert (Hx : is_Exception e = true).
    { unfold ElasticsearchHandler.log_entry in E.
      destruct (dict_get _ _) as [[]|]; try discriminate; now injection E as <-. }
    rewrite Hx. simpl. f_equal; apply handling_restored.
Qed.

(** C5.  When the body of the remote handler's [emit] runs and the
    delivery fails with an Exception (the client cannot connect, is refused,
    cannot serialize the document), or the document cannot be built, the
    error is caught: its text goes to the error stream, nothing is indexed
    and [emit] returns normally.  In a logging call the remote handler comes
    last and the remote store is not even asked (the call of the coroutine
    function [emit] only builds a coroutine object): an [info] call on the
    logger with the three local handlers and the remote one, under a context
    that has the four fields of the line and that the structured formatter
    can encode, writes the line to the text file, the document to the JSON
    file and the line to the console, and returns normally. *)
Theorem remote_failure_is_contained :
  (forall index_prefix es_index record clk w,
     (forall idx doc e, es_index idx doc = Raise e -> is_Exception e = true) ->
     exists es,
       ElasticsearchHandler.emit index_prefix es_index record clk w
       = (emits es w, Ok tt)) /\
  (forall index_prefix es_index record clk w entry e,
     ElasticsearchHandler.log_entry record clk = Ok entry ->
     es_index (ElasticsearchHandler.index_name index_prefix clk) entry = Raise e ->
     is_Exception e = true ->
     ElasticsearchHandler.emit index_prefix es_index record clk w
     = (emits
          [EWrite SStdout
             (OText ("Attempting to send log to Elasticsearch: "
                       ++ ElasticsearchHandler.index_name index_prefix clk));
           EWrite SStdout (OPrint "Log entry: " (VDict entry));
           EWrite SStdout
             (OText ("Detailed error in sending log to Elasticsearch: " ++ exn_msg e));
           EWrite SStderr
             (OText ("Error sending log to Elasticsearch: " ++ exn_msg e))] w,
        Ok tt)) /\
  (forall index_prefix es_index record clk w e,
     ElasticsearchHandler.log_entry record clk = Raise e ->
     ElasticsearchHandler.emit index_prefix es_index record clk w
     = (emits
          [EWrite SStdout
             (OText ("Detailed error in sending log to Elasticsearch: " ++ exn_msg e));
           EWrite SStderr
             (OText ("Error sending log to Elasticsearch: " ++ exn_msg e))] w,
        Ok tt)) /\
  (forall self msg (exc : bool) clk w ctx fields sv ev rv uv s,
     the_logger (FastAPILogger.name self) w =
       mkLogger (levelno DEBUG)
         [FastAPILogger.file_handler self; FastAPILogger.json_handler self;
          FastAPILogger.console_handler; FastAPILogger.elastic_handler] ->
     ContextVar.get (FastAPILogger._context_var self) (context w) = Ok ctx ->
     RequestContext.as_dict ctx = Ok fields ->
     dict_get "service" fields = Some sv ->
     dict_get "environment" fields = Some ev ->
     dict_get "request_id" fields = Some rv ->
     dict_get "user_id" fields = Some uv ->
     let r :=
       LogRecord.mk (FastAPILogger.name self) INFO msg
         (if exc then Some (handling w) else None) (clk_asctime clk) fields in
     let line :=
       mkLine (clk_asctime clk) "INFO" sv ev rv uv (FastAPILogger.name self) msg
         (option_map formatException (if exc then Some (handling w) else None)) in
     JsonFormatter.format r (clk_iso clk) = Ok s ->
     FastAPILogger.info self msg ExtraAbsent exc clk w =
     (emits
        [EHandle r;
         EWrite (SFile (FastAPILogger.log_dir self ++ "/app.log")) (OLine line);
         EWrite (SFile (FastAPILogger.log_dir self ++ "/app.json.log")) (OText s);
         EWrite SStdout (OLine line);
         ECoroutine FastAPILogger.elastic_handler r] w,
      Ok tt)).
Proof.
  split; [|split; [|split; [|]]].
  - intros index_prefix es_index record clk w Hexn.
    pose proof (emit_cases index_prefix es_index record clk w) as H. simpl in H.
    destruct (ElasticsearchHandler.log_entry record clk) as [entry|e]; [|eauto].
    destruct (es_index _ entry) as [u|e] eqn:Ei; [eauto|].
    rewrite (Hexn _ _ _ Ei) in H. eauto.
  - intros index_prefix es_index record clk w entry e Hentry Hidx Hexn.
    pose proof (emit_cases index_prefix es_index record clk w) as H. simpl in H.
    now rewrite Hentry, Hidx, Hexn in H.
  - intros index_prefix es_index record clk w e Hentry.
    pose proof (emit_cases index_prefix es_index record clk w) as H. simpl in H.
    now rewrite Hentry in H.
  - intros self msg exc clk w ctx fields sv ev rv uv s Hlg Hget Hfields Hs He Hr Hu
      r line Hjson.
    unfold FastAPILogger.info.
    rewrite (log_absent self INFO msg exc clk w ctx fields Hget Hfields)
      by (rewrite Hlg; unfold getEffectiveLevel; simpl; lia).
    fold r. rewrite Hlg.
    assert (Hline : line_format r = Ok line).
    { unfold r. now rewrite (line_format_fields _ _ _ _ _ _ sv ev rv uv Hs He Hr Hu). }
    unfold callHandlers, receivers, Handler_handle, StreamHandler_emit, format_with.
    cbn [handlers List.filter h_level h_kind h_formatter FastAPILogger.file_handler
      FastAPILogger.json_handler FastAPILogger.console_handler
      FastAPILogger.elastic_handler FastAPILogger.get_formatter NOTSET
      LogRecord.level r levelno Z.leb Z.compare Pos.compare Pos.compare_cont
      flat_map app].
    now rewrite Hline, Hjson.
Qed.

Lemma remote_failure_is_contained_witness :
  (snd (ElasticsearchHandler.emit "fastapi-logs" unreachable sample_record
          sample_clock booted_world) = Ok tt /\
   In (EWrite SStderr (OText "Error sending log to Elasticsearch: Connection refused"))
      (trace (fst (ElasticsearchHandler.emit "fastapi-logs" unreachable sample_record
                     sample_clock booted_world)))) /\
  (snd (FastAPILogger.info sample_logger "Request started - GET /ping" ExtraAbsent
          false sample_clock request_world) = Ok tt /\
   In (EWrite (SFile "var/logs/app.json.log") (OText request_json))
      (trace (fst (FastAPILogger.info sample_logger "Request started - GET /ping"
                     ExtraAbsent false sample_clock request_world)))).
Proof.
  split.
  - rewrite (proj1 (proj2 remote_failure_is_contained) "fastapi-logs" unreachable
               sample_record sample_clock booted_world
               [("timestamp", VStr "2024-05-01T10:00:00.000000");
                ("level", VStr "INFO"); ("message", VStr "ping")]
               (mkExn ConnectionError "Connection refused")
               eq_refl eq_refl eq_refl).
    split; [reflexivity|].
    cbn [fst]. rewrite trace_emits. apply in_or_app. right. simpl. tauto.
  - rewrite (proj2 (proj2 (proj2 remote_failure_is_contained)) sample_logger
               "Request started - GET /ping" false sample_clock request_world
               (RequestContext.mk (VStr "2024-05-01T10:00:00.000000") (VStr "3f2b8c1e")
                  (VStr "-") (VStr "your-service-name") (VStr "development")
                  (VDict [("path", VStr "/ping"); ("method", VStr "GET")]))
               _ (VStr "your-service-name") (VStr "development") (VStr "3f2b8c1e")
               (VStr "-") request_json
               eq_refl eq_refl eq_refl eq_refl eq_refl eq_refl eq_refl eq_refl).
    split; [reflexivity|].
    cbn [fst]. rewrite trace_emits. apply in_or_app. right. simpl. tauto.
Defined.

(** ** The request boundary hook *)

Lemma records_of_app es es' :
  records_of (es ++ es') = (records_of es ++ records_of es')%list.
Proof. unfold records_of. apply flat_map_app. Qed.

Lemma records_of_handle h record now : records_of (Handler_handle h record now) = [].
Proof.
  unfold Handler_handle, StreamHandler_emit.
  destruct (h_kind h); try reflexivity; destruct (format_with _ _ _); reflexivity.
Qed.

Lemma records_of_callHandlers lg record now :
  records_of (callHandlers lg record now) = [].
Proof.
  unfold callHandlers. destruct (handlers lg) as [|h0 hs0].
  - now destruct (30 <=? _).
  - induction (receivers lg record) as [|h hs IH]; [reflexivity|].
    simpl. now rewrite records_of_app, records_of_handle, IH.
Qed.

(** One call of the facade inside the hook: no [extra] at the call site,
    a context that can be copied, the logger enabled at the level of the
    call. *)
Lemma hook_log self lvl msg (exc : bool) clk w ctx fields :
  ContextVar.get (FastAPILogger._context_var self) (context w) = Ok ctx ->
  RequestContext.as_dict ctx = Ok fields ->
  getEffectiveLevel (the_logger (FastAPILogger.name self) w) <= levelno lvl ->
  exists r tail,
    FastAPILogger.log self lvl msg ExtraAbsent exc clk w
    = (emits (EHandle r :: tail) w, Ok tt) /\
    records_of tail = [] /\
    LogRecord.level r = lvl /\ LogRecord.message r = msg /\
    LogRecord.exc_info r = (if exc then Some (handling w) else None) /\
    LogRecord.attrs r = fields.
Proof.
  intros Hget Hfields Hlvl.
  do 2 eexists. split; [exact (log_absent self lvl msg exc clk w ctx fields Hget Hfields Hlvl)|].
  split; [apply records_of_callHandlers|]. repeat split.
Qed.

(** The same call when the level is not enabled. *)
Lemma hook_log_disabled self lvl msg (exc : bool) clk w ctx fields :
  ContextVar.get (FastAPILogger._context_var self) (context w) = Ok ctx ->
  RequestContext.as_dict ctx = Ok fields ->
  levelno lvl < getEffectiveLevel (the_logger (FastAPILogger.name self) w) ->
  FastAPILogger.log self lvl msg ExtraAbsent exc clk w = (w, Ok tt).
Proof.
  intros Hget Hfields Hlvl. rewrite (log_absent_eq _ _ _ _ _ _ ctx Hget), Hfields.
  apply Z.leb_gt in Hlvl. now rewrite Hlvl.
Qed.

Lemma hook_set_context self rid extra now w :
  FastAPILogger.set_context self [("request_id", rid); ("extra", extra)] now w =
  (set_bound
     (Some (RequestContext.mk (VStr now) rid (VStr "-")
              (VStr (FastAPILogger.service_name self))
              (VStr (FastAPILogger.environment self)) extra)) w,
   Ok tt).
Proof. reflexivity. Qed.

(** The context that the hook binds can be copied: its values are strings,
    an integer and a dict of them. *)
Lemma hook_context_fields now rid svc env (x : dict pyval) :
  (forall k v, In (k, v) x -> json.unserializable v = None) ->
  RequestContext.as_dict
    (RequestContext.mk (VStr now) (VStr rid) (VStr "-") (VStr svc) (VStr env) (VDict x))
  = Ok [("timestamp", VStr now); ("request_id", VStr rid); ("user_id", VStr "-");
        ("service", VStr svc); ("environment", VStr env); ("extra", VDict x)].
Proof.
  intros Hx. unfold RequestContext.as_dict, RequestContext.asdict.
  cbn [RequestContext.copy_members RequestContext.timestamp RequestContext.request_id
       RequestContext.user_id RequestContext.service RequestContext.environment
       RequestContext.extra].
  rewrite (asdict_inner_plain (VDict x)).
  - reflexivity.
  - induction x as [|[k v] x IH]; [reflexivity|].
    simpl. rewrite (Hx k v) by now left.
    apply IH. intros k' v' Hin. apply (Hx k' v'). now right.
Qed.

(** C6 (as the code has it).  The hook binds a context with the first
    eight characters of the identifier and logs the start of the request.
    When the wrapped call returns, the hook returns the response, and it
    logs exactly one more record, INFO, the completion message with the
    status, when the logger is enabled for INFO then, and none otherwise.
    When the wrapped call raises an Exception and leaves bound a context
    that can be copied, the hook raises the same exception, and it logs
    exactly one more record, ERROR, the failure message with the exception
    captured, when the logger is enabled for ERROR then, and none otherwise;
    when the context cannot be copied, the hook logs nothing more and raises
    the TypeError of the copy.  When the wrapped call raises something that
    is no Exception (a cancellation), the hook logs nothing more and the
    exception passes through. *)
Theorem one_terminal_event_per_request :
  forall logger request call_next uuid4 clk_in clk_out w,
    exists w1,
      loggers w1 = loggers w /\
      context w1 =
        Some (RequestContext.mk (VStr (clk_iso clk_in))
                (VStr (String.substring 0 8 uuid4)) (VStr "-")
                (VStr (FastAPILogger.service_name logger))
                (VStr (FastAPILogger.environment logger))
                (VDict [("path", VStr (url_path request));
                        ("method", VStr (method request))])) /\
      (getEffectiveLevel (the_logger (FastAPILogger.name logger) w) <= levelno INFO ->
       exists started,
         records_of (trace w1) = (records_of (trace w) ++ [started])%list /\
         LogRecord.message started
           = "Request started - " ++ method request ++ " " ++ url_path request) /\
      forall w2 outcome,
        call_next request w1 = (w2, outcome) ->
        exists w3 res,
          logging_middleware logger request call_next uuid4 clk_in clk_out w = (w3, res) /\
          match outcome with
          | Ok response =>
              res = Ok response /\
              (getEffectiveLevel (the_logger (FastAPILogger.name logger) w2)
               <= levelno INFO ->
               exists r,
                 records_of (trace w3) = (records_of (trace w2) ++ [r])%list /\
                 LogRecord.level r = INFO /\
                 LogRecord.message r
                   = "Request completed - " ++ method request ++ " " ++ url_path request
                       ++ "- Status: " ++ json.string_of_Z (status_code response) /\
                 LogRecord.exc_info r = None) /\
              (levelno INFO
               < getEffectiveLevel (the_logger (FastAPILogger.name logger) w2) ->
               trace w3 = trace w2)
          | Raise e =>
              if is_Exception e then
                forall ctx,
                  ContextVar.get (FastAPILogger._context_var logger) (context w2)
                  = Ok ctx ->
                  match RequestContext.as_dict ctx with
                  | Ok _ =>
                      res = Raise e /\
                      (getEffectiveLevel (the_logger (FastAPILogger.name logger) w2)
                       <= levelno ERROR ->
                       exists r,
                         records_of (trace w3) = (records_of (trace w2) ++ [r])%list /\
                         LogRecord.level r = ERROR /\
                         LogRecord.message r
                           = "Request failed - " ++ method request ++ " "
                               ++ url_path request /\
                         LogRecord.exc_info r = Some (Some e)) /\
                      (levelno ERROR
                       < getEffectiveLevel (the_logger (FastAPILogger.name logger) w2) ->
                       trace w3 = trace w2)
                  | Raise e' => res = Raise e' /\ trace w3 = trace w2
                  end
              else res = Raise e /\ trace w3 = trace w2
          end.
Proof.
  intros logger request call_next uuid4 clk_in clk_out w.
  unfold logging_middleware.
  set (rid := String.substring 0 8 uuid4).
  set (x1 := [("path", VStr (url_path request)); ("method", VStr (method request))]).
  set (started_msg := "Request started - " ++ method request ++ " " ++ url_path request).
  set (c1 := RequestContext.mk (VStr (clk_iso clk_in)) (VStr rid) (VStr "-")
               (VStr (FastAPILogger.service_name logger))
               (VStr (FastAPILogger.environment logger)) (VDict x1)).
  assert (Hc1 : exists f1, RequestContext.as_dict c1 = Ok f1).
  { eexists. apply hook_context_fields.
    intros k v [[= <- <-] | [[= <- <-] | []]]; reflexivity. }
  destruct Hc1 as [f1 Hc1].
  set (wa := set_bound (Some c1) w).
  set (w1 := fst (FastAPILogger.info logger started_msg ExtraAbsent false clk_in wa)).
  assert (Hinfo1 : FastAPILogger.info logger started_msg ExtraAbsent false clk_in wa
                   = (w1, Ok tt)).
  { unfold w1, FastAPILogger.info.
    rewrite (log_absent_eq logger INFO started_msg false clk_in wa c1 eq_refl), Hc1.
    now destruct (_ <=? _). }
  exists w1. split; [|split; [|split]].
  - unfold w1, FastAPILogger.info.
    rewrite (log_absent_eq logger INFO started_msg false clk_in wa c1 eq_refl), Hc1.
    now destruct (_ <=? _).
  - unfold w1, FastAPILogger.info.
    rewrite (log_absent_eq logger INFO started_msg false clk_in wa c1 eq_refl), Hc1.
    now destruct (_ <=? _).
  - intros Hen.
    destruct (hook_log logger INFO started_msg false clk_in wa c1 f1 eq_refl Hc1 Hen)
      as (started & tail1 & Hstart & Htail1 & _ & Hmsg1 & _).
    exists started. split; [|exact Hmsg1].
    unfold w1, FastAPILogger.info. rewrite Hstart. simpl.
    rewrite records_of_app. simpl. now rewrite Htail1.
  - intros w2 outcome Hnext.
    unfold bind at 1. rewrite hook_set_context. fold x1 c1 wa.
    unfold try_except_Exception, bind.
    rewrite Hinfo1, Hnext.
    destruct outcome as [response|e].
    + rewrite hook_set_context.
      set (x2 := [("path", VStr (url_path request)); ("method", VStr (method request));
                  ("status_code", VInt (status_code response))]).
      set (c2 := RequestContext.mk (VStr (clk_iso clk_out)) (VStr rid) (VStr "-")
                   (VStr (FastAPILogger.service_name logger))
                   (VStr (FastAPILogger.environment logger)) (VDict x2)).
      set (wb := set_bound (Some c2) w2).
      set (done_msg := "Request completed - " ++ method request ++ " "
                         ++ url_path request ++ "- Status: "
                         ++ json.string_of_Z (status_code response)).
      assert (Hc2 : RequestContext.as_dict c2
                    = Ok [("timestamp", VStr (clk_iso clk_out)); ("request_id", VStr rid);
                          ("user_id", VStr "-");
                          ("service", VStr (FastAPILogger.service_name logger));
                          ("environment", VStr (FastAPILogger.environment logger));
                          ("extra", VDict x2)]) by reflexivity.
      pose proof (log_absent_eq logger INFO done_msg false clk_out wb c2 eq_refl) as Hlog.
      rewrite Hc2 in Hlog.
      change (the_logger (FastAPILogger.name logger) wb)
        with (the_logger (FastAPILogger.name logger) w2) in Hlog.
      unfold FastAPILogger.info. rewrite Hlog.
      destruct (_ <=? _) eqn:El; unfold ret; do 2 eexists;
        (split; [reflexivity|]); (split; [reflexivity|]); split.
      * intros _. eexists. split; [|shelve].
        cbn [fst trace emits wb set_bound]. rewrite records_of_app.
        cbn [records_of flat_map app]. fold (records_of (callHandlers
          (the_logger (FastAPILogger.name logger) w2)
          (LogRecord.mk (FastAPILogger.name logger) INFO done_msg None
             (clk_asctime clk_out)
             [("timestamp", VStr (clk_iso clk_out)); ("request_id", VStr rid);
              ("user_id", VStr "-");
              ("service", VStr (FastAPILogger.service_name logger));
              ("environment", VStr (FastAPILogger.environment logger));
              ("extra", VDict x2)]) (clk_iso clk_out))).
        rewrite records_of_callHandlers. reflexivity.
        Unshelve. split; [|split]; reflexivity.
      * intros Hgt. apply Z.leb_le in El. lia.
      * intros Hle. apply Z.leb_gt in El. lia.
      * intros _. reflexivity.
    + destruct (is_Exception e) eqn:Ex.
      * set (fail_msg := "Request failed - " ++ method request ++ " " ++ url_path request).
        set (wh := set_handling (Some e) w2).
        destruct (context_var_get logger (context w2)) as [ctx0 Hctx0].
        unfold FastAPILogger.error.
        rewrite (log_absent_eq logger ERROR fail_msg true clk_out wh ctx0 Hctx0).
        change (the_logger (FastAPILogger.name logger) wh)
          with (the_logger (FastAPILogger.name logger) w2).
        destruct (RequestContext.as_dict ctx0) as [fields|e'] eqn:Ea.
        -- destruct (_ <=? _) eqn:El; unfold raise; do 2 eexists;
             (split; [reflexivity|]); intros ctx Hget;
             rewrite Hctx0 in Hget; injection Hget as <-; rewrite Ea;
             (split; [reflexivity|]); split.
           ++ intros _. eexists. split; [|shelve].
              cbn [fst trace emits set_handling wh]. rewrite records_of_app.
              cbn [records_of flat_map app].
              fold (records_of (callHandlers
                (the_logger (FastAPILogger.name logger) w2)
                (LogRecord.mk (FastAPILogger.name logger) ERROR fail_msg
                   (Some (Some e)) (clk_asctime clk_out) fields)
                (clk_iso clk_out))).
              rewrite records_of_callHandlers. reflexivity.
              Unshelve. split; [|split]; reflexivity.
           ++ intros Hgt. apply Z.leb_le in El. lia.
           ++ intros Hle. apply Z.leb_gt in El. lia.
           ++ intros _. reflexivity.
        -- do 2 eexists. split; [reflexivity|]. intros ctx Hget.
           rewrite Hctx0 in Hget. injection Hget as <-. rewrite Ea.
           split; reflexivity.
      * do 2 eexists. split; [reflexivity|]. split; reflexivity.
Qed.

Lemma booted_logger_enabled :
  getEffectiveLevel (the_logger (FastAPILogger.name sample_logger) booted_world)
  <= levelno INFO.
Proof. vm_compute. discriminate. Qed.

Lemma one_terminal_event_per_request_witness :
  snd failing_request = Raise (mkExn ValueError "x") /\
  exists r,
    In r (records_of (trace (fst failing_request))) /\
    LogRecord.level r = ERROR /\
    LogRecord.message r = "Request failed - GET /ping" /\
    LogRecord.exc_info r = Some (Some (mkExn ValueError "x")).
Proof.
  destruct (one_terminal_event_per_request sample_logger (mkRequest "GET" "/ping")
              (fun _ => raise (mkExn ValueError "x"))
              "3f2b8c1e-9d4a-4c6e-8f1a-2b3c4d5e6f70" sample_clock sample_clock
              booted_world)
    as (w1 & Hregs & Hctx & _ & Hnext).
  destruct (Hnext w1 (Raise (mkExn ValueError "x")) eq_refl)
    as (w3 & res & Hrun & Hcase).
  cbn [is_Exception exn_cls] in Hcase.
  specialize (Hcase _ (f_equal (ContextVar.get
                                  (FastAPILogger._context_var sample_logger)) Hctx)).
  cbv beta iota in Hcase.
  unfold failing_request. rewrite Hrun. cbn [fst snd].
  destruct Hcase as (Hres & Hone & _). split; [exact Hres|].
  destruct Hone as (r & Hrecs & Hlvl & Hmsg & Hexc).
  - unfold the_logger. rewrite Hregs. vm_compute. discriminate.
  - exists r. split; [|auto]. rewrite Hrecs. apply in_or_app. right. now left.
Defined.

(** C6, as stated, fails: the wrapped call is cancelled, the exception is
    no Exception, and the only record of the request is the one of its
    start; no terminal record is logged. *)
Lemma cancelled_request_has_no_terminal_event :
  snd cancelled_request = Raise (mkExn CancelledError "") /\
  map LogRecord.message (records_of (trace (fst cancelled_request)))
  = ["Request started - GET /ping"].
Proof. split; reflexivity. Qed.

(** ** Configuring the logger *)

Lemma handlers_after_nonempty (self : FastAPILogger.t) (lg : Logger) :
  FastAPILogger.handlers_after self lg <> [].
Proof. unfold FastAPILogger.handlers_after. destruct (handlers lg); discriminate. Qed.

Lemma configure_logger_result (self : FastAPILogger.t) (w : World) :
  FastAPILogger._configure_logger self w =
  (set_loggers
     (<[FastAPILogger.name self :=
          mkLogger (levelno DEBUG)
            (FastAPILogger.handlers_after self (the_logger (FastAPILogger.name self) w))]>
        (loggers w)) w,
   Ok tt).
Proof.
  unfold FastAPILogger._configure_logger, bind, getLogger, the_logger.
  destruct (loggers w !! FastAPILogger.name self) as [lg|] eqn:E; [reflexivity|].
  unfold set_loggers. simpl. now rewrite insert_insert_eq.
Qed.

Lemma the_logger_configured (self : FastAPILogger.t) (w : World) (lg : Logger) :
  the_logger (FastAPILogger.name self)
    (set_loggers (<[FastAPILogger.name self := lg]> (loggers w)) w) = lg.
Proof. unfold the_logger. simpl. now rewrite lookup_insert_eq. Qed.

(** C10.  [_configure_logger] adds nothing to a logger that has handlers:
    it keeps them as they are.  So after one instance was constructed, the
    construction of another with the same name, whatever its other
    arguments, leaves the whole world as it was, and a logger that began
    without handlers ends with the text file, JSON file and console handlers
    of the first instance, each once. *)
Theorem configure_logger_is_idempotent :
  (forall self w lg,
     loggers w !! FastAPILogger.name self = Some lg ->
     handlers lg <> [] ->
     handlers (the_logger (FastAPILogger.name self)
                 (fst (FastAPILogger._configure_logger self w)))
     = handlers lg) /\
  (forall nm dir cfg svc env created dir' cfg' svc' env' created' w,
     let w1 := fst (FastAPILogger.__init__ nm dir cfg svc env created w) in
     fst (FastAPILogger.__init__ nm dir' cfg' svc' env' created' w1) = w1) /\
  (forall nm dir cfg svc env created dir' cfg' svc' env' created' w self,
     snd (FastAPILogger.__init__ nm dir cfg svc env created w) = Ok self ->
     handlers (the_logger (FastAPILogger.name self) w) = [] ->
     let w1 := fst (FastAPILogger.__init__ nm dir cfg svc env created w) in
     let w2 := fst (FastAPILogger.__init__ nm dir' cfg' svc' env' created' w1) in
     handlers (the_logger (FastAPILogger.name self) w2)
     = [FastAPILogger.file_handler self; FastAPILogger.json_handler self;
        FastAPILogger.console_handler]).
Proof.
  assert (Hinit : forall nm dir cfg svc env created w,
            FastAPILogger.__init__ nm dir cfg svc env created w =
            let self :=
              FastAPILogger.mk
                (match nm with
                 | Some n => if String.eqb n "" then FastAPILogger.__name__ else n
                 | None => FastAPILogger.__name__
                 end) dir svc env cfg created in
            (fst (FastAPILogger._configure_logger self w), Ok self)).
  { intros. unfold FastAPILogger.__init__, bind, ret.
    now rewrite configure_logger_result. }
  assert (Hsecond : forall self self' w,
            FastAPILogger.name self' = FastAPILogger.name self ->
            fst (FastAPILogger._configure_logger self'
                   (fst (FastAPILogger._configure_logger self w)))
            = fst (FastAPILogger._configure_logger self w)).
  { intros self self' w Hname.
    rewrite (configure_logger_result self w). cbn [fst].
    rewrite configure_logger_result. cbn [fst].
    rewrite Hname, the_logger_configured.
    unfold FastAPILogger.handlers_after at 1. cbn [handlers].
    destruct (FastAPILogger.handlers_after self _) as [|h hs] eqn:Ehs.
    - now apply handlers_after_nonempty in Ehs.
    - unfold set_loggers. simpl. now rewrite insert_insert_eq. }
  split; [|split].
  - intros self w lg Hlook Hne.
    rewrite configure_logger_result. cbn [fst].
    rewrite the_logger_configured. cbn [handlers].
    unfold FastAPILogger.handlers_after, the_logger. rewrite Hlook.
    destruct (handlers lg); [contradiction|reflexivity].
  - intros. subst w1. rewrite !Hinit. cbn [fst]. now apply Hsecond.
  - intros nm dir cfg svc env created dir' cfg' svc' env' created' w self Hself Hnone w1 w2.
    subst w1 w2. rewrite Hinit in Hself. cbn [snd] in Hself. injection Hself as <-.
    rewrite !Hinit. cbn [fst]. rewrite Hsecond by reflexivity.
    rewrite configure_logger_result. cbn [fst].
    rewrite the_logger_configured. cbn [handlers].
    unfold FastAPILogger.handlers_after. cbn [FastAPILogger.name] in *.
    now rewrite Hnone.
Qed.

Lemma configure_logger_is_idempotent_witness :
  handlers
    (the_logger FastAPILogger.__name__
       (fst (FastAPILogger.__init__ None "other/logs" None "second-service"
               "production" "2024-05-01T09:59:30.000000" configured_world)))
  = [FastAPILogger.file_handler sample_logger;
     FastAPILogger.json_handler sample_logger;
     FastAPILogger.console_handler].
Proof.
  apply (proj2 (proj2 configure_logger_is_idempotent) None "var/logs"
           (Some [("hosts", VList [VStr "http://localhost:9200"])])
           "your-service-name" "development" "2024-05-01T09:59:00.000000"
           "other/logs" None "second-service" "production"
           "2024-05-01T09:59:30.000000" empty_world sample_logger).
  - reflexivity.
  - reflexivity.
Defined.

(** ** The json module: texts read back *)

Lemma append_cons (x : ascii) (a b : string) : String x a ++ b = String x (a ++ b).
Proof. reflexivity. Qed.

Lemma append_nil (b : string) : "" ++ b = b.
Proof. reflexivity. Qed.

Lemma append_assoc (a b c : string) : (a ++ b) ++ c = a ++ (b ++ c).
Proof.
  induction a as [|x a IH]; [reflexivity|].
  now rewrite !append_cons, IH.
Qed.

Lemma length_append (a b : string) :
  String.length (a ++ b) = (String.length a + String.length b)%nat.
Proof.
  induction a as [|x a IH]; [reflexivity|].
  rewrite append_cons. simpl. now rewrite IH.
Qed.

Lemma render_VList l : json.render (VList l) = "[" ++ json.render_items l.
Proof. reflexivity. Qed.

Lemma render_VDict d : json.render (VDict d) = "{" ++ json.render_members d.
Proof. reflexivity. Qed.

(** One escaped character reads back as the character. *)
Lemma scan_escape_char (c : ascii) (tl : string) :
  json.scan_string (json.escape_char c ++ tl) = json.cons_char c (json.scan_string tl).
Proof.
  destruct c as [[] [] [] [] [] [] [] []]; reflexivity.
Qed.

Lemma scan_escape (s rest : string) :
  json.scan_string (json.escape s ++ String json.dquote rest) = Some (s, rest).
Proof.
  induction s as [|c s IH]; [reflexivity|].
  change (json.escape (String c s)) with (json.escape_char c ++ json.escape s).
  rewrite append_assoc, scan_escape_char, IH. reflexivity.
Qed.

Lemma span_num_nil rest : json.ends_number rest -> json.span_num rest = ("", rest).
Proof. destruct rest as [|c rest]; simpl; [reflexivity|]. now intros ->. Qed.

Lemma span_num_uint (d : Decimal.uint) (rest : string) :
  json.ends_number rest ->
  json.span_num (NilEmpty.string_of_uint d ++ rest)
  = (NilEmpty.string_of_uint d, rest).
Proof.
  intros Hrest.
  induction d; simpl NilEmpty.string_of_uint;
    rewrite ?append_cons, ?append_nil;
    try (simpl json.span_num; rewrite IHd; reflexivity).
  now apply span_num_nil.
Qed.

Lemma string_of_uint_NilZero (d : Decimal.uint) :
  d <> Decimal.Nil -> NilZero.string_of_uint d = NilEmpty.string_of_uint d.
Proof. destruct d; [contradiction|reflexivity..]. Qed.

Lemma span_num_of_Z (z : Z) (rest : string) :
  json.ends_number rest ->
  json.span_num (json.string_of_Z z ++ rest) = (json.string_of_Z z, rest).
Proof.
  intros Hrest. unfold json.string_of_Z.
  destruct z as [|p|p]; simpl Z.to_int; simpl NilZero.string_of_int.
  - apply (span_num_uint (Decimal.D0 Decimal.Nil)), Hrest.
  - rewrite string_of_uint_NilZero by apply Unsigned.to_uint_nonnil.
    now apply span_num_uint.
  - rewrite string_of_uint_NilZero by apply Unsigned.to_uint_nonnil.
    rewrite append_cons. simpl json.span_num.
    now rewrite span_num_uint.
Qed.

Lemma scan_number_of_Z (z : Z) (rest : string) :
  json.exceeds_limit z = false ->
  json.ends_number rest ->
  json.scan_number (json.string_of_Z z ++ rest) = Some (z, rest).
Proof.
  intros Hlim Hrest. unfold json.scan_number.
  rewrite span_num_of_Z by assumption.
  unfold json.string_of_Z at 1.
  rewrite NilZero.isi.
  - rewrite DecimalZ.of_to, Hlim. unfold json.string_of_Z.
    now rewrite String.eqb_refl.
  - destruct z; simpl; intros [=]. now apply Unsigned.to_uint_nonnil in H0.
  - destruct z; simpl; intros [=]. now apply Unsigned.to_uint_nonnil in H0.
Qed.

Lemma string_of_uint_head (d : Decimal.uint) :
  d <> Decimal.Nil ->
  exists c s, NilEmpty.string_of_uint d = String c s /\ json.is_num_char c = true.
Proof. destruct d; [contradiction|..]; intros _; do 2 eexists; split; reflexivity. Qed.

Lemma string_of_Z_head (z : Z) :
  exists c s, json.string_of_Z z = String c s /\ json.is_num_char c = true.
Proof.
  unfold json.string_of_Z.
  destruct z as [|p|p]; simpl Z.to_int; simpl NilZero.string_of_int.
  - do 2 eexists. split; reflexivity.
  - rewrite string_of_uint_NilZero by apply Unsigned.to_uint_nonnil.
    apply string_of_uint_head, Unsigned.to_uint_nonnil.
  - do 2 eexists. split; reflexivity.
Qed.

Lemma num_char_not_ws (c : ascii) : json.is_num_char c = true -> json.is_ws c = false.
Proof. destruct c as [[] [] [] [] [] [] [] []]; intros H; try discriminate H; reflexivity. Qed.

Lemma parse_value_num (fuel : nat) (c : ascii) (s : string) :
  json.is_num_char c = true ->
  json.parse_value (S fuel) (String c s) =
  match json.scan_number (String c s) with
  | Some (z, rest) => Some (VInt z, rest)
  | None => None
  end.
Proof.
  intros H. simpl. now rewrite (num_char_not_ws c H), H.
Qed.

Lemma parse_value_space (fuel : nat) (s : string) :
  json.parse_value fuel (String " " s) = json.parse_value fuel s.
Proof. destruct fuel; reflexivity. Qed.

Lemma parse_members_space (fuel : nat) (s : string) :
  json.parse_members fuel (String " " s) = json.parse_members fuel s.
Proof. destruct fuel; reflexivity. Qed.

Lemma parse_items_space (fuel : nat) (s : string) :
  json.parse_items fuel (String " " s) = json.parse_items fuel s.
Proof. destruct fuel as [|fuel]; [reflexivity|]. simpl. now rewrite parse_value_space. Qed.

Lemma encode_error_VList x l :
  json.encode_error (VList (x :: l)) = None ->
  json.encode_error x = None /\ json.encode_error (VList l) = None.
Proof.
  simpl. destruct (json.encode_error x); [discriminate|]. auto.
Qed.

Lemma encode_error_VDict k x d :
  json.encode_error (VDict ((k, x) :: d)) = None ->
  json.encode_error x = None /\ json.encode_error (VDict d) = None.
Proof.
  simpl. destruct (json.encode_error x); [discriminate|]. auto.
Qed.

Lemma unserializable_VList x l :
  json.unserializable (VList (x :: l)) = None ->
  json.unserializable x = None /\ json.unserializable (VList l) = None.
Proof.
  simpl. destruct (json.unserializable x); [discriminate|]. auto.
Qed.

Lemma unserializable_VDict k x d :
  json.unserializable (VDict ((k, x) :: d)) = None ->
  json.unserializable x = None /\ json.unserializable (VDict d) = None.
Proof.
  simpl. destruct (json.unserializable x); [discriminate|]. auto.
Qed.

Lemma parse_items_S fuel s :
  json.parse_items (S fuel) s =
  match json.parse_value fuel s with
  | Some (v, rest) =>
      match json.skip_ws rest with
      | String "," rest' =>
          match json.parse_items fuel rest' with
          | Some (vs, rest'') => Some (v :: vs, rest'')
          | None => None
          end
      | String "]" rest' => Some ([v], rest')
      | _ => None
      end
  | None => None
  end.
Proof. reflexivity. Qed.

Lemma items_read_back (l : list pyval) :
  l <> [] ->
  Forall json.reads_back l ->
  json.encode_error (VList l) = None ->
  forall fuel rest,
    (String.length (json.render_items l) <= fuel)%nat ->
    json.parse_items fuel (json.render_items l ++ rest) = Some (map json.canon l, rest).
Proof.
  induction l as [|x l IH]; [contradiction|].
  intros _ Hall Hser fuel rest Hfuel.
  inversion Hall as [|? ? Hx Hl]; subst.
  apply encode_error_VList in Hser as [Hsx Hsl].
  destruct l as [|y l].
  - change (json.render_items [x]) with (json.render x ++ "]") in *.
    rewrite length_append in Hfuel. change (String.length "]") with 1%nat in Hfuel.
    destruct fuel as [|fuel]; [lia|].
    rewrite parse_items_S, append_assoc.
    rewrite (Hx Hsx fuel ("]" ++ rest)) by (simpl; try reflexivity; lia).
    reflexivity.
  - change (json.render_items (x :: y :: l))
      with (json.render x ++ ", " ++ json.render_items (y :: l)) in *.
    rewrite !length_append in Hfuel. change (String.length ", ") with 2%nat in Hfuel.
    destruct fuel as [|fuel]; [lia|].
    rewrite parse_items_S, !append_assoc.
    rewrite (Hx Hsx fuel (", " ++ json.render_items (y :: l) ++ rest))
      by (simpl; try reflexivity; lia).
    change (", " ++ json.render_items (y :: l) ++ rest)
      with (String "," (String " " (json.render_items (y :: l) ++ rest))).
    simpl json.skip_ws. cbv iota.
    rewrite parse_items_space, IH; try assumption; [reflexivity|discriminate|lia].
Qed.

Lemma append_nil_r (s : string) : s ++ "" = s.
Proof. induction s as [|c s IH]; [reflexivity|]. now rewrite append_cons, IH. Qed.

Lemma parse_members_quote fuel k tail :
  json.parse_members (S fuel) (json.quote k ++ tail) =
  match json.skip_ws tail with
  | String ":" s3 =>
      match json.parse_value fuel s3 with
      | Some (v, rest) =>
          match json.skip_ws rest with
          | String "," rest' =>
              match json.parse_members fuel rest' with
              | Some (kvs, rest'') => Some ((k, v) :: kvs, rest'')
              | None => None
              end
          | String "}" rest' => Some ([(k, v)], rest')
          | _ => None
          end
      | None => None
      end
  | _ => None
  end.
Proof.
  unfold json.quote.
  rewrite append_cons, append_assoc, append_cons, append_nil.
  change (json.parse_members (S fuel)
            (String json.dquote (json.escape k ++ String json.dquote tail)))
    with (match json.scan_string (json.escape k ++ String json.dquote tail) with
          | Some (k, s2) =>
              match json.skip_ws s2 with
              | String ":" s3 =>
                  match json.parse_value fuel s3 with
                  | Some (v, rest) =>
                      match json.skip_ws rest with
                      | String "," rest' =>
                          match json.parse_members fuel rest' with
                          | Some (kvs, rest'') => Some ((k, v) :: kvs, rest'')
                          | None => None
                          end
                      | String "}" rest' => Some ([(k, v)], rest')
                      | _ => None
                      end
                  | None => None
                  end
              | _ => None
              end
          | None => None
          end).
  now rewrite scan_escape.
Qed.

Lemma length_quote k : String.length (json.quote k) = S (S (String.length (json.escape k))).
Proof.
  unfold json.quote. simpl String.length. rewrite length_append. simpl. lia.
Qed.

Lemma members_read_back (d : list (string * pyval)) :
  d <> [] ->
  Forall (fun kv => json.reads_back (snd kv)) d ->
  json.encode_error (VDict d) = None ->
  forall fuel rest,
    (String.length (json.render_members d) <= fuel)%nat ->
    json.parse_members fuel (json.render_members d ++ rest)
    = Some (map (fun kv => (fst kv, json.canon (snd kv))) d, rest).
Proof.
  induction d as [|[k x] d IH]; [contradiction|].
  intros _ Hall Hser fuel rest Hfuel.
  inversion Hall as [|? ? Hx Hd]; subst. simpl in Hx.
  apply encode_error_VDict in Hser as [Hsx Hsd].
  destruct d as [|[k' y] d].
  - change (json.render_members [(k, x)])
      with (json.quote k ++ ": " ++ json.render x ++ "}") in *.
    rewrite !length_append, length_quote in Hfuel.
    change (String.length ": ") with 2%nat in Hfuel.
    change (String.length "}") with 1%nat in Hfuel.
    destruct fuel as [|fuel]; [lia|].
    rewrite !append_assoc, parse_members_quote.
    change (": " ++ json.render x ++ "}" ++ rest)
      with (String ":" (String " " (json.render x ++ "}" ++ rest))).
    simpl json.skip_ws. cbv iota.
    rewrite parse_value_space.
    rewrite (Hx Hsx fuel ("}" ++ rest)) by (simpl; try reflexivity; lia).
    reflexivity.
  - change (json.render_members ((k, x) :: (k', y) :: d))
      with (json.quote k ++ ": " ++ json.render x ++ ", "
              ++ json.render_members ((k', y) :: d)) in *.
    set (m := json.render_members ((k', y) :: d)) in *.
    rewrite !length_append, length_quote in Hfuel.
    change (String.length ": ") with 2%nat in Hfuel.
    change (String.length ", ") with 2%nat in Hfuel.
    destruct fuel as [|fuel]; [lia|].
    rewrite !append_assoc, parse_members_quote.
    change (": " ++ json.render x ++ ", " ++ m ++ rest)
      with (String ":" (String " " (json.render x ++ ", " ++ m ++ rest))).
    simpl json.skip_ws. cbv iota.
    rewrite parse_value_space.
    rewrite (Hx Hsx fuel (", " ++ m ++ rest)) by (simpl; try reflexivity; lia).
    change (", " ++ m ++ rest) with (String "," (String " " (m ++ rest))).
    simpl json.skip_ws. cbv iota.
    subst m.
    rewrite parse_members_space, IH; try assumption; [reflexivity|discriminate|lia].
Qed.

Lemma parse_value_quote fuel s :
  json.parse_value (S fuel) (String json.dquote s) =
  match json.scan_string s with
  | Some (str, rest) => Some (VStr str, rest)
  | None => None
  end.
Proof. reflexivity. Qed.

Lemma parse_value_bracket fuel s :
  json.parse_value (S fuel) (String "[" s) =
  match json.parse_items fuel s with
  | Some (vs, rest) => Some (VList vs, rest)
  | None =>
      match json.skip_ws s with
      | String "]" rest => Some (VList [], rest)
      | _ => None
      end
  end.
Proof. reflexivity. Qed.

Lemma parse_value_brace fuel s :
  json.parse_value (S fuel) (String "{" s) =
  match json.parse_members fuel s with
  | Some (kvs, rest) => Some (VDict (json.dict_of_pairs kvs), rest)
  | None =>
      match json.skip_ws s with
      | String "}" rest => Some (VDict [], rest)
      | _ => None
      end
  end.
Proof. reflexivity. Qed.

(** Every value that [dumps] accepts reads back from its text. *)
Lemma render_reads_back (v : pyval) : json.reads_back v.
Proof.
  induction v as [| b | z | s | l IHl | d IHd | t r c | t d IHd] using pyval_nested_ind;
    intros Hser fuel rest Hfuel Hrest.
  - destruct fuel as [|fuel]; [simpl in Hfuel; lia|]. reflexivity.
  - destruct fuel as [|fuel]; [destruct b; simpl in Hfuel; lia|].
    destruct b; reflexivity.
  - change (json.render (VInt z)) with (json.string_of_Z z) in *.
    destruct (string_of_Z_head z) as (c & s & Hz & Hc).
    destruct fuel as [|fuel]; [rewrite Hz in Hfuel; simpl in Hfuel; lia|].
    rewrite Hz, append_cons, (parse_value_num fuel c _ Hc), <- append_cons, <- Hz.
    rewrite scan_number_of_Z; [reflexivity| |assumption].
    simpl in Hser. now destruct (json.exceeds_limit z).
  - change (json.render (VStr s)) with (json.quote s) in *.
    destruct fuel as [|fuel]; [rewrite length_quote in Hfuel; lia|].
    unfold json.quote.
    rewrite append_cons, append_assoc, append_cons, append_nil.
    now rewrite parse_value_quote, scan_escape.
  - rewrite render_VList in *.
    change ("[" ++ json.render_items l) with (String "[" (json.render_items l)) in *.
    rewrite append_cons. simpl String.length in Hfuel.
    destruct fuel as [|fuel]; [lia|].
    destruct l as [|x l].
    + destruct fuel as [|[|fuel]]; reflexivity.
    + rewrite parse_value_bracket, items_read_back;
        [reflexivity | discriminate | assumption | assumption | lia].
  - rewrite render_VDict in *.
    change ("{" ++ json.render_members d) with (String "{" (json.render_members d)) in *.
    rewrite append_cons. simpl String.length in Hfuel.
    destruct fuel as [|fuel]; [lia|].
    destruct d as [|kv d].
    + destruct fuel as [|[|fuel]]; reflexivity.
    + rewrite parse_value_brace, members_read_back;
        [reflexivity | discriminate | assumption | assumption | lia].
  - discriminate.
  - discriminate.
Qed.

Lemma loads_dumps (v : pyval) (s : string) :
  json.dumps v = Ok s -> json.loads s = Ok (json.canon v).
Proof.
  unfold json.dumps. destruct (json.encode_error v) eqn:E; [discriminate|].
  intros [= <-]. unfold json.loads.
  rewrite <- (append_nil_r (json.render v)) at 2.
  rewrite (render_reads_back v E); [reflexivity | lia | exact I].
Qed.

(** ** The structured formatter *)


Lemma encode_error_members_None (m : dict pyval) :
  json.encode_error (VDict m) = None <->
  (forall k v, In (k, v) m -> json.encode_error v = None).
Proof.
  induction m as [|[k0 v0] m IH].
  - split; [intros _ k v []|reflexivity].
  - split.
    + intros H. apply encode_error_VDict in H as [H0 Hm].
      intros k v [[= <- <-] | Hin]; [exact H0|]. now apply (proj1 IH Hm k v).
    + intros H. simpl. rewrite (H k0 v0) by now left.
      apply IH. intros k v Hin. apply (H k v). now right.
Qed.




(** *** Dicts with string keys among the dicts with any keys *)

Lemma kdict_set_of_dict (k : string) (v : pyval) (d : dict pyval) :
  kdict_set (VStr k) v (kdict_of_dict d) = kdict_of_dict (dict_set k v d).
Proof.
  induction d as [|[k' v'] d IH]; [reflexivity|].
  simpl. destruct (String.eqb k k'); [reflexivity|]. now rewrite IH.
Qed.

Lemma kdict_update_of_dict (d o : dict pyval) :
  kdict_update (kdict_of_dict d) (kdict_of_dict o) = kdict_of_dict (dict_update d o).
Proof.
  unfold kdict_update, dict_update. revert d.
  induction o as [|[k v] o IH]; intros d; [reflexivity|].
  simpl. now rewrite kdict_set_of_dict, IH.
Qed.

Lemma dict_error_of_dict (d : dict pyval) :
  json.dict_error (kdict_of_dict d) = json.encode_error (VDict d).
Proof.
  induction d as [|[k v] d IH]; [reflexivity|].
  simpl. destruct (json.encode_error v); [reflexivity|]. exact IH.
Qed.

Lemma key_text_of_dict (d : dict pyval) :
  map (fun kv => (json.key_text (fst kv), snd kv)) (kdict_of_dict d) = d.
Proof.
  induction d as [|[k v] d IH]; [reflexivity|]. simpl. now rewrite IH.
Qed.

Lemma dumps_dict_of_dict (d : dict pyval) :
  json.dumps_dict (kdict_of_dict d) = json.dumps (VDict d).
Proof.
  unfold json.dumps_dict, json.dumps.
  now rewrite dict_error_of_dict, key_text_of_dict.
Qed.

(** [format] on a record that has no [extra] attribute or has a dict
    there: the text of the four keys, updated with the dict, with
    [exception] set last. *)
Lemma format_of_dict (record : LogRecord.t) (now : string) (d : dict pyval) :
  (dict_get "extra" (LogRecord.attrs record) = None /\ d = [])
  \/ dict_get "extra" (LogRecord.attrs record) = Some (VDict d) ->
  JsonFormatter.format record now =
  json.dumps
    (VDict
       match LogRecord.exc_info record with
       | Some ei =>
           dict_set "exception" (VStr (formatException ei))
             (dict_update
                [("timestamp", VStr now);
                 ("level", VStr (levelname (LogRecord.level record)));
                 ("message", VStr (LogRecord.message record));
                 ("logger", VStr (LogRecord.name record))] d)
       | None =>
           dict_update
             [("timestamp", VStr now);
              ("level", VStr (levelname (LogRecord.level record)));
              ("message", VStr (LogRecord.message record));
              ("logger", VStr (LogRecord.name record))] d
       end).
Proof.
  intros Hextra.
  set (base := [("timestamp", VStr now);
                ("level", VStr (levelname (LogRecord.level record)));
                ("message", VStr (LogRecord.message record));
                ("logger", VStr (LogRecord.name record))]).
  assert (Hld : JsonFormatter.log_data record now =
                Ok (match LogRecord.exc_info record with
                    | Some ei =>
                        kdict_set (VStr "exception") (VStr (formatException ei))
                          (kdict_of_dict (dict_update base d))
                    | None => kdict_of_dict (dict_update base d)
                    end)).
  { unfold JsonFormatter.log_data.
    destruct Hextra as [[-> ->] | ->]; [reflexivity|].
    cbn [update_items].
    change [(VStr "timestamp", VStr now);
            (VStr "level", VStr (levelname (LogRecord.level record)));
            (VStr "message", VStr (LogRecord.message record));
            (VStr "logger", VStr (LogRecord.name record))]
      with (kdict_of_dict base).
    now rewrite kdict_update_of_dict. }
  unfold JsonFormatter.format. rewrite Hld.
  destruct (LogRecord.exc_info record) as [ei|].
  - now rewrite kdict_set_of_dict, dumps_dict_of_dict.
  - now rewrite dumps_dict_of_dict.
Qed.




(** [log_data.update] takes a sequence of pairs as well: the key of the
    pair is a key of the document. *)
Lemma format_takes_a_sequence_of_pairs :
  exists s doc,
    JsonFormatter.format pairs_record "2024-05-01T10:00:00.000000" = Ok s /\
    json.loads s = Ok (VDict doc) /\
    dict_get "a" doc = Some (VInt 1).
Proof.
  do 2 eexists. split; [reflexivity|]. split; [vm_compute; reflexivity|]. reflexivity.
Qed.

Lemma dict_keys_map_values {V W} (f : string * V -> W) (d : dict V) :
  dict_keys (map (fun kv => (fst kv, f kv)) d) = dict_keys d.
Proof.
  unfold dict_keys. rewrite map_map. apply map_ext. reflexivity.
Qed.

Lemma dict_keys_of_pairs (k : string) (l : list (string * pyval)) :
  In k (dict_keys (json.dict_of_pairs l)) <-> In k (dict_keys l).
Proof.
  unfold json.dict_of_pairs. rewrite dict_keys_update. simpl. tauto.
Qed.

Lemma as_dict_no_None (ctx : RequestContext.t) (fields : dict pyval)
    (k : string) (v : pyval) :
  RequestContext.as_dict ctx = Ok fields -> In (k, v) fields -> v <> VNone.
Proof.
  intros H Hin. apply as_dict_filter in H as (d & _ & ->).
  apply filter_In in Hin as [_ Hv]. simpl in Hv.
  apply is_None_false. now destruct (is_None v).
Qed.

(** The [extra] entry of the dictionary form: the copy of the field,
    unless the field is None. *)
Lemma as_dict_extra (ctx : RequestContext.t) (fields : dict pyval) :
  RequestContext.as_dict ctx = Ok fields ->
  exists ext,
    RequestContext._asdict_inner (RequestContext.extra ctx) = Ok ext /\
    dict_get "extra" fields =
    if is_None (RequestContext.extra ctx) then None else Some ext.
Proof.
  intros H. apply as_dict_copies in H
    as (ts & rid & uid & svc & env & ext & _ & _ & _ & _ & _ & Hext & ->).
  exists ext. split; [exact Hext|].
  rewrite <- (asdict_inner_is_None _ _ Hext). simpl.
  destruct (is_None ts), (is_None rid), (is_None uid), (is_None svc), (is_None env),
    (is_None ext); reflexivity.
Qed.

(** C9 (as the code has it).  For a record that has no [extra] attribute
    or has a dict there, the text that [format] returns parses to a document
    whose keys are exactly: the four reserved keys; [exception] when
    exception info was captured; and the keys of that dict.  The other keys
    of the merged mapping (request_id, user_id, service, environment,
    timestamp, the keys of the call site) are attributes of the record that
    [format] does not copy.  In a record of the facade the [extra] attribute
    is the copy of the [extra] field of the context when that is not None,
    else what the call site gave under that key; and the dictionary form of
    a context has no entry for a field that is None. *)
Theorem structured_document_keys :
  (forall record now s d,
     (dict_get "extra" (LogRecord.attrs record) = None /\ d = [])
     \/ dict_get "extra" (LogRecord.attrs record) = Some (VDict d) ->
     JsonFormatter.format record now = Ok s ->
     exists doc,
       json.loads s = Ok (VDict doc) /\
       forall k,
         In k (dict_keys doc) <->
         In k ["timestamp"; "level"; "message"; "logger"]
         \/ (k = "exception" /\ LogRecord.exc_info record <> None)
         \/ In k (dict_keys d)) /\
  (forall ctx fields k v,
     RequestContext.as_dict ctx = Ok fields -> In (k, v) fields -> v <> VNone) /\
  (forall d ctx fields,
     RequestContext.as_dict ctx = Ok fields ->
     exists ext,
       RequestContext._asdict_inner (RequestContext.extra ctx) = Ok ext /\
       dict_get "extra" (dict_update d fields) =
       if is_None (RequestContext.extra ctx)
       then dict_get "extra" d
       else Some ext).
Proof.
  split; [|split; [exact as_dict_no_None|]].
  - intros record now s d Hextra Hfmt.
    rewrite (format_of_dict record now d Hextra) in Hfmt.
    apply loads_dumps in Hfmt.
    match type of Hfmt with
    | json.loads s = Ok (json.canon (VDict ?m)) =>
        change (json.canon (VDict m))
          with (VDict (json.dict_of_pairs
                         (map (fun kv => (fst kv, json.canon (snd kv))) m))) in Hfmt
    end.
    eexists. split; [exact Hfmt|]. intros k.
    rewrite dict_keys_of_pairs, (dict_keys_map_values (fun kv => json.canon (snd kv))).
    destruct (LogRecord.exc_info record) as [ei|].
    + rewrite dict_keys_set, dict_keys_update. split.
      * intros [-> | [H | H]]; [right; left; split; [reflexivity|discriminate]
                               | now left | now right; right].
      * intros [H | [[-> _] | H]]; auto.
    + rewrite dict_keys_update. split.
      * intros [H | H]; [now left | now right; right].
      * intros [H | [[_ H] | H]]; auto. contradiction.
  - intros d ctx fields Hfields.
    destruct (as_dict_extra ctx fields Hfields) as (ext & Hext & Hget).
    exists ext. split; [exact Hext|].
    rewrite dict_get_update, dict_get_rev_NoDup by apply (as_dict_NoDup ctx), Hfields.
    rewrite Hget. now destruct (is_None (RequestContext.extra ctx)).
Qed.

Lemma structured_document_keys_witness :
  exists doc,
    json.loads request_json = Ok (VDict doc) /\
    In "logger" (dict_keys doc) /\ In "path" (dict_keys doc) /\
    ~ In "request_id" (dict_keys doc).
Proof.
  destruct (proj1 structured_document_keys request_record
              "2024-05-01T10:00:00.000000" request_json
              [("path", VStr "/ping"); ("method", VStr "GET")]
              (or_intror eq_refl) eq_refl)
    as (doc & Hloads & Hkeys).
  exists doc. split; [exact Hloads|]. split; [|split].
  - apply Hkeys. left. simpl. tauto.
  - apply Hkeys. right; right. simpl. tauto.
  - intros H. apply Hkeys in H.
    destruct H as [H | [[H _] | H]]; simpl in H;
      [intuition discriminate | discriminate | intuition discriminate].
Defined.

(** C9, as stated, fails: the record of a call under the default context
    has [request_id] among the keys of its merged mapping, and the document
    that its text parses to has the four reserved keys only. *)
Lemma context_fields_missing_from_document :
  records_of (trace (fst (FastAPILogger.info sample_logger "ping" ExtraAbsent false
                            sample_clock booted_world)))
  = [sample_record] /\
  In "request_id" (dict_keys (LogRecord.attrs sample_record)) /\
  exists s doc,
    JsonFormatter.format sample_record (clk_iso sample_clock) = Ok s /\
    json.loads s = Ok (VDict doc) /\
    dict_keys doc = ["timestamp"; "level"; "message"; "logger"] /\
    ~ In "request_id" (dict_keys doc).
Proof.
  split; [reflexivity|]. split; [simpl; tauto|].
  do 2 eexists. split; [reflexivity|]. split; [vm_compute; reflexivity|].
  split; [reflexivity|]. simpl. intuition discriminate.
Qed.

(** * Further properties of the code *)

(** ** Setting up the logger *)

Lemma the_logger_same (nm : string) (lg : Logger) (m : gmap string Logger)
    (w : World) :
  the_logger nm (set_loggers (<[nm := lg]> m) w) = lg.
Proof. unfold the_logger. simpl. now rewrite lookup_insert_eq. Qed.

Lemma setup_elasticsearch_result (self : FastAPILogger.t) (w : World) :
  FastAPILogger._setup_elasticsearch self w =
  match FastAPILogger.elastic_config self with
  | Some (_ :: _) =>
      let w' := emits [EWrite SStdout (OText "ElasticsearchHandler initialized!")] w in
      let lg := the_logger (FastAPILogger.name self) w in
      (set_loggers
         (<[FastAPILogger.name self :=
              mkLogger (lg_level lg) (handlers lg ++ [FastAPILogger.elastic_handler])]>
            (loggers w)) w',
       Ok tt)
  | _ => (w, Ok tt)
  end.
Proof.
  unfold FastAPILogger._setup_elasticsearch.
  destruct (FastAPILogger.elastic_config self) as [[|kv cfg]|]; reflexivity.
Qed.

(** The world after [n] calls of [_setup_elasticsearch]. *)
Lemma setup_elasticsearch_iter (self : FastAPILogger.t) (n : nat) (w : World) :
  (exists kv cfg, FastAPILogger.elastic_config self = Some (kv :: cfg)) ->
  let w' := Nat.iter n (fun w => fst (FastAPILogger._setup_elasticsearch self w)) w in
  handlers (the_logger (FastAPILogger.name self) w')
  = (handlers (the_logger (FastAPILogger.name self) w)
       ++ repeat FastAPILogger.elastic_handler n)%list /\
  lg_level (the_logger (FastAPILogger.name self) w')
  = lg_level (the_logger (FastAPILogger.name self) w).
Proof.
  intros (kv & cfg & Hcfg). induction n as [|n IH].
  - simpl. now rewrite app_nil_r.
  - cbv zeta in *. rewrite !Nat.iter_succ.
    set (wn := Nat.iter n (fun w => fst (FastAPILogger._setup_elasticsearch self w)) w)
      in *.
    destruct IH as [IHh IHl].
    rewrite setup_elasticsearch_result, Hcfg. cbn [fst].
    rewrite !the_logger_same.
    cbn [handlers lg_level]. rewrite IHh, IHl. split; [|reflexivity].
    rewrite <- app_assoc. f_equal.
    change [FastAPILogger.elastic_handler] with (repeat FastAPILogger.elastic_handler 1).
    rewrite <- repeat_app. f_equal. lia.
Qed.

(** X1.  With a remote configuration that is not empty (and that the
    client accepts), every call of
    [_setup_elasticsearch] puts one more remote handler behind the handlers
    of the logger, whether or not one is there already, and keeps the level
    of the logger, the other loggers and the bound context: [n] calls leave
    [n] remote handlers.  With no configuration, or an empty one, the call
    changes nothing. *)
Theorem setup_elasticsearch_adds_a_handler_per_call :
  (forall self n w,
     (exists kv cfg, FastAPILogger.elastic_config self = Some (kv :: cfg)) ->
     let w' := Nat.iter n (fun w => fst (FastAPILogger._setup_elasticsearch self w)) w in
     handlers (the_logger (FastAPILogger.name self) w')
     = (handlers (the_logger (FastAPILogger.name self) w)
          ++ repeat FastAPILogger.elastic_handler n)%list /\
     lg_level (the_logger (FastAPILogger.name self) w')
     = lg_level (the_logger (FastAPILogger.name self) w)) /\
  (forall self w nm,
     nm <> FastAPILogger.name self ->
     let w' := fst (FastAPILogger._setup_elasticsearch self w) in
     the_logger nm w' = the_logger nm w /\ context w' = context w) /\
  (forall self w,
     FastAPILogger.elastic_config self = None
     \/ FastAPILogger.elastic_config self = Some [] ->
     FastAPILogger._setup_elasticsearch self w = (w, Ok tt)).
Proof.
  split; [exact setup_elasticsearch_iter|]. split.
  - intros self w nm Hne. cbv zeta. rewrite setup_elasticsearch_result.
    destruct (FastAPILogger.elastic_config self) as [[|kv cfg]|]; cbn [fst]; auto.
    split; [|reflexivity].
    unfold the_logger. simpl loggers. rewrite lookup_insert_ne by congruence.
    reflexivity.
  - intros self w [H | H]; rewrite setup_elasticsearch_result, H; reflexivity.
Qed.

Lemma setup_elasticsearch_adds_a_handler_per_call_witness :
  handlers
    (the_logger FastAPILogger.__name__
       (fst (FastAPILogger._setup_elasticsearch sample_logger booted_world)))
  = [FastAPILogger.file_handler sample_logger;
     FastAPILogger.json_handler sample_logger;
     FastAPILogger.console_handler;
     FastAPILogger.elastic_handler; FastAPILogger.elastic_handler].
Proof.
  destruct (proj1 setup_elasticsearch_adds_a_handler_per_call sample_logger 1%nat
              booted_world) as [Hh _].
  - do 2 eexists. reflexivity.
  - exact Hh.
Defined.

(** X2.  [_configure_logger] sets the level of its logger to DEBUG
    whatever it was, so that after it every level of the facade is enabled;
    it leaves every other logger, the bound context, the exception being
    handled and the trace as they were. *)
Theorem configure_logger_sets_level_only_there :
  forall self w,
    let w' := fst (FastAPILogger._configure_logger self w) in
    lg_level (the_logger (FastAPILogger.name self) w') = levelno DEBUG /\
    (forall lvl, getEffectiveLevel (the_logger (FastAPILogger.name self) w')
                 <= levelno lvl) /\
    (forall nm, nm <> FastAPILogger.name self -> loggers w' !! nm = loggers w !! nm) /\
    context w' = context w /\ handling w' = handling w /\ trace w' = trace w.
Proof.
  intros self w. cbv zeta. rewrite configure_logger_result. cbn [fst].
  rewrite the_logger_same. split; [reflexivity|]. split.
  - intros lvl. unfold getEffectiveLevel. simpl. destruct lvl; simpl; lia.
  - split; [|repeat split].
    intros nm Hne. simpl. now rewrite lookup_insert_ne by congruence.
Qed.

(** ** More on the context *)

Lemma find_some_from {A} (f : A -> bool) (l : list A) (x : A) :
  In x l -> f x = true -> exists y, find f l = Some y.
Proof.
  induction l as [|a l IH]; simpl; [contradiction|].
  intros [-> | Hin] Hx.
  - rewrite Hx. eauto.
  - destruct (f a); eauto.
Qed.

(** X3.  [set_context] succeeds exactly when every keyword is one of
    timestamp, request_id, user_id and extra: a keyword that is no field of
    RequestContext, like [service] and [environment], ends the call with a
    TypeError.  A call that fails leaves the world as it was. *)
Theorem set_context_accepts_four_keywords :
  forall self kwargs now w,
    ((forall k, In k (dict_keys kwargs) ->
                In k ["timestamp"; "request_id"; "user_id"; "extra"]) ->
     exists ctx,
       FastAPILogger.set_context self kwargs now w = (set_bound (Some ctx) w, Ok tt)) /\
    (forall k,
       In k (dict_keys kwargs) ->
       ~ In k ["timestamp"; "request_id"; "user_id"; "extra"] ->
       exists e,
         exn_cls e = TypeError /\
         FastAPILogger.set_context self kwargs now w = (w, Raise e)).
Proof.
  intros self kwargs now w. split.
  - intros Hkeys.
    destruct (set_context_cases self kwargs now w) as [(e & _ & H) | (ctx & _ & H)];
      [|eauto].
    exfalso. revert H. unfold FastAPILogger.set_context.
    rewrite (dict_has_false "service"), (dict_has_false "environment");
      try (intros Hin; apply Hkeys in Hin; simpl in Hin; intuition discriminate).
    unfold bind, lift, RequestContext.__init__.
    rewrite find_all_false; [discriminate|].
    intros k [<- | [<- | Hin]]; try reflexivity.
    apply Hkeys in Hin. simpl in Hin.
    repeat (destruct Hin as [<- | Hin]; [reflexivity|]). contradiction.
  - intros k Hin Hnot. unfold FastAPILogger.set_context.
    destruct (dict_has "service" kwargs) eqn:Es;
      [eexists; split; [|reflexivity]; reflexivity|].
    destruct (dict_has "environment" kwargs) eqn:Ee;
      [eexists; split; [|reflexivity]; reflexivity|].
    assert (Hk : negb (existsb (String.eqb k) RequestContext.fields) = true).
    { apply negb_true_iff. apply not_true_is_false. intros Hex.
      apply existsb_exists in Hex as (f & Hf & Heq).
      apply String.eqb_eq in Heq. subst f.
      simpl in Hf, Hnot.
      destruct Hf as [<- | [<- | [<- | [<- | [<- | [<- | []]]]]]];
        try (apply Hnot; tauto).
      - rewrite (dict_has_true _ _ Hin) in Es. discriminate.
      - rewrite (dict_has_true _ _ Hin) in Ee. discriminate. }
    unfold bind, lift, RequestContext.__init__.
    destruct (find_some_from
                (fun k => negb (existsb (String.eqb k) RequestContext.fields))
                (dict_keys (("service", VStr (FastAPILogger.service_name self))
                              :: ("environment", VStr (FastAPILogger.environment self))
                              :: kwargs)) k) as [y ->].
    + right. right. exact Hin.
    + exact Hk.
    + eexists. split; [|reflexivity]. reflexivity.
Qed.

Lemma set_context_accepts_four_keywords_witness :
  exists e,
    exn_cls e = TypeError /\
    FastAPILogger.set_context sample_logger [("status_code", VInt 200)]
      "2024-05-01T10:00:00" booted_world = (booted_world, Raise e).
Proof.
  apply (proj2 (set_context_accepts_four_keywords sample_logger
                  [("status_code", VInt 200)] "2024-05-01T10:00:00" booted_world)
           "status_code").
  - simpl. tauto.
  - simpl. intuition discriminate.
Defined.

(** X4.  [set_context] replaces, it does not merge: after two calls that
    succeed the world is what the second call alone would have left, so a
    field that only the first call gave is back at its default. *)
Theorem set_context_last_call_wins :
  forall self kwargs1 now1 kwargs2 now2 w w1 w2,
    FastAPILogger.set_context self kwargs1 now1 w = (w1, Ok tt) ->
    FastAPILogger.set_context self kwargs2 now2 w = (w2, Ok tt) ->
    FastAPILogger.set_context self kwargs2 now2 w1 = (w2, Ok tt).
Proof.
  intros self kwargs1 now1 kwargs2 now2 w w1 w2 H1 H2.
  destruct (set_context_cases self kwargs1 now1 w) as [(e & _ & H) | (c1 & _ & H)];
    rewrite H in H1; [discriminate|]. injection H1 as <-.
  destruct (set_context_cases self kwargs2 now2 w) as [(e & _ & H') | (c2 & Hc2 & H')];
    rewrite H' in H2; [discriminate|]. injection H2 as <-.
  destruct (set_context_cases self kwargs2 now2 (set_bound (Some c1) w))
    as [(e & _ & H'') | (c2' & Hc2' & H'')].
  - exfalso. revert H' H''. unfold FastAPILogger.set_context.
    destruct (dict_has "service" kwargs2); [discriminate|].
    destruct (dict_has "environment" kwargs2); [discriminate|].
    unfold bind, lift. rewrite Hc2. discriminate.
  - rewrite H''. rewrite Hc2 in Hc2'. injection Hc2' as <-. reflexivity.
Qed.

Lemma set_context_last_call_wins_witness :
  context
    (fst (FastAPILogger.set_context sample_logger [("request_id", VStr "ab12cd34")]
            "2024-05-01T10:00:01"
            (fst (FastAPILogger.set_context sample_logger [("user_id", VStr "u1")]
                    "2024-05-01T10:00:00" booted_world))))
  = Some (RequestContext.mk (VStr "2024-05-01T10:00:01") (VStr "ab12cd34") (VStr "-")
            (VStr "your-service-name") (VStr "development") VNone).
Proof.
  rewrite (set_context_last_call_wins sample_logger
             [("user_id", VStr "u1")] "2024-05-01T10:00:00"
             [("request_id", VStr "ab12cd34")] "2024-05-01T10:00:01" booted_world
             (fst (FastAPILogger.set_context sample_logger [("user_id", VStr "u1")]
                     "2024-05-01T10:00:00" booted_world))
             (fst (FastAPILogger.set_context sample_logger
                     [("request_id", VStr "ab12cd34")] "2024-05-01T10:00:01"
                     booted_world))
             eq_refl eq_refl).
  reflexivity.
Defined.

(** X5.  The dictionary form of a context gives the context back: when
    the fields hold plain data (so that the copy [asdict] makes of a value
    equals the value) and none of timestamp, request_id, user_id, service
    and environment is None, the dictionary form exists and building a
    RequestContext from it yields the same context, whatever the clock
    shows.  (A field that is None is left out of the dictionary and would
    come back as its default.) *)
Theorem as_dict_rebuilds_context :
  forall ctx now,
    (forall v,
       In v [RequestContext.timestamp ctx; RequestContext.request_id ctx;
             RequestContext.user_id ctx; RequestContext.service ctx;
             RequestContext.environment ctx; RequestContext.extra ctx] ->
       json.unserializable v = None) ->
    RequestContext.timestamp ctx <> VNone ->
    RequestContext.request_id ctx <> VNone ->
    RequestContext.user_id ctx <> VNone ->
    RequestContext.service ctx <> VNone ->
    RequestContext.environment ctx <> VNone ->
    exists d,
      RequestContext.as_dict ctx = Ok d /\
      RequestContext.__init__ now d = Ok ctx.
Proof.
  intros [ts rid uid svc env ext] now Hplain Hts Hrid Huid Hsvc Henv. simpl in *.
  assert (Hn : forall v, v <> VNone -> is_None v = false).
  { intros v Hv. destruct v; try reflexivity. contradiction. }
  unfold RequestContext.as_dict, RequestContext.asdict.
  cbn [RequestContext.copy_members RequestContext.timestamp RequestContext.request_id
       RequestContext.user_id RequestContext.service RequestContext.environment
       RequestContext.extra].
  rewrite !asdict_inner_plain by (apply Hplain; simpl; tauto).
  eexists. split; [reflexivity|]. simpl.
  rewrite (Hn ts Hts), (Hn rid Hrid), (Hn uid Huid), (Hn svc Hsvc), (Hn env Henv).
  simpl.
  destruct (is_None ext) eqn:Ee; simpl;
    unfold RequestContext.__init__, RequestContext.__post_init__, RequestContext.kwarg;
    simpl; rewrite (Hn ts Hts); [|reflexivity].
  destruct ext; try discriminate Ee. reflexivity.
Qed.

Lemma as_dict_rebuilds_context_witness :
  exists d,
    RequestContext.as_dict
      (RequestContext.mk (VStr "2024-05-01T10:00:00") (VStr "ab12cd34") (VStr "u1")
         (VStr "svc") (VStr "production") (VDict [("path", VStr "/ping")]))
    = Ok d /\
    RequestContext.__init__ "2024-05-01T11:00:00" d
    = Ok (RequestContext.mk (VStr "2024-05-01T10:00:00") (VStr "ab12cd34") (VStr "u1")
            (VStr "svc") (VStr "production") (VDict [("path", VStr "/ping")])).
Proof.
  apply as_dict_rebuilds_context; try discriminate.
  intros v Hin. simpl in Hin.
  repeat (destruct Hin as [<- | Hin]; [reflexivity|]).
  contradiction.
Defined.

(** ** More on the facade *)

Lemma merged_lookup (d : dict pyval) (ctx : RequestContext.t) (fields : dict pyval)
    (k : string) :
  RequestContext.as_dict ctx = Ok fields ->
  dict_get k (dict_update d fields) =
  match dict_get k fields with
  | Some v => Some v
  | None => dict_get k d
  end.
Proof.
  intros H. now rewrite dict_get_update, dict_get_rev_NoDup by apply (as_dict_NoDup ctx), H.
Qed.

(** X6.  A call of the facade never touches the logger registry or the
    exception being handled, and it only adds to the trace; this holds
    whether the call returns or raises.  It leaves the bound context as it
    was when its [extra] is absent or an object of the call site's own.
    When the call site passes the very dict that the bound context holds in
    its [extra] field, [extra.update] changes that dict in place: the
    context then holds, under [extra], its old items with its own dictionary
    form written over them, whether or not the level is enabled and whether
    or not the call then raises a KeyError. *)
Theorem log_changes_only_a_shared_extra :
  forall self lvl msg extra exc clk w w' res,
    FastAPILogger.log self lvl msg extra exc clk w = (w', res) ->
    py312 w' = py312 w /\ loggers w' = loggers w /\ handling w' = handling w /\
    (exists es, trace w' = (trace w ++ es)%list) /\
    (extra <> ExtraShared -> context w' = context w) /\
    (extra = ExtraShared ->
     context w' =
     match context w with
     | Some ctx =>
         match RequestContext.extra ctx, RequestContext.as_dict ctx with
         | VDict d, Ok fields =>
             Some (RequestContext.with_extra ctx (VDict (dict_update d fields)))
         | _, _ => Some ctx
         end
     | None => None
     end).
Proof.
  intros self lvl msg extra exc clk w w' res Hlog.
  destruct (log_cases self lvl msg extra exc clk w) as (ctx & Hget & Hcases).
  assert (Hsame : w' = w ->
            py312 w' = py312 w /\ loggers w' = loggers w /\ handling w' = handling w /\
            (exists es, trace w' = (trace w ++ es)%list) /\
            (extra <> ExtraShared -> context w' = context w)).
  { intros ->. repeat split; auto. exists []. now rewrite app_nil_r. }
  destruct Hcases as [(Hno & e & _ & H) | (d & Hd & [(e & He & _ & H) | (f & Hf & H)])].
  - rewrite H in Hlog. injection Hlog as <- <-.
    destruct (Hsame eq_refl) as (H1 & H2 & H3 & H4 & H5).
    repeat (split; [assumption|]). intros ->. simpl in Hno.
    destruct (context w) as [c|]; [|reflexivity].
    simpl in Hget. injection Hget as <-.
    destruct (RequestContext.extra c); try reflexivity. now contradiction (Hno d).
  - rewrite H in Hlog. injection Hlog as <- <-.
    destruct (Hsame eq_refl) as (H1 & H2 & H3 & H4 & H5).
    repeat (split; [assumption|]). intros ->. simpl in Hd.
    destruct (context w) as [c|]; [|reflexivity].
    simpl in Hget. injection Hget as <-. rewrite Hd, He. reflexivity.
  - cbv zeta in H.
    pose proof (updated_in_place_frame extra (dict_update d f) w) as (F1 & F2 & F3 & F4).
    assert (Hctx : (extra <> ExtraShared ->
                    context (FastAPILogger.updated_in_place extra (dict_update d f) w)
                    = context w) /\
                   (extra = ExtraShared ->
                    context (FastAPILogger.updated_in_place extra (dict_update d f) w)
                    = match context w with
                      | Some ctx =>
                          match RequestContext.extra ctx, RequestContext.as_dict ctx with
                          | VDict d, Ok fields =>
                              Some (RequestContext.with_extra ctx
                                      (VDict (dict_update d fields)))
                          | _, _ => Some ctx
                          end
                      | None => None
                      end)).
    { split.
      - intros Hne. now rewrite updated_in_place_own.
      - intros ->. simpl in Hd. unfold FastAPILogger.updated_in_place.
        destruct (context w) as [c|] eqn:Ec; [|exact Ec].
        simpl in Hget. injection Hget as <-. now rewrite Hd, Hf. }
    destruct Hctx as [C1 C2].
    destruct H as [[_ H] | [(_ & k & _ & _ & H) | (_ & _ & H)]];
      rewrite H in Hlog; injection Hlog as <- <-.
    + repeat (split; [assumption|]). split; [|split; assumption].
      exists []. now rewrite app_nil_r.
    + repeat (split; [assumption|]). split; [|split; assumption].
      exists []. now rewrite app_nil_r.
    + cbn [py312 loggers handling trace context emits].
      repeat (split; [assumption|]). split; [|split; assumption].
      rewrite F4. eexists. reflexivity.
Qed.

Lemma log_changes_only_a_shared_extra_witness :
  context (fst shared_call) =
  Some (RequestContext.mk (VStr "2024-05-01T10:00:00.000000") (VStr "3f2b8c1e")
          (VStr "-") (VStr "your-service-name") (VStr "development")
          (VDict [("path", VStr "/ping"); ("method", VStr "GET");
                  ("timestamp", VStr "2024-05-01T10:00:00.000000");
                  ("request_id", VStr "3f2b8c1e"); ("user_id", VStr "-");
                  ("service", VStr "your-service-name");
                  ("environment", VStr "development");
                  ("extra", VDict [("path", VStr "/ping"); ("method", VStr "GET")])])).
Proof.
  destruct (log_changes_only_a_shared_extra sample_logger INFO "again" ExtraShared
              false sample_clock request_world (fst shared_call) (snd shared_call)
              eq_refl)
    as (_ & _ & _ & _ & _ & H).
  rewrite (H eq_refl). reflexivity.
Defined.



(** X8.  A key of the call-site [extra] that the dictionary form of the
    context does not define reaches the record with the value the call site
    gave it; this includes the name of a context field whose value is
    None. *)
Theorem call_site_keys_fill_the_gaps :
  forall self lvl msg extra exc clk w ctx d fields k v w' r rest,
    ContextVar.get (FastAPILogger._context_var self) (context w) = Ok ctx ->
    FastAPILogger.passed extra ctx = VDict d ->
    RequestContext.as_dict ctx = Ok fields ->
    dict_get k fields = None ->
    dict_get k d = Some v ->
    FastAPILogger.log self lvl msg extra exc clk w = (w', Ok tt) ->
    trace w' = (trace w ++ EHandle r :: rest)%list ->
    dict_get k (LogRecord.attrs r) = Some v.
Proof.
  intros self lvl msg extra exc clk w ctx d fields k v w' r rest Hget Hd Hfields Hk Hv
    Hlog Htr.
  destruct (log_cases self lvl msg extra exc clk w) as (ctx' & Hget' & Hcases).
  rewrite Hget in Hget'. injection Hget' as <-.
  destruct Hcases as [(Hno & _) | (d' & Hd' & Hcases)]; [now contradiction (Hno d)|].
  rewrite Hd in Hd'. injection Hd' as <-.
  destruct Hcases as [(e & He & _) | (f & Hf & H)]; [congruence|].
  rewrite Hfields in Hf. injection Hf as <-. cbv zeta in H.
  pose proof (updated_in_place_frame extra (dict_update d fields) w) as (_ & _ & _ & F4).
  destruct H as [[_ H] | [(_ & k' & _ & _ & H) | (_ & _ & H)]]; rewrite H in Hlog.
  - injection Hlog as <-. rewrite F4 in Htr. apply app_eq_self in Htr. discriminate.
  - discriminate.
  - injection Hlog as <-. rewrite trace_emits, F4 in Htr.
    apply app_inv_head in Htr. injection Htr as <- _. simpl.
    now rewrite (merged_lookup d ctx fields k Hfields), Hk.
Qed.

Lemma call_site_keys_fill_the_gaps_witness :
  exists r rest,
    trace (fst (FastAPILogger.info sample_logger "hello"
                  (ExtraOwn (VDict [("order_id", VInt 42)])) false sample_clock
                  booted_world))
    = (trace booted_world ++ EHandle r :: rest)%list /\
    dict_get "order_id" (LogRecord.attrs r) = Some (VInt 42).
Proof.
  do 2 eexists. split; [reflexivity|].
  eapply (call_site_keys_fill_the_gaps sample_logger INFO "hello"
            (ExtraOwn (VDict [("order_id", VInt 42)])) false sample_clock
            booted_world _ [("order_id", VInt 42)] _ "order_id" (VInt 42)
            (fst (FastAPILogger.info sample_logger "hello"
                    (ExtraOwn (VDict [("order_id", VInt 42)])) false sample_clock
                    booted_world)));
    reflexivity.
Defined.

(** ** The sinks of one record *)

Lemma is_None_true (v : pyval) : is_None v = true <-> v = VNone.
Proof. destruct v; simpl; split; congruence. Qed.

Lemma not_None_false (v : pyval) : v <> VNone -> is_None v = false.
Proof. destruct v; simpl; congruence. Qed.

(** The four fields of the line in the dictionary form of a context. *)
Lemma as_dict_get_line_fields (ctx : RequestContext.t) (fields : dict pyval) :
  RequestContext.as_dict ctx = Ok fields ->
  exists sv ev rv uv,
    RequestContext._asdict_inner (RequestContext.service ctx) = Ok sv /\
    RequestContext._asdict_inner (RequestContext.environment ctx) = Ok ev /\
    RequestContext._asdict_inner (RequestContext.request_id ctx) = Ok rv /\
    RequestContext._asdict_inner (RequestContext.user_id ctx) = Ok uv /\
    dict_get "service" fields
    = (if is_None (RequestContext.service ctx) then None else Some sv) /\
    dict_get "environment" fields
    = (if is_None (RequestContext.environment ctx) then None else Some ev) /\
    dict_get "request_id" fields
    = (if is_None (RequestContext.request_id ctx) then None else Some rv) /\
    dict_get "user_id" fields
    = (if is_None (RequestContext.user_id ctx) then None else Some uv).
Proof.
  intros H. apply as_dict_copies in H
    as (ts & rid & uid & svc & env & ext & Hts & Hrid & Huid & Hsvc & Henv & Hext & ->).
  exists svc, env, rid, uid. repeat (split; [assumption|]).
  rewrite <- (asdict_inner_is_None _ _ Hsvc), <- (asdict_inner_is_None _ _ Henv),
    <- (asdict_inner_is_None _ _ Hrid), <- (asdict_inner_is_None _ _ Huid).
  simpl.
  destruct (is_None ts), (is_None rid), (is_None uid), (is_None svc), (is_None env),
    (is_None ext); repeat split.
Qed.

(** X9.  The text line of a record that the facade made without [extra]
    takes service, environment, request id and user id from the ambient
    context (the copies that its dictionary form holds).  The formatter
    needs all four: when one of them is None in the context, its key is
    missing on the record and formatting the line ends with a ValueError. *)
Theorem text_line_needs_four_context_fields :
  forall self lvl msg (exc : bool) clk w ctx w' r rest,
    ContextVar.get (FastAPILogger._context_var self) (context w) = Ok ctx ->
    FastAPILogger.log self lvl msg ExtraAbsent exc clk w = (w', Ok tt) ->
    trace w' = (trace w ++ EHandle r :: rest)%list ->
    (RequestContext.service ctx <> VNone ->
     RequestContext.environment ctx <> VNone ->
     RequestContext.request_id ctx <> VNone ->
     RequestContext.user_id ctx <> VNone ->
     exists sv ev rv uv,
       RequestContext._asdict_inner (RequestContext.service ctx) = Ok sv /\
       RequestContext._asdict_inner (RequestContext.environment ctx) = Ok ev /\
       RequestContext._asdict_inner (RequestContext.request_id ctx) = Ok rv /\
       RequestContext._asdict_inner (RequestContext.user_id ctx) = Ok uv /\
       line_format r =
       Ok (mkLine (clk_asctime clk) (levelname lvl) sv ev rv uv
             (FastAPILogger.name self) msg
             (option_map formatException
                (if exc then Some (handling w) else None)))) /\
    (RequestContext.service ctx = VNone \/ RequestContext.environment ctx = VNone
     \/ RequestContext.request_id ctx = VNone \/ RequestContext.user_id ctx = VNone ->
     exists e, line_format r = Raise e /\ exn_cls e = ValueError).
Proof.
  intros self lvl msg exc clk w ctx w' r rest Hget Hlog Htr.
  rewrite (log_absent_eq self lvl msg exc clk w ctx Hget) in Hlog.
  destruct (RequestContext.as_dict ctx) as [fields|e] eqn:Hfields; [|discriminate].
  destruct (_ <=? _).
  2:{ injection Hlog as <-. apply app_eq_self in Htr. discriminate. }
  injection Hlog as <-. rewrite trace_emits in Htr.
  apply app_inv_head in Htr. injection Htr as <- _.
  destruct (as_dict_get_line_fields ctx fields Hfields)
    as (sv & ev & rv & uv & Hsv & Hev & Hrv & Huv & Hs & He & Hr & Hu).
  unfold line_format. cbn [LogRecord.attrs LogRecord.asctime LogRecord.level
    LogRecord.name LogRecord.message LogRecord.exc_info].
  rewrite Hs, He, Hr, Hu. split.
  - intros H1 H2 H3 H4. exists sv, ev, rv, uv. repeat (split; [assumption|]).
    now rewrite (not_None_false _ H1), (not_None_false _ H2),
      (not_None_false _ H3), (not_None_false _ H4).
  - intros H.
    destruct (is_None (RequestContext.service ctx)) eqn:E1;
      [eexists; split; reflexivity|].
    destruct (is_None (RequestContext.environment ctx)) eqn:E2;
      [eexists; split; reflexivity|].
    destruct (is_None (RequestContext.request_id ctx)) eqn:E3;
      [eexists; split; reflexivity|].
    destruct (is_None (RequestContext.user_id ctx)) eqn:E4;
      [eexists; split; reflexivity|].
    exfalso.
    destruct H as [H | [H | [H | H]]]; apply is_None_true in H; congruence.
Qed.

Lemma text_line_needs_four_context_fields_witness :
  exists r rest,
    trace (fst (FastAPILogger.info sample_logger "ping" ExtraAbsent false sample_clock
                  booted_world))
    = (trace booted_world ++ EHandle r :: rest)%list /\
    line_format r =
    Ok (mkLine "2024-05-01 10:00:00,000" "INFO" (VStr "-") (VStr "development")
          (VStr "-") (VStr "-") FastAPILogger.__name__ "ping" None).
Proof.
  do 2 eexists. split; [reflexivity|].
  destruct (proj1 (text_line_needs_four_context_fields sample_logger INFO "ping" false
                     sample_clock booted_world _
                     (fst (FastAPILogger.info sample_logger "ping" ExtraAbsent false
                             sample_clock booted_world)) _ _ eq_refl eq_refl eq_refl))
    as (sv & ev & rv & uv & Hsv & Hev & Hrv & Huv & Hline); try discriminate.
  simpl in Hsv, Hev, Hrv, Huv.
  injection Hsv as <-. injection Hev as <-. injection Hrv as <-. injection Huv as <-.
  exact Hline.
Defined.

(** [format] raises when a value of the [extra] dict cannot be encoded. *)
Lemma format_raises_on_member (record : LogRecord.t) (now : string)
    (d : dict pyval) (k : string) (v : pyval) (e0 : exn) :
  dict_get "extra" (LogRecord.attrs record) = Some (VDict d) ->
  List.NoDup (dict_keys d) ->
  dict_get k d = Some v ->
  json.encode_error v = Some e0 ->
  k <> "exception" \/ LogRecord.exc_info record = None ->
  exists e, JsonFormatter.format record now = Raise e.
Proof.
  intros Hextra Hnd Hget Hv Hk.
  rewrite (format_of_dict record now d (or_intror Hextra)). unfold json.dumps.
  match goal with
  | |- context [json.encode_error (VDict ?m)] =>
      assert (Hin : dict_get k m = Some v)
  end.
  { assert (Hupd : forall base, dict_get k (dict_update base d) = Some v).
    { intros base. now rewrite dict_get_update, dict_get_rev_NoDup, Hget. }
    destruct (LogRecord.exc_info record) as [ei|]; [|apply Hupd].
    destruct Hk as [Hk | [=]]. now rewrite dict_get_set_ne. }
  apply dict_get_Some_In in Hin.
  match goal with
  | |- context [json.encode_error (VDict ?m)] =>
      destruct (json.encode_error (VDict m)) as [e|] eqn:E
  end.
  - eauto.
  - rewrite encode_error_members_None in E.
    rewrite (E k v Hin) in Hv. discriminate.
Qed.

(** X10.  One sink that fails does not keep the record from the others.
    On the logger that the constructor sets up, when the dictionary form of
    the ambient context has the four fields of the line and holds, in the
    dict under [extra], a value that json cannot encode, an [info] call
    still returns normally: the text file and the console get their line,
    the JSON file gets nothing and the logging error is reported on the
    error stream. *)
Theorem unencodable_value_fails_the_json_sink_only :
  forall self msg clk w ctx fields sv ev rv uv d k v e0,
    the_logger (FastAPILogger.name self) w =
      mkLogger (levelno DEBUG)
        [FastAPILogger.file_handler self; FastAPILogger.json_handler self;
         FastAPILogger.console_handler] ->
    ContextVar.get (FastAPILogger._context_var self) (context w) = Ok ctx ->
    RequestContext.as_dict ctx = Ok fields ->
    dict_get "service" fields = Some sv ->
    dict_get "environment" fields = Some ev ->
    dict_get "request_id" fields = Some rv ->
    dict_get "user_id" fields = Some uv ->
    dict_get "extra" fields = Some (VDict d) ->
    List.NoDup (dict_keys d) ->
    dict_get k d = Some v ->
    json.encode_error v = Some e0 ->
    FastAPILogger.info self msg ExtraAbsent false clk w =
    (emits
       [EHandle (LogRecord.mk (FastAPILogger.name self) INFO msg None
                   (clk_asctime clk) fields);
        EWrite (SFile (FastAPILogger.log_dir self ++ "/app.log"))
          (OLine (mkLine (clk_asctime clk) "INFO" sv ev rv uv
                    (FastAPILogger.name self) msg None));
        EWrite SStderr (OText "--- Logging error ---");
        EWrite SStdout
          (OLine (mkLine (clk_asctime clk) "INFO" sv ev rv uv
                    (FastAPILogger.name self) msg None))] w,
     Ok tt).
Proof.
  intros self msg clk w ctx fields sv ev rv uv d k v e0 Hlg Hget Hfields Hs He Hr Hu
    Hx Hnd Hk Hv.
  unfold FastAPILogger.info.
  rewrite (log_absent self INFO msg false clk w ctx fields Hget Hfields)
    by (rewrite Hlg; unfold getEffectiveLevel; simpl; lia).
  set (r := LogRecord.mk (FastAPILogger.name self) INFO msg None (clk_asctime clk) fields).
  assert (Hline : line_format r =
                  Ok (mkLine (clk_asctime clk) "INFO" sv ev rv uv
                        (FastAPILogger.name self) msg None)).
  { unfold r. now rewrite (line_format_fields _ _ _ _ _ _ sv ev rv uv Hs He Hr Hu). }
  destruct (format_raises_on_member r (clk_iso clk) d k v e0 Hx Hnd Hk Hv)
    as (e & Hfmt); [now right|].
  rewrite Hlg.
  unfold callHandlers, receivers, Handler_handle, StreamHandler_emit, format_with.
  cbn [handlers List.filter h_level h_kind h_formatter FastAPILogger.file_handler
    FastAPILogger.json_handler FastAPILogger.console_handler
    FastAPILogger.get_formatter LogRecord.level r levelno Z.leb Z.compare Pos.compare
    Pos.compare_cont flat_map app].
  now rewrite Hline, Hfmt.
Qed.

Lemma NoDup_one_key (k : string) : List.NoDup [k].
Proof. constructor; [intros []|constructor]. Qed.

Lemma unencodable_value_fails_the_json_sink_only_witness :
  In (EWrite SStderr (OText "--- Logging error ---"))
     (trace (fst (FastAPILogger.info sample_logger "ping" ExtraAbsent false
                    sample_clock unencodable_world))) /\
  snd (FastAPILogger.info sample_logger "ping" ExtraAbsent false sample_clock
         unencodable_world) = Ok tt.
Proof.
  rewrite (unencodable_value_fails_the_json_sink_only sample_logger "ping"
             sample_clock unencodable_world
             (RequestContext.mk (VStr "2024-05-01T09:59:30.000000") (VStr "-")
                (VStr "-") (VStr "your-service-name") (VStr "development")
                (VDict [("started", VObj "datetime" "2024-05-01 09:59:30" true)]))
             _ (VStr "your-service-name") (VStr "development") (VStr "-") (VStr "-")
             [("started", VObj "datetime" "2024-05-01 09:59:30" true)]
             "started" (VObj "datetime" "2024-05-01 09:59:30" true)
             (json.not_serializable "datetime")
             eq_refl eq_refl eq_refl eq_refl eq_refl eq_refl eq_refl eq_refl
             (NoDup_one_key "started") eq_refl eq_refl).
  cbn [fst snd]. split; [|reflexivity].
  rewrite trace_emits. apply in_or_app. right. simpl. tauto.
Defined.

(** ** The remote document *)

Lemma log_entry_lookup (record : LogRecord.t) (clk : Clock) (d : dict pyval)
    (k : string) :
  dict_get "extra" (LogRecord.attrs record) = Some (VDict d) ->
  List.NoDup (dict_keys d) ->
  exists entry,
    ElasticsearchHandler.log_entry record clk = Ok entry /\
    dict_get k entry =
    match dict_get k d with
    | Some v => Some v
    | None =>
        dict_get k [("timestamp", VStr (clk_iso clk));
                    ("level", VStr (levelname (LogRecord.level record)));
                    ("message", VStr (LogRecord.message record))]
    end.
Proof.
  intros Hextra Hnd. unfold ElasticsearchHandler.log_entry. rewrite Hextra.
  eexists. split; [reflexivity|].
  now rewrite dict_get_update, dict_get_rev_NoDup.
Qed.

(** X11.  When the body of the remote handler's [emit] runs and the
    store accepts, exactly one document is indexed, under the index named
    prefix, hyphen, date.  The document holds timestamp, level and message
    and the items of the dict under the record's [extra] attribute, whose
    values win over the three; the other attributes of the record
    (request_id, user_id, service, environment) are not in it unless that
    dict names them.  A record without [extra] attribute gives the three
    keys alone. *)
Theorem remote_document_is_extra_over_three_keys :
  (forall index_prefix es_index record clk w entry u,
     ElasticsearchHandler.log_entry record clk = Ok entry ->
     es_index (index_prefix ++ "-" ++ clk_ymd clk) entry = Ok u ->
     ElasticsearchHandler.emit index_prefix es_index record clk w =
     (emits
        [EWrite SStdout
           (OText ("Attempting to send log to Elasticsearch: "
                     ++ index_prefix ++ "-" ++ clk_ymd clk));
         EWrite SStdout (OPrint "Log entry: " (VDict entry));
         EIndex (index_prefix ++ "-" ++ clk_ymd clk) entry;
         EWrite SStdout (OText "Log successfully sent to Elasticsearch")] w,
      Ok tt)) /\
  (forall record clk d k,
     dict_get "extra" (LogRecord.attrs record) = Some (VDict d) ->
     List.NoDup (dict_keys d) ->
     exists entry,
       ElasticsearchHandler.log_entry record clk = Ok entry /\
       dict_get k entry =
       match dict_get k d with
       | Some v => Some v
       | None =>
           dict_get k [("timestamp", VStr (clk_iso clk));
                       ("level", VStr (levelname (LogRecord.level record)));
                       ("message", VStr (LogRecord.message record))]
       end) /\
  (forall record clk,
     dict_get "extra" (LogRecord.attrs record) = None ->
     ElasticsearchHandler.log_entry record clk =
     Ok [("timestamp", VStr (clk_iso clk));
         ("level", VStr (levelname (LogRecord.level record)));
         ("message", VStr (LogRecord.message record))]).
Proof.
  split; [|split].
  - intros index_prefix es_index record clk w entry u Hentry Hidx.
    pose proof (emit_cases index_prefix es_index record clk w) as H. simpl in H.
    unfold ElasticsearchHandler.index_name in H.
    now rewrite Hentry, Hidx in H.
  - intros record clk d k. apply log_entry_lookup.
  - intros record clk Hnone. unfold ElasticsearchHandler.log_entry.
    now rewrite Hnone.
Qed.

Lemma remote_document_is_extra_over_three_keys_witness :
  ElasticsearchHandler.log_entry sample_record sample_clock =
  Ok [("timestamp", VStr "2024-05-01T10:00:00.000000");
      ("level", VStr "INFO"); ("message", VStr "ping")].
Proof.
  apply (proj2 (proj2 remote_document_is_extra_over_three_keys) sample_record
           sample_clock).
  reflexivity.
Defined.

(** X12.  The handler of [emit] is [except Exception]: when the client
    is cancelled while the document is sent, the error is no Exception, it
    leaves [emit] as it came, and nothing is written to the error stream. *)
Theorem emit_lets_cancellation_through :
  forall index_prefix es_index record clk w entry e,
    ElasticsearchHandler.log_entry record clk = Ok entry ->
    es_index (index_prefix ++ "-" ++ clk_ymd clk) entry = Raise e ->
    is_Exception e = false ->
    ElasticsearchHandler.emit index_prefix es_index record clk w =
    (emits
       [EWrite SStdout
          (OText ("Attempting to send log to Elasticsearch: "
                    ++ index_prefix ++ "-" ++ clk_ymd clk));
        EWrite SStdout (OPrint "Log entry: " (VDict entry))] w,
     Raise e).
Proof.
  intros index_prefix es_index record clk w entry e Hentry Hidx Hexn.
  pose proof (emit_cases index_prefix es_index record clk w) as H. simpl in H.
  unfold ElasticsearchHandler.index_name in H.
  now rewrite Hentry, Hidx, Hexn in H.
Qed.

Lemma emit_lets_cancellation_through_witness :
  snd (ElasticsearchHandler.emit "fastapi-logs"
         (fun _ _ => Raise (mkExn CancelledError "")) sample_record sample_clock
         booted_world)
  = Raise (mkExn CancelledError "").
Proof.
  rewrite (emit_lets_cancellation_through "fastapi-logs"
             (fun _ _ => Raise (mkExn CancelledError "")) sample_record sample_clock
             booted_world
             [("timestamp", VStr "2024-05-01T10:00:00.000000");
              ("level", VStr "INFO"); ("message", VStr "ping")]
             (mkExn CancelledError "") eq_refl eq_refl eq_refl).
  reflexivity.
Defined.

(** ** Records of one request *)

(** A call of the facade without [extra] in a world with a bound context
    that can be copied: the record, and what follows it in the trace. *)
Lemma log_bound self lvl msg (exc : bool) clk w c fields :
  context w = Some c ->
  RequestContext.as_dict c = Ok fields ->
  getEffectiveLevel (the_logger (FastAPILogger.name self) w) <= levelno lvl ->
  exists tail,
    records_of tail = [] /\
    FastAPILogger.log self lvl msg ExtraAbsent exc clk w =
    (emits
       (EHandle
          (LogRecord.mk (FastAPILogger.name self) lvl msg
             (if exc then Some (handling w) else None) (clk_asctime clk) fields)
          :: tail) w,
     Ok tt).
Proof.
  intros Hc Hfields Hlvl.
  eexists. split; [|apply (log_absent self lvl msg exc clk w c fields)]; auto.
  - apply records_of_callHandlers.
  - now rewrite Hc.
Qed.

Lemma length_substring_prefix (n : nat) (s : string) :
  (n <= String.length s)%nat -> String.length (String.substring 0 n s) = n.
Proof.
  revert s. induction n as [|n IH]; intros s Hn.
  - now destruct s.
  - destruct s as [|c s]; simpl in *; [lia|]. rewrite IH; lia.
Qed.

(** X13.  Both records that the hook logs for a request that completes
    carry the correlation id of the request, the first eight characters of
    the identifier, under [request_id]; the second is logged under a context
    that the hook has just rebuilt, so it has the default user id whatever
    the wrapped call bound, and the status code in its [extra].  The
    context of the request stays bound when the hook returns.  For an
    identifier of at least eight characters the correlation id has eight. *)
Theorem request_records_carry_the_correlation_id :
  forall logger request call_next uuid4 clk_in clk_out w,
    getEffectiveLevel (the_logger (FastAPILogger.name logger) w) <= levelno INFO ->
    let rid := VStr (String.substring 0 8 uuid4) in
    let svc := VStr (FastAPILogger.service_name logger) in
    let env := VStr (FastAPILogger.environment logger) in
    ((8 <= String.length uuid4)%nat ->
     String.length (String.substring 0 8 uuid4) = 8%nat) /\
    exists w1 started,
      records_of (trace w1) = (records_of (trace w) ++ [started])%list /\
      dict_get "request_id" (LogRecord.attrs started) = Some rid /\
      context w1 =
        Some (RequestContext.mk (VStr (clk_iso clk_in)) rid (VStr "-") svc env
                (VDict [("path", VStr (url_path request));
                        ("method", VStr (method request))])) /\
      forall w2 response,
        call_next request w1 = (w2, Ok response) ->
        loggers w2 = loggers w1 ->
        exists w3 completed,
          logging_middleware logger request call_next uuid4 clk_in clk_out w
          = (w3, Ok response) /\
          records_of (trace w3) = (records_of (trace w2) ++ [completed])%list /\
          dict_get "request_id" (LogRecord.attrs completed) = Some rid /\
          dict_get "user_id" (LogRecord.attrs completed) = Some (VStr "-") /\
          dict_get "extra" (LogRecord.attrs completed)
          = Some (VDict [("path", VStr (url_path request));
                         ("method", VStr (method request));
                         ("status_code", VInt (status_code response))]) /\
          context w3 =
            Some (RequestContext.mk (VStr (clk_iso clk_out)) rid (VStr "-") svc env
                    (VDict [("path", VStr (url_path request));
                            ("method", VStr (method request));
                            ("status_code", VInt (status_code response))])).
Proof.
  intros logger request call_next uuid4 clk_in clk_out w Hen rid svc env.
  split; [apply length_substring_prefix|].
  unfold logging_middleware. fold rid.
  set (x1 := VDict [("path", VStr (url_path request)); ("method", VStr (method request))]).
  set (started_msg := "Request started - " ++ method request ++ " " ++ url_path request).
  set (c1 := RequestContext.mk (VStr (clk_iso clk_in)) rid (VStr "-") svc env x1).
  destruct (log_bound logger INFO started_msg false clk_in (set_bound (Some c1) w) c1
              _ eq_refl eq_refl Hen) as (tail1 & Htail1 & Hstart).
  match type of Hstart with
  | _ = (emits (EHandle ?r :: _) _, _) => set (r1 := r) in *
  end.
  exists (emits (EHandle r1 :: tail1) (set_bound (Some c1) w)), r1.
  split.
  { simpl. rewrite records_of_app. simpl. now rewrite Htail1. }
  split; [reflexivity|]. split; [reflexivity|].
  intros w2 response Hnext Hregs.
  unfold bind at 1. rewrite hook_set_context. fold svc env c1.
  unfold try_except_Exception, bind.
  unfold FastAPILogger.info at 1. rewrite Hstart, Hnext.
  rewrite hook_set_context. fold svc env.
  set (x2 := VDict [("path", VStr (url_path request));
                    ("method", VStr (method request));
                    ("status_code", VInt (status_code response))]).
  set (c2 := RequestContext.mk (VStr (clk_iso clk_out)) rid (VStr "-") svc env x2).
  match goal with
  | |- context [FastAPILogger.info logger ?m ExtraAbsent false clk_out
                  (set_bound (Some c2) w2)] =>
      destruct (log_bound logger INFO m false clk_out (set_bound (Some c2) w2) c2
                  _ eq_refl eq_refl)
        as (tail2 & Htail2 & Hdone)
  end.
  { unfold the_logger in *. simpl in *. now rewrite Hregs. }
  unfold FastAPILogger.info. rewrite Hdone. unfold ret.
  match type of Hdone with
  | _ = (emits (EHandle ?r :: _) _, _) => set (r2 := r) in *
  end.
  eexists _, r2. split; [reflexivity|]. split.
  { simpl. rewrite records_of_app. simpl. now rewrite Htail2. }
  repeat split.
Qed.

Lemma request_records_carry_the_correlation_id_witness :
  exists w1 started,
    records_of (trace w1) = (records_of (trace booted_world) ++ [started])%list /\
    dict_get "request_id" (LogRecord.attrs started) = Some (VStr "3f2b8c1e").
Proof.
  destruct (proj2 (request_records_carry_the_correlation_id sample_logger
                     (mkRequest "GET" "/ping") (fun _ => ret (mkResponse 200))
                     "3f2b8c1e-9d4a-4c6e-8f1a-2b3c4d5e6f70" sample_clock sample_clock
                     booted_world booted_logger_enabled))
    as (w1 & started & Hrecs & Hrid & _).
  exists w1, started. split; [exact Hrecs | exact Hrid].
Defined.

(** ** The values of the structured document *)

Lemma NoDup_keys_dict_set {V} (k : string) (v : V) (d : dict V) :
  List.NoDup (dict_keys d) -> List.NoDup (dict_keys (dict_set k v d)).
Proof.
  induction d as [|[k' v'] d IH]; simpl; intros Hnd.
  - constructor; [intros []|constructor].
  - inversion Hnd as [|? ? Hnotin Hnd']; subst.
    destruct (String.eqb k k') eqn:E; simpl.
    + constructor; assumption.
    + constructor; [|now apply IH].
      intros Hin. apply dict_keys_set in Hin as [-> | Hin]; [|contradiction].
      rewrite String.eqb_refl in E. discriminate.
Qed.

Lemma NoDup_keys_dict_update {V} (d o : dict V) :
  List.NoDup (dict_keys d) -> List.NoDup (dict_keys (dict_update d o)).
Proof.
  unfold dict_update. revert d.
  induction o as [|[k v] o IH]; intros d Hnd; simpl; [exact Hnd|].
  apply IH. now apply NoDup_keys_dict_set.
Qed.

Lemma dict_get_map_values {V W} (f : V -> W) (k : string) (d : dict V) :
  dict_get k (map (fun kv => (fst kv, f (snd kv))) d) = option_map f (dict_get k d).
Proof.
  induction d as [|[k' v'] d IH]; simpl; [reflexivity|].
  now destruct (String.eqb k k').
Qed.

(** The document that the text of a dict without repeated key parses to,
    key by key. *)
Lemma parsed_document_lookup (m : dict pyval) (k : string) :
  List.NoDup (dict_keys m) ->
  dict_get k (json.dict_of_pairs (map (fun kv => (fst kv, json.canon (snd kv))) m))
  = option_map json.canon (dict_get k m).
Proof.
  intros Hnd. unfold json.dict_of_pairs.
  rewrite dict_get_update, dict_get_rev_NoDup, dict_get_map_values.
  - now destruct (dict_get k m).
  - now rewrite (dict_keys_map_values (fun kv => json.canon (snd kv))).
Qed.

(** X14.  In the document that the structured formatter writes, the items
    of the record's [extra] dict win over the four keys the formatter sets
    itself (timestamp, level, message, logger), and the text of a captured
    exception wins over an [exception] item of that dict: parsing the text
    gives, under each key, the value of the last of the three that set it. *)
Theorem json_document_precedence :
  forall record now s d,
    dict_get "extra" (LogRecord.attrs record) = Some (VDict d) ->
    List.NoDup (dict_keys d) ->
    JsonFormatter.format record now = Ok s ->
    exists doc,
      json.loads s = Ok (VDict doc) /\
      (forall ei,
         LogRecord.exc_info record = Some ei ->
         dict_get "exception" doc = Some (VStr (formatException ei))) /\
      (forall k v,
         dict_get k d = Some v ->
         k <> "exception" \/ LogRecord.exc_info record = None ->
         dict_get k doc = Some (json.canon v)) /\
      (forall k,
         dict_get k d = None ->
         k <> "exception" \/ LogRecord.exc_info record = None ->
         dict_get k doc =
         dict_get k [("timestamp", VStr now);
                     ("level", VStr (levelname (LogRecord.level record)));
                     ("message", VStr (LogRecord.message record));
                     ("logger", VStr (LogRecord.name record))]).
Proof.
  intros record now s d Hextra Hnd Hfmt.
  rewrite (format_of_dict record now d (or_intror Hextra)) in Hfmt.
  set (base := [("timestamp", VStr now);
                ("level", VStr (levelname (LogRecord.level record)));
                ("message", VStr (LogRecord.message record));
                ("logger", VStr (LogRecord.name record))]) in *.
  assert (Hbase : List.NoDup (dict_keys base)).
  { simpl. repeat (constructor; [simpl; intuition discriminate|]). constructor. }
  assert (Hcanon : forall k, option_map json.canon (dict_get k base) = dict_get k base).
  { intros k. simpl.
    destruct (String.eqb k "timestamp"); [reflexivity|].
    destruct (String.eqb k "level"); [reflexivity|].
    destruct (String.eqb k "message"); [reflexivity|].
    destruct (String.eqb k "logger"); reflexivity. }
  assert (Hupd : forall k, dict_get k (dict_update base d) =
                           match dict_get k d with
                           | Some v => Some v
                           | None => dict_get k base
                           end).
  { intros k. now rewrite dict_get_update, dict_get_rev_NoDup. }
  apply loads_dumps in Hfmt.
  match type of Hfmt with
  | _ = Ok (json.canon (VDict ?m)) =>
      change (json.canon (VDict m))
        with (VDict (json.dict_of_pairs
                       (map (fun kv => (fst kv, json.canon (snd kv))) m))) in Hfmt;
      assert (Hm : List.NoDup (dict_keys m))
  end.
  { destruct (LogRecord.exc_info record).
    - now apply NoDup_keys_dict_set, NoDup_keys_dict_update.
    - now apply NoDup_keys_dict_update. }
  eexists. split; [exact Hfmt|].
  split; [|split].
  - intros ei Hei. rewrite parsed_document_lookup by exact Hm.
    rewrite Hei. now rewrite dict_get_set_eq.
  - intros k v Hk Hor. rewrite parsed_document_lookup by exact Hm.
    destruct (LogRecord.exc_info record) as [ei|].
    + destruct Hor as [Hne | [=]].
      rewrite dict_get_set_ne by exact Hne. now rewrite Hupd, Hk.
    + now rewrite Hupd, Hk.
  - intros k Hk Hor. rewrite parsed_document_lookup by exact Hm.
    destruct (LogRecord.exc_info record) as [ei|].
    + destruct Hor as [Hne | [=]].
      rewrite dict_get_set_ne by exact Hne. rewrite Hupd, Hk. apply Hcanon.
    + rewrite Hupd, Hk. apply Hcanon.
Qed.

Lemma json_document_precedence_witness :
  exists s doc,
    JsonFormatter.format overriding_record "2024-05-01T10:00:00.000000" = Ok s /\
    json.loads s = Ok (VDict doc) /\
    dict_get "message" doc = Some (VStr "from-context").
Proof.
  eexists.
  destruct (json_document_precedence overriding_record "2024-05-01T10:00:00.000000"
              _ [("message", VStr "from-context")] eq_refl
              (NoDup_one_key "message") eq_refl)
    as (doc & Hloads & _ & Hval & _).
  exists doc. split; [reflexivity|]. split; [exact Hloads|].
  apply (Hval "message" (VStr "from-context") eq_refl). left. discriminate.
Defined.

(** ** The application *)

Lemma user_set_context self uid now w :
  FastAPILogger.set_context self [("user_id", uid)] now w =
  (set_bound
     (Some (RequestContext.mk (VStr now) (VStr "-") uid
              (VStr (FastAPILogger.service_name self))
              (VStr (FastAPILogger.environment self)) VNone)) w,
   Ok tt).
Proof. reflexivity. Qed.

Lemma records_of_cons_handle r tail :
  records_of (EHandle r :: tail) = r :: records_of tail.
Proof. reflexivity. Qed.

(** The two records that [test_logging] logs first. *)
Lemma test_logging_prefix logger request clk w :
  getEffectiveLevel (the_logger (FastAPILogger.name logger) w) <= levelno DEBUG ->
  let c := RequestContext.mk (VStr (clk_iso clk)) (VStr "-")
             (VStr (main.user_id request))
             (VStr (FastAPILogger.service_name logger))
             (VStr (FastAPILogger.environment logger)) VNone in
  let attrs :=
    [("timestamp", VStr (clk_iso clk)); ("request_id", VStr "-");
     ("user_id", VStr (main.user_id request));
     ("service", VStr (FastAPILogger.service_name logger));
     ("environment", VStr (FastAPILogger.environment logger))] in
  let r1 := LogRecord.mk (FastAPILogger.name logger) INFO
              ("테스트 메시지 수신: " ++ main.message request) None
              (clk_asctime clk) attrs in
  let r2 := LogRecord.mk (FastAPILogger.name logger) DEBUG
              "디버그 레벨 로그 테스트" None (clk_asctime clk) attrs in
  exists w2,
    (forall (A : Type) (k : M A),
       (FastAPILogger.info logger ("테스트 메시지 수신: " ++ main.message request)
          ExtraAbsent false clk ;;;
        FastAPILogger.debug logger "디버그 레벨 로그 테스트" ExtraAbsent false clk ;;;
        k) (set_bound (Some c) w) = k w2) /\
    records_of (trace w2) = (records_of (trace w) ++ [r1; r2])%list /\
    loggers w2 = loggers w /\ context w2 = Some c /\ handling w2 = handling w.
Proof.
  intros Hen c attrs r1 r2.
  destruct (log_bound logger INFO ("테스트 메시지 수신: " ++ main.message request)
              false clk (set_bound (Some c) w) c attrs eq_refl eq_refl)
    as (t1 & Ht1 & H1).
  { unfold the_logger in *. simpl in *. destruct (loggers w !! _); simpl in *; lia. }
  fold r1 in H1.
  destruct (log_bound logger DEBUG "디버그 레벨 로그 테스트" false clk
              (emits (EHandle r1 :: t1) (set_bound (Some c) w)) c attrs eq_refl eq_refl)
    as (t2 & Ht2 & H2).
  { exact Hen. }
  fold r2 in H2.
  eexists. split.
  { intros A k. unfold bind, FastAPILogger.info, FastAPILogger.debug.
    rewrite H1, H2. reflexivity. }
  split; [|repeat split].
  rewrite !trace_emits. change (trace (set_bound (Some c) w)) with (trace w).
  rewrite !records_of_app, !records_of_cons_handle, Ht1, Ht2.
  now rewrite <- app_assoc.
Qed.

(** X15.  POST /test-log with a message other than [error] answers with
    the message and logs two records, INFO then DEBUG.  Its [set_context]
    replaces the bound context: both records carry the user id of the
    request and the default request id, whatever correlation id was bound
    when the handler was entered, and that context stays bound. *)
Theorem test_logging_replaces_the_request_context :
  forall logger request clk w,
    getEffectiveLevel (the_logger (FastAPILogger.name logger) w) <= levelno DEBUG ->
    main.message request <> "error" ->
    exists w' r1 r2,
      main.test_logging logger request clk w =
      (w', Ok [("status", VStr "success");
               ("message", VStr "로그 테스트 완료");
               ("your_message", VStr (main.message request))]) /\
      records_of (trace w') = (records_of (trace w) ++ [r1; r2])%list /\
      LogRecord.level r1 = INFO /\ LogRecord.level r2 = DEBUG /\
      (forall r, r = r1 \/ r = r2 ->
         dict_get "user_id" (LogRecord.attrs r) = Some (VStr (main.user_id request)) /\
         dict_get "request_id" (LogRecord.attrs r) = Some (VStr "-")) /\
      context w' =
        Some (RequestContext.mk (VStr (clk_iso clk)) (VStr "-")
                (VStr (main.user_id request))
                (VStr (FastAPILogger.service_name logger))
                (VStr (FastAPILogger.environment logger)) VNone).
Proof.
  intros logger request clk w Hen Hmsg.
  destruct (test_logging_prefix logger request clk w Hen)
    as (w2 & Hrun & Hrecs & _ & Hctx & _).
  cbv zeta in Hrun, Hrecs, Hctx.
  unfold main.test_logging.
  unfold bind at 1. rewrite user_set_context.
  unfold try_except_Exception. rewrite Hrun.
  apply String.eqb_neq in Hmsg. rewrite Hmsg. unfold ret.
  do 3 eexists. split; [reflexivity|].
  split; [exact Hrecs|]. split; [reflexivity|]. split; [reflexivity|].
  split; [|exact Hctx].
  intros r [-> | ->]; split; reflexivity.
Qed.

Lemma test_logging_replaces_the_request_context_witness :
  exists w',
    main.test_logging sample_logger (main.mkTestRequest "u1" "hello") sample_clock
      booted_world =
    (w', Ok [("status", VStr "success");
             ("message", VStr "로그 테스트 완료");
             ("your_message", VStr "hello")]).
Proof.
  destruct (test_logging_replaces_the_request_context sample_logger
              (main.mkTestRequest "u1" "hello") sample_clock booted_world)
    as (w' & r1 & r2 & Hrun & _).
  - vm_compute. discriminate.
  - discriminate.
  - exists w'. exact Hrun.
Defined.

(** X16.  POST /test-log with the message [error] logs the same two
    records, raises its ValueError, logs a third record at ERROR with that
    exception captured and its text in the message, and raises the same
    exception again to its caller. *)
Theorem test_logging_logs_and_reraises :
  forall logger request clk w,
    getEffectiveLevel (the_logger (FastAPILogger.name logger) w) <= levelno DEBUG ->
    main.message request = "error" ->
    let e := mkExn ValueError "테스트 에러 발생" in
    exists w' r1 r2 r3,
      main.test_logging logger request clk w = (w', Raise e) /\
      records_of (trace w') = (records_of (trace w) ++ [r1; r2; r3])%list /\
      LogRecord.level r1 = INFO /\ LogRecord.level r2 = DEBUG /\
      LogRecord.level r3 = ERROR /\
      LogRecord.message r3 = "에러 발생: 테스트 에러 발생" /\
      LogRecord.exc_info r3 = Some (Some e) /\
      dict_get "user_id" (LogRecord.attrs r3) = Some (VStr (main.user_id request)) /\
      handling w' = handling w.
Proof.
  intros logger request clk w Hen Hmsg e.
  destruct (test_logging_prefix logger request clk w Hen)
    as (w2 & Hrun & Hrecs & Hregs & Hctx & Hh).
  cbv zeta in Hrun, Hrecs, Hctx.
  unfold main.test_logging.
  unfold bind at 1. rewrite user_set_context.
  unfold try_except_Exception. rewrite Hrun.
  rewrite Hmsg, String.eqb_refl. unfold raise at 1. cbv beta iota.
  change (is_Exception (mkExn ValueError "테스트 에러 발생")) with true. cbv iota.
  destruct (log_bound logger ERROR ("에러 발생: " ++ exn_msg (mkExn ValueError "테스트 에러 발생"))
              true clk (set_handling (Some (mkExn ValueError "테스트 에러 발생")) w2) _ _
              Hctx eq_refl)
    as (t3 & Ht3 & H3).
  { unfold the_logger in *. simpl in *. rewrite Hregs.
    destruct (loggers w !! _); simpl in *; lia. }
  unfold bind, FastAPILogger.error. rewrite H3. unfold raise.
  match type of H3 with
  | _ = (emits (EHandle ?r :: _) _, _) => set (r3 := r) in *
  end.
  eexists _, _, _, r3. split; [reflexivity|].
  split.
  { cbn [fst]. change (trace (set_handling ?h ?x)) with (trace x).
    rewrite trace_emits. change (trace (set_handling ?h ?x)) with (trace x).
    rewrite records_of_app, records_of_cons_handle, Ht3, Hrecs.
    rewrite <- app_assoc. reflexivity. }
  split; [reflexivity|]. split; [reflexivity|]. split; [reflexivity|].
  split; [reflexivity|]. split; [reflexivity|]. split; [reflexivity|].
  simpl. exact Hh.
Qed.

Lemma test_logging_logs_and_reraises_witness :
  snd (main.test_logging sample_logger (main.mkTestRequest "u1" "error") sample_clock
         booted_world)
  = Raise (mkExn ValueError "테스트 에러 발생").
Proof.
  destruct (test_logging_logs_and_reraises sample_logger
              (main.mkTestRequest "u1" "error") sample_clock booted_world)
    as (w' & r1 & r2 & r3 & Hrun & _).
  - vm_compute. discriminate.
  - reflexivity.
  - rewrite Hrun. reflexivity.
Defined.

(** X17.  The startup of the application does not fail with the remote
    setup: when the setup raises an Exception, [lifespan] prints the error
    and returns normally, leaving the loggers as the setup left them, so
    that the application starts with the sinks it has.  With the setup of
    the facade and a remote configuration, it returns normally with the
    remote handler behind the handlers of the logger. *)
Theorem startup_survives_a_failed_setup :
  (forall setup w w1 e,
     setup (emits [EWrite SStdout (OText "Starting Elasticsearch setup...")] w)
     = (w1, Raise e) ->
     is_Exception e = true ->
     main.lifespan setup w =
     (emits [EWrite SStdout (OText ("Error setting up Elasticsearch: " ++ exn_msg e))]
        w1,
      Ok tt)) /\
  (forall logger w,
     (exists kv cfg, FastAPILogger.elastic_config logger = Some (kv :: cfg)) ->
     exists w',
       main.lifespan (FastAPILogger._setup_elasticsearch logger) w = (w', Ok tt) /\
       handlers (the_logger (FastAPILogger.name logger) w')
       = (handlers (the_logger (FastAPILogger.name logger) w)
            ++ [FastAPILogger.elastic_handler])%list /\
       context w' = context w).
Proof.
  split.
  - intros setup w w1 e Hsetup Hexn.
    unfold main.lifespan, bind at 1, emit_effects at 1.
    unfold try_except_Exception, bind at 1. rewrite Hsetup, Hexn.
    reflexivity.
  - intros logger w (kv & cfg & Hcfg).
    unfold main.lifespan, bind at 1, emit_effects at 1.
    unfold try_except_Exception, bind at 1.
    rewrite setup_elasticsearch_result, Hcfg. cbv zeta.
    unfold emit_effects.
    eexists. split; [reflexivity|]. split; [|reflexivity].
    cbn [fst]. unfold the_logger. simpl. now rewrite lookup_insert_eq.
Qed.

Lemma startup_survives_a_failed_setup_witness :
  snd (main.lifespan (fun w => (w, Raise (mkExn ConnectionError "Connection refused")))
         configured_world) = Ok tt.
Proof.
  rewrite (proj1 startup_survives_a_failed_setup
             (fun w => (w, Raise (mkExn ConnectionError "Connection refused")))
             configured_world _ (mkExn ConnectionError "Connection refused")
             eq_refl eq_refl).
  reflexivity.
Defined.



(** ** What never reaches the remote store *)

Lemma no_index_in_handle h record now idx doc :
  ~ In (EIndex idx doc) (Handler_handle h record now).
Proof.
  unfold Handler_handle, StreamHandler_emit.
  destruct (h_kind h); try destruct (format_with _ _ _);
    simpl; intuition discriminate.
Qed.

Lemma no_index_in_callHandlers lg record now idx doc :
  ~ In (EIndex idx doc) (callHandlers lg record now).
Proof.
  unfold callHandlers. destruct (handlers lg) as [|h0 hs0].
  - destruct (30 <=? _); simpl; intuition discriminate.
  - intros Hin. apply in_flat_map in Hin as (h & _ & Hin).
    now apply no_index_in_handle in Hin.
Qed.

(** X19.  No call of the facade delivers a document to the remote store,
    whatever handlers the logger has: [emit] of the remote handler is a
    coroutine function, and [Handler.handle] calls it without awaiting it,
    so that a record handed to the remote handler leaves a coroutine object
    and nothing else. *)
Theorem facade_never_indexes_a_document :
  forall self lvl msg extra exc clk w w' res,
    FastAPILogger.log self lvl msg extra exc clk w = (w', res) ->
    exists es,
      trace w' = (trace w ++ es)%list /\
      (forall idx doc, ~ In (EIndex idx doc) es) /\
      (forall r h,
         In (EHandle r) es ->
         In h (handlers (the_logger (FastAPILogger.name self) w)) ->
         (exists index, h_kind h = Elasticsearch index) ->
         h_level h <= levelno lvl ->
         In (ECoroutine h r) es).
Proof.
  intros self lvl msg extra exc clk w w' res Hlog.
  assert (Hnone : w' = w \/ trace w' = trace w ->
            exists es,
              trace w' = (trace w ++ es)%list /\
              (forall idx doc, ~ In (EIndex idx doc) es) /\
              (forall r h,
                 In (EHandle r) es ->
                 In h (handlers (the_logger (FastAPILogger.name self) w)) ->
                 (exists index, h_kind h = Elasticsearch index) ->
                 h_level h <= levelno lvl ->
                 In (ECoroutine h r) es)).
  { intros Heq. exists []. rewrite app_nil_r.
    split; [destruct Heq as [-> | ->]; reflexivity|].
    split; intros; simpl in *; tauto. }
  destruct (log_cases self lvl msg extra exc clk w) as (ctx & _ & Hcases).
  destruct Hcases as [(_ & e & _ & H) | (d & _ & [(e & _ & _ & H) | (f & _ & H)])];
    try (rewrite H in Hlog; injection Hlog as <- <-; apply Hnone; now left).
  cbv zeta in H.
  pose proof (updated_in_place_frame extra (dict_update d f) w) as (_ & _ & _ & F4).
  destruct H as [[_ H] | [(_ & k & _ & _ & H) | (_ & _ & H)]];
    rewrite H in Hlog; injection Hlog as <- <-;
    try (apply Hnone; now right).
  eexists. split; [rewrite trace_emits, F4; reflexivity|]. split.
  - intros idx doc [Hin | Hin]; [discriminate|].
    now apply no_index_in_callHandlers in Hin.
  - intros r h [Heq | Hin] Hh [index Hkind] Hlvl.
    + injection Heq as <-. right.
      unfold callHandlers.
      destruct (handlers (the_logger (FastAPILogger.name self) w)) as [|h0 hs0] eqn:Eh;
        [contradiction|].
      apply in_flat_map. exists h. split.
      * apply receivers_In. rewrite Eh. split; [exact Hh|exact Hlvl].
      * unfold Handler_handle. rewrite Hkind. now left.
    + exfalso.
      match type of Hin with
      | In _ (callHandlers ?lg ?rec ?now) =>
          assert (Hr : In r (records_of (callHandlers lg rec now)))
      end.
      { unfold records_of. apply in_flat_map. exists (EHandle r).
        split; [exact Hin | now left]. }
      rewrite records_of_callHandlers in Hr. exact Hr.
Qed.

Lemma facade_never_indexes_a_document_witness :
  exists es,
    trace (fst (FastAPILogger.log sample_logger INFO "m" ExtraAbsent false sample_clock
                  booted_world)) =
    (trace booted_world ++ es)%list /\
    (forall idx doc, ~ In (EIndex idx doc) es).
Proof.
  destruct (facade_never_indexes_a_document sample_logger INFO "m" ExtraAbsent false
              sample_clock booted_world
              (fst (FastAPILogger.log sample_logger INFO "m" ExtraAbsent false sample_clock
                      booted_world))
              (snd (FastAPILogger.log sample_logger INFO "m" ExtraAbsent false sample_clock
                      booted_world)))
    as (es & Htr & Hno & _).
  - apply surjective_pairing.
  - exists es. split; [exact Htr | exact Hno].
Defined.
